(** * django_api: request/response validation decorators and JSON responses

    A shallow embedding of [django_api/decorators.py] and
    [django_api/json.py].  Python objects become an inductive type of
    values, exceptions become an error result, and the two effects the
    decorators have (calling the view function, writing to the logger) are
    recorded in a trace that is threaded through every call.

    The collaborators that live outside the repository (the [int] builtin,
    [simplejson.loads], the ORM lookup [objects.get], [settings.DEBUG]) are
    Section variables; a reference JSON reader and writer in the style of
    simplejson are defined here so that the development can be run. *)

From Stdlib Require Import ZArith Lia List String Ascii DecimalString DecimalFacts DecimalPos.
From stdpp Require Import gmap strings list fin_maps.

Set Warnings "-register-all".

Open Scope string_scope.
Open Scope Z_scope.

(* ===================================================================== *)
(** ** Text *)
(* ===================================================================== *)

(** Python text is modelled by Rocq strings; a character is a code point
    below 256. *)
Module Text.

Definition code (c : ascii) : N := N_of_ascii c.

(** [' ' <= c <= '~'] *)
Definition printable (c : ascii) : bool :=
  (32 <=? code c)%N && (code c <=? 126)%N.

Definition hex_digit (n : N) : ascii :=
  if (n <? 10)%N then ascii_of_N (48 + n) else ascii_of_N (87 + n).

Definition hex2 (c : ascii) : string :=
  String (hex_digit (code c / 16)) (String (hex_digit (code c mod 16)) "").

(** [str(z)] for an integer. *)
Definition str_of_Z (z : Z) : string := NilZero.string_of_int (Z.to_int z).

Definition zeros (n : nat) : string := string_of_list_ascii (repeat "0"%char n).

(** ['%0<w>d' % z] *)
Definition fmt_0d (w : nat) (z : Z) : string :=
  let digits := str_of_Z (Z.abs z) in
  if z <? 0
  then "-" ++ zeros (w - 1 - String.length digits) ++ digits
  else zeros (w - String.length digits) ++ digits.

(** The double quote character. *)
Definition dquote : ascii := "034"%char.

Fixpoint concat_map (f : ascii -> string) (s : string) : string :=
  match s with
  | EmptyString => ""
  | String c r => f c ++ concat_map f r
  end.

Fixpoint mem_char (c : ascii) (s : string) : bool :=
  match s with
  | EmptyString => false
  | String d r => if Ascii.eqb c d then true else mem_char c r
  end.

(** [sep.join(l)] *)
Fixpoint join (sep : string) (l : list string) : string :=
  match l with
  | [] => ""
  | [x] => x
  | x :: r => x ++ sep ++ join sep r
  end.

(** [needle in hay] for two strings. *)
Fixpoint contains (needle hay : string) : bool :=
  if String.prefix needle hay then true
  else match hay with
       | EmptyString => false
       | String _ r => contains needle r
       end.

(** The first value stored under [key]. *)
Fixpoint assoc {A} (key : string) (l : list (string * A)) : option A :=
  match l with
  | [] => None
  | (k, v) :: r => if String.eqb key k then Some v else assoc key r
  end.

(** A character that stands for itself in a JSON string literal. *)
Definition plain (c : ascii) : bool :=
  printable c && negb (Ascii.eqb c dquote) && negb (Ascii.eqb c "\").

Fixpoint all_plain (s : string) : bool :=
  match s with
  | EmptyString => true
  | String c r => plain c && all_plain r
  end.

(** One character of [repr(s)], for the quote character [q]. *)
Definition repr_char (q c : ascii) : string :=
  if Ascii.eqb c q then String "\" (String q "")
  else if Ascii.eqb c "\" then "\\"
  else if Ascii.eqb c "009" then "\t"
  else if Ascii.eqb c "010" then "\n"
  else if Ascii.eqb c "013" then "\r"
  else if printable c then String c ""
  else "\x" ++ hex2 c.

(** The quote [repr] picks: double quotes only when the text has a single
    quote and no double quote. *)
Definition repr_quote (s : string) : ascii :=
  if mem_char "'" s && negb (mem_char dquote s) then dquote else "'"%char.

(** [repr(s)] for a byte string. *)
Definition repr_str (s : string) : string :=
  let q := repr_quote s in
  String q (concat_map (repr_char q) s ++ String q "").

(** [repr(s)] for a unicode string. *)
Definition repr_unicode (s : string) : string := "u" ++ repr_str s.

(** [repr(l)] for a list whose items are already rendered. *)
Definition repr_list (items : list string) : string :=
  "[" ++ join ", " items ++ "]".

(** [repr(d)] for a dict whose keys and values are already rendered. *)
Definition repr_dict (items : list (string * string)) : string :=
  "{" ++ join ", " (List.map (fun kv => fst kv ++ ": " ++ snd kv) items) ++ "}".

End Text.

(* ===================================================================== *)
(** ** Python values, exceptions and effects *)
(* ===================================================================== *)

(** [datetime.date] *)
Record date := mkdate { year : Z; month : Z; day : Z }.

(** [datetime.datetime]; [utcoffset] is the offset of an aware value in
    minutes, [None] for a naive one. *)
Record datetime := mkdatetime {
  dt_date : date;
  hour : Z; minute : Z; second : Z; microsecond : Z;
  utcoffset : option Z
}.

(** The exceptions that occur. *)
Inductive exn :=
| ValueError (msg : string)
| TypeError (msg : string)
| AttributeError (msg : string)
| KeyError (msg : string)
| RuntimeError (msg : string).

(** The outcome of a call: a value or a raised exception. *)
Inductive res (A : Type) :=
| Ok (a : A)
| Raise (e : exn).
Arguments Ok {A} a.
Arguments Raise {A} e.

(** The values the decorators and the encoder handle.  A float is denoted
    by its [repr]; a [Decimal] carries its coefficient, its exponent and
    what [float()] makes of it: the [repr] of its image, whose rounding is
    the interpreter's, or the exception [float()] raises for a signaling
    NaN; a [QuerySet] carries the rows [list()] gives; [PModel] is a model
    instance and [PObject] any other object.  A value is a finite tree: a
    container that holds itself is not among them. *)
Inductive pyval :=
| PNone
| PBool (b : bool)
| PInt (z : Z)
| PFloat (repr : string)
| PStr (s : string)
| PList (l : list pyval)
| PDict (d : list (pyval * pyval))
| PDate (d : date)
| PDatetime (d : datetime)
| PDecimal (coefficient exponent : Z) (as_float : res string)
| PQuerySet (rows : list pyval)
| PModel (cls : string) (pk : Z)
| PObject (cls : string).

Definition res_bind {A B} (r : res A) (k : A -> res B) : res B :=
  match r with
  | Ok a => k a
  | Raise e => Raise e
  end.

(** [f] on the items of [l] from left to right, up to the first that
    raises. *)
Fixpoint res_all {A B} (f : A -> res B) (l : list A) : res (list B) :=
  match l with
  | [] => Ok []
  | x :: r =>
      res_bind (f x) (fun y => res_bind (res_all f r) (fun ys => Ok (y :: ys)))
  end.

Declare Scope res_scope.
Delimit Scope res_scope with res.
Notation "'let?' x ':=' r 'in' k" := (res_bind r (fun x => k))
  (at level 10, x pattern, r at level 100, k at level 200) : res_scope.
Open Scope res_scope.

Module Py.

(** [bool(v)] *)
Definition truthy (v : pyval) : bool :=
  match v with
  | PNone => false
  | PBool b => b
  | PInt z => negb (z =? 0)
  | PFloat r => negb (String.eqb r "0.0" || String.eqb r "-0.0")
  | PStr s => negb (String.eqb s "")
  | PList l => match l with [] => false | _ => true end
  | PDict d => match d with [] => false | _ => true end
  | PDate _ | PDatetime _ => true
  | PDecimal c _ _ => negb (c =? 0)
  | PQuerySet rows => match rows with [] => false | _ => true end
  | PModel _ _ | PObject _ => true
  end.

(** [a or b] *)
Definition or_ (a b : pyval) : pyval := if truthy a then a else b.

(** [date.isoformat()]: ['%04d-%02d-%02d']. *)
Definition date_isoformat (d : date) : string :=
  Text.fmt_0d 4 (year d) ++ "-" ++ Text.fmt_0d 2 (month d) ++ "-" ++ Text.fmt_0d 2 (day d).

(** The UTC offset suffix, [+HH:MM] or [-HH:MM]. *)
Definition format_utcoffset (off : Z) : string :=
  (if off <? 0 then "-" else "+")
    ++ Text.fmt_0d 2 (Z.abs off / 60) ++ ":" ++ Text.fmt_0d 2 (Z.abs off mod 60).

(** [datetime.isoformat()]: the date, ['T'], the time, the microseconds
    when they are not zero, the offset of an aware value. *)
Definition datetime_isoformat (d : datetime) : string :=
  date_isoformat (dt_date d) ++ "T"
    ++ Text.fmt_0d 2 (hour d) ++ ":" ++ Text.fmt_0d 2 (minute d) ++ ":" ++ Text.fmt_0d 2 (second d)
    ++ (if microsecond d =? 0 then "" else "." ++ Text.fmt_0d 6 (microsecond d))
    ++ match utcoffset d with
       | None => ""
       | Some off => format_utcoffset off
       end.

(** [v.isoformat()], for the values that have the method. *)
Definition isoformat (v : pyval) : option string :=
  match v with
  | PDate d => Some (date_isoformat d)
  | PDatetime d => Some (datetime_isoformat d)
  | _ => None
  end.

(** [str(cls)] for a class. *)
Definition str_of_class (cls : string) : string := "<class '" ++ cls ++ "'>".

End Py.

(* ===================================================================== *)
(** ** json.py: the encoder *)
(* ===================================================================== *)

(** The parts of [simplejson] that [JsonResponse] and
    [validate_json_request] rely on: [JSONEncoder.encode] with compact
    separators and ASCII output, and [loads]. *)
Module simplejson.

(** One character of a string literal ([ESCAPE_ASCII]). *)
Definition escape_char (c : ascii) : string :=
  if Ascii.eqb c "\" then "\\"
  else if Ascii.eqb c Text.dquote then String "\" (String Text.dquote "")
  else if Ascii.eqb c "008" then "\b"
  else if Ascii.eqb c "012" then "\f"
  else if Ascii.eqb c "010" then "\n"
  else if Ascii.eqb c "013" then "\r"
  else if Ascii.eqb c "009" then "\t"
  else if Text.printable c then String c ""
  else "\u00" ++ Text.hex2 c.

Definition encode_basestring_ascii (s : string) : string :=
  String Text.dquote (Text.concat_map escape_char s ++ String Text.dquote "").

(** [floatstr]: the float's [repr], with the three names JavaScript
    uses for the values that are not numbers. *)
Definition floatstr (r : string) : string :=
  if String.eqb r "nan" then "NaN"
  else if String.eqb r "inf" then "Infinity"
  else if String.eqb r "-inf" then "-Infinity"
  else r.

(** The values the encoder writes without asking [default]. *)
Definition native (o : pyval) : bool :=
  match o with
  | PNone | PBool _ | PInt _ | PFloat _ | PStr _ | PList _ | PDict _ => true
  | _ => false
  end.

(** A value with no parts. *)
Definition encode_scalar (o : pyval) : res string :=
  match o with
  | PStr s => Ok (encode_basestring_ascii s)
  | PNone => Ok "null"
  | PBool true => Ok "true"
  | PBool false => Ok "false"
  | PInt z => Ok (Text.str_of_Z z)
  | PFloat r => Ok (floatstr r)
  | _ => Raise (TypeError "is not JSON serializable")
  end.

(** A dict key: text as it is, numbers and constants by their JSON
    spelling, anything else is refused. *)
Definition encode_key (k : pyval) : res string :=
  match k with
  | PStr s => Ok s
  | PFloat r => Ok (floatstr r)
  | PBool true => Ok "true"
  | PBool false => Ok "false"
  | PNone => Ok "null"
  | PInt z => Ok (Text.str_of_Z z)
  | _ => Raise (TypeError "keys must be a string")
  end.

Definition array_text (items : list string) : string :=
  "[" ++ Text.join "," items ++ "]".

Definition object_text (members : list string) : string :=
  "{" ++ Text.join "," members ++ "}".

Definition member_text (key value : string) : string :=
  encode_basestring_ascii key ++ ":" ++ value.

Section Encoder.

(** The hook a subclass overrides: what to encode in place of a value
    that is not native; it may raise. *)
Variable default : pyval -> res pyval.

(** One member of an object: the key, then the value. *)
Definition encode_member (enc : pyval -> res string) (kv : pyval * pyval) : res string :=
  let? sk := encode_key (fst kv) in
  let? sv := enc (snd kv) in
  Ok (member_text sk sv).

(** [JSONEncoder.encode(o)].  A native value is written directly.  Any
    other value is replaced by [default(o)] and that is written: a
    scalar by [encode_scalar]; the rows of a query set one by one, as
    the list [default] makes of them. *)
Fixpoint encode (o : pyval) : res string :=
  match o with
  | PNone | PBool _ | PInt _ | PFloat _ | PStr _ => encode_scalar o
  | PList l => let? ss := res_all encode l in Ok (array_text ss)
  | PDict d => let? ss := res_all (encode_member encode) d in Ok (object_text ss)
  | PQuerySet rows => let? ss := res_all encode rows in Ok (array_text ss)
  | PDate _ | PDatetime _ | PDecimal _ _ _ | PModel _ _ | PObject _ =>
      let? replacement := default o in encode_scalar replacement
  end.

(** Every key of every dict in [o] is one the encoder writes. *)
Fixpoint keys_ok (o : pyval) : bool :=
  match o with
  | PList l | PQuerySet l => forallb keys_ok l
  | PDict d =>
      forallb (fun kv => match encode_key (fst kv) with
                         | Ok _ => keys_ok (snd kv)
                         | Raise _ => false
                         end) d
  | _ => true
  end.

End Encoder.

(** *** The decoder *)

(** A blank: space, tab, line feed, carriage return. *)
Definition is_ws (c : ascii) : bool :=
  Text.mem_char c (String " " (String "009" (String "010" (String "013" "")))).

Definition is_digit (c : ascii) : bool :=
  (48 <=? Text.code c)%N && (Text.code c <=? 57)%N.

Fixpoint skip_ws (s : string) : string :=
  match s with
  | String c r => if is_ws c then skip_ws r else s
  | EmptyString => s
  end.

(** The longest prefix of digits, and what follows it. *)
Fixpoint span_digits (s : string) : string * string :=
  match s with
  | String c r =>
      if is_digit c then let (d, rest) := span_digits r in (String c d, rest)
      else ("", s)
  | EmptyString => ("", s)
  end.

Definition digit_value (c : ascii) : Z := Z.of_N (Text.code c) - 48.

Fixpoint Z_of_digits (acc : Z) (s : string) : Z :=
  match s with
  | String c r => Z_of_digits (10 * acc + digit_value c) r
  | EmptyString => acc
  end.

Definition hex_value (c : ascii) : option N :=
  let n := Text.code c in
  if is_digit c then Some (n - 48)%N
  else if (97 <=? n)%N && (n <=? 102)%N then Some (n - 87)%N
  else if (65 <=? n)%N && (n <=? 70)%N then Some (n - 55)%N
  else None.

Definition hex4 (a b c d : ascii) : option N :=
  match hex_value a, hex_value b, hex_value c, hex_value d with
  | Some x, Some y, Some z, Some w => Some (((x * 16 + y) * 16 + z) * 16 + w)%N
  | _, _, _, _ => None
  end.

(** The character a backslash escape stands for ([BACKSLASH]). *)
Definition unescape (e : ascii) : option ascii :=
  if Ascii.eqb e Text.dquote then Some Text.dquote
  else if Ascii.eqb e "\" then Some "\"%char
  else if Ascii.eqb e "/" then Some "/"%char
  else if Ascii.eqb e "b" then Some "008"%char
  else if Ascii.eqb e "f" then Some "012"%char
  else if Ascii.eqb e "n" then Some "010"%char
  else if Ascii.eqb e "r" then Some "013"%char
  else if Ascii.eqb e "t" then Some "009"%char
  else None.

(** [scanstring], strict: the text of a string literal from just after
    its opening quote, and what follows its closing quote.  An escape
    for a code point the text model has no character for is refused. *)
Fixpoint scanstring (s : string) : res (string * string) :=
  match s with
  | EmptyString => Raise (ValueError "Unterminated string starting at")
  | String c r =>
      if Ascii.eqb c Text.dquote then Ok ("", r)
      else if Ascii.eqb c "\" then
        match r with
        | EmptyString => Raise (ValueError "Unterminated string starting at")
        | String e r1 =>
            if Ascii.eqb e "u" then
              match r1 with
              | String h1 (String h2 (String h3 (String h4 r2))) =>
                  match hex4 h1 h2 h3 h4 with
                  | Some n =>
                      if (n <? 256)%N then
                        let? (t, rest) := scanstring r2 in Ok (String (ascii_of_N n) t, rest)
                      else Raise (ValueError "code point outside the text model")
                  | None => Raise (ValueError "Invalid \uXXXX escape")
                  end
              | _ => Raise (ValueError "Invalid \uXXXX escape")
              end
            else
              match unescape e with
              | Some ch => let? (t, rest) := scanstring r1 in Ok (String ch t, rest)
              | None => Raise (ValueError "Invalid \escape")
              end
        end
      else if (Text.code c <? 32)%N then Raise (ValueError "Invalid control character at")
      else let? (t, rest) := scanstring r in Ok (String c t, rest)
  end.

(** The optional fraction [\.\d+] at the head of [s]. *)
Definition scan_frac (s : string) : string * string :=
  match s with
  | String "." r =>
      let (d, rest) := span_digits r in
      if String.eqb d "" then ("", s) else ("." ++ d, rest)
  | _ => ("", s)
  end.

(** The optional exponent [[eE][-+]?\d+] at the head of [s]. *)
Definition scan_exp (s : string) : string * string :=
  match s with
  | String e r =>
      if Ascii.eqb e "e" || Ascii.eqb e "E" then
        let (sign, r1) :=
          match r with
          | String g r0 =>
              if Ascii.eqb g "-" || Ascii.eqb g "+" then (String g "", r0) else ("", r)
          | EmptyString => ("", r)
          end in
        let (d, rest) := span_digits r1 in
        if String.eqb d "" then ("", s) else (String e (sign ++ d), rest)
      else ("", s)
  | EmptyString => ("", s)
  end.

(** [NUMBER_RE] at the head of [s]: an optional minus sign, then zero
    or a run of digits that does not start with zero, then a fraction,
    then an exponent.  An integer literal is an [int]; a literal with a fraction
    or an exponent is a float, denoted by the literal. *)
Definition scan_number (s : string) : option (pyval * string) :=
  let (neg, s1) :=
    match s with
    | String "-" r => (true, r)
    | _ => (false, s)
    end in
  match s1 with
  | String c r =>
      if is_digit c then
        let (int_part, rest) :=
          if Ascii.eqb c "0" then ("0", r) else span_digits s1 in
        let (frac, rest1) := scan_frac rest in
        let (exp, rest2) := scan_exp rest1 in
        if String.eqb frac "" && String.eqb exp "" then
          let n := Z_of_digits 0 int_part in
          Some (PInt (if neg then - n else n), rest)
        else
          Some (PFloat ((if neg then "-" else "") ++ int_part ++ frac ++ exp), rest2)
      else None
  | EmptyString => None
  end.

(** [s[len(p):]] when [s] starts with [p]. *)
Fixpoint strip_prefix (p s : string) : option string :=
  match p, s with
  | EmptyString, _ => Some s
  | String a p', String b s' => if Ascii.eqb a b then strip_prefix p' s' else None
  | String _ _, EmptyString => None
  end.

(** [d[k] = v] on the items of a dict. *)
Fixpoint dict_set (k : string) (v : pyval) (d : list (pyval * pyval)) : list (pyval * pyval) :=
  match d with
  | [] => [(PStr k, v)]
  | (PStr k', v') :: r =>
      if String.eqb k k' then (PStr k, v) :: r else (PStr k', v') :: dict_set k v r
  | kv :: r => kv :: dict_set k v r
  end.

Definition no_json : exn := ValueError "No JSON object could be decoded".

(** [scan_once] with [JSONArray] and [JSONObject]: the value at the head
    of [s] and what follows it.  [fuel] bounds the number of nested
    calls; [loads] gives more than a text can use. *)
Fixpoint scan_once (fuel : nat) (s : string) : res (pyval * string) :=
  match fuel with
  | O => Raise (RuntimeError "maximum recursion depth exceeded")
  | S n =>
      match s with
      | EmptyString => Raise no_json
      | String c r =>
          if Ascii.eqb c Text.dquote then
            let? (t, rest) := scanstring r in Ok (PStr t, rest)
          else if Ascii.eqb c "{" then
            match skip_ws r with
            | String "}" rest => Ok (PDict [], rest)
            | s1 => let? (d, rest) := scan_members n s1 [] in Ok (PDict d, rest)
            end
          else if Ascii.eqb c "[" then
            match skip_ws r with
            | String "]" rest => Ok (PList [], rest)
            | s1 => let? (l, rest) := scan_items n s1 in Ok (PList l, rest)
            end
          else
            match strip_prefix "null" s, strip_prefix "true" s, strip_prefix "false" s with
            | Some rest, _, _ => Ok (PNone, rest)
            | _, Some rest, _ => Ok (PBool true, rest)
            | _, _, Some rest => Ok (PBool false, rest)
            | _, _, _ =>
                match scan_number s with
                | Some vr => Ok vr
                | None =>
                    match strip_prefix "NaN" s, strip_prefix "Infinity" s, strip_prefix "-Infinity" s with
                    | Some rest, _, _ => Ok (PFloat "nan", rest)
                    | _, Some rest, _ => Ok (PFloat "inf", rest)
                    | _, _, Some rest => Ok (PFloat "-inf", rest)
                    | _, _, _ => Raise no_json
                    end
                end
            end
      end
  end
(** The items of an array from its first value on, up to its bracket. *)
with scan_items (fuel : nat) (s : string) : res (list pyval * string) :=
  match fuel with
  | O => Raise (RuntimeError "maximum recursion depth exceeded")
  | S n =>
      let? (v, rest) := scan_once n s in
      match skip_ws rest with
      | String "]" rest1 => Ok ([v], rest1)
      | String "," rest1 =>
          let? (l, rest2) := scan_items n (skip_ws rest1) in Ok (v :: l, rest2)
      | _ => Raise (ValueError "Expecting , delimiter")
      end
  end
(** The members of an object from its first key on, up to its brace;
    [acc] holds the members read so far. *)
with scan_members (fuel : nat) (s : string) (acc : list (pyval * pyval))
  : res (list (pyval * pyval) * string) :=
  match fuel with
  | O => Raise (RuntimeError "maximum recursion depth exceeded")
  | S n =>
      match s with
      | String q r =>
          if Ascii.eqb q Text.dquote then
            let? (k, rest) := scanstring r in
            match skip_ws rest with
            | String ":" rest1 =>
                let? (v, rest2) := scan_once n (skip_ws rest1) in
                let acc1 := dict_set k v acc in
                match skip_ws rest2 with
                | String "}" rest3 => Ok (acc1, rest3)
                | String "," rest3 => scan_members n (skip_ws rest3) acc1
                | _ => Raise (ValueError "Expecting , delimiter")
                end
            | _ => Raise (ValueError "Expecting : delimiter")
            end
          else Raise (ValueError "Expecting property name")
      | EmptyString => Raise (ValueError "Expecting property name")
      end
  end.

(** [loads(s)]: one value, with blanks around it and nothing else.  The
    fuel is more than the reader can use: a nested call comes with a
    character read at most two calls before it. *)
Definition loads (s : string) : res pyval :=
  let? (v, rest) := scan_once (S (S (2 * String.length s))) (skip_ws s) in
  match skip_ws rest with
  | EmptyString => Ok v
  | _ => Raise (ValueError "Extra data")
  end.

End simplejson.

Module Json.

(** [JsonEncoder.default]: [float(obj)] raises for a [Decimal] that is a
    signaling NaN, and so does [default]. *)
Definition default (obj : pyval) : res pyval :=
  match obj with
  | PDatetime d => Ok (PStr (Py.datetime_isoformat d))
  | PDate d => Ok (PStr (Py.date_isoformat d))
  | PDecimal _ _ as_float => let? f := as_float in Ok (PFloat f)
  | PQuerySet rows => Ok (PList rows)
  | _ => Ok PNone
  end.

Definition JsonEncoder_encode (data : pyval) : res string :=
  simplejson.encode default data.

(** The types [default] has a case for. *)
Definition specially_handled (obj : pyval) : bool :=
  match obj with
  | PDate _ | PDatetime _ | PDecimal _ _ _ | PQuerySet _ => true
  | _ => false
  end.

(** Every [Decimal] in [o] is one [float()] converts. *)
Fixpoint decimals_ok (o : pyval) : bool :=
  match o with
  | PDecimal _ _ (Raise _) => false
  | PList l | PQuerySet l => forallb decimals_ok l
  | PDict d => forallb (fun kv => decimals_ok (snd kv)) d
  | _ => true
  end.

(** [o] with [None] in place of every value, in [o] or in a list, a dict
    value or a query set of [o], that is neither native to the encoder nor
    of a type [default] has a case for.  Dict keys stay as they are. *)
Fixpoint unhandled_as_none (o : pyval) : pyval :=
  match o with
  | PList l => PList (List.map unhandled_as_none l)
  | PQuerySet l => PQuerySet (List.map unhandled_as_none l)
  | PDict d => PDict (List.map (fun kv => (fst kv, unhandled_as_none (snd kv))) d)
  | PModel _ _ | PObject _ => PNone
  | _ => o
  end.

End Json.

(** *** json.py: the responses *)

(** The response classes of [json.py], and [HttpResponse] itself for a
    view that returns a response that is not JSON. *)
Inductive response_class :=
| HttpResponse
| JsonResponse
| JsonResponseCreated
| JsonResponseAccepted
| JsonResponseBadRequest
| JsonResponseWithStatus
| JsonResponseSeeOther
| JsonResponseForbidden
| JsonResponseConflict
| JsonResponseError
| JsonResponseUnauthorized
| JsonResponseNotFound
| JsonResponseNotSupported.

(** A response object.  [status_code] starts as the class attribute and,
    like any attribute, can be assigned afterwards. *)
Record response := mkresponse {
  response_cls : response_class;
  status_code : Z;
  content_type : string;
  content : string
}.

Module Response.

(** The class attribute [status_code]; a class that does not set it
    inherits 200 from [HttpResponse]. *)
Definition class_status_code (c : response_class) : Z :=
  match c with
  | HttpResponse | JsonResponse | JsonResponseWithStatus => 200
  | JsonResponseCreated => 201
  | JsonResponseAccepted => 202
  | JsonResponseBadRequest => 400
  | JsonResponseSeeOther => 302
  | JsonResponseForbidden => 403
  | JsonResponseConflict => 409
  | JsonResponseError => 500
  | JsonResponseUnauthorized => 401
  | JsonResponseNotFound => 404
  | JsonResponseNotSupported => 400
  end.

(** [isinstance(r, JsonResponse)] *)
Definition isinstance_JsonResponse (r : response) : bool :=
  match response_cls r with
  | HttpResponse => false
  | _ => true
  end.

(** [issubclass(c, JsonResponseWithStatus)] *)
Definition subclass_WithStatus (c : response_class) : bool :=
  match c with
  | JsonResponseWithStatus | JsonResponseSeeOther | JsonResponseForbidden
  | JsonResponseConflict | JsonResponseError | JsonResponseUnauthorized
  | JsonResponseNotFound | JsonResponseNotSupported => true
  | _ => false
  end.

(** [JsonResponse.set_content] on a response under construction. *)
Definition set_content (self : response) (data : pyval) : res response :=
  let? content := Json.JsonEncoder_encode data in
  Ok (mkresponse (response_cls self) (status_code self) (content_type self) content).

(** [JsonResponse.__init__], for the class [c] and its subclasses that do
    not override it. *)
Definition JsonResponse_init (c : response_class) (data : pyval) : res response :=
  set_content (mkresponse c (class_status_code c) "application/json" "") data.

(** The dict [JsonResponseWithStatus.__init__] builds, its items in the
    order the source writes them (Python leaves the order of the items
    of a dict unspecified). *)
Definition WithStatus_data (c : response_class)
    (error_message error_type field_errors : pyval) : list (pyval * pyval) :=
  let data :=
    [ (PStr "error_type", Py.or_ error_type (PInt (class_status_code c)));
      (PStr "error_message", error_message) ] in
  if Py.truthy field_errors
  then simplejson.dict_set "field_errors" field_errors data
  else data.

(** [JsonResponseWithStatus.__init__]; an argument that is left out has
    its default: [''] for the message, [None] for the other two. *)
Definition JsonResponseWithStatus_init (c : response_class)
    (error_message error_type field_errors : pyval) : res response :=
  JsonResponse_init c (PDict (WithStatus_data c error_message error_type field_errors)).

(** [d[k]] on the items of a dict with text keys. *)
Fixpoint dict_get (k : string) (d : list (pyval * pyval)) : option pyval :=
  match d with
  | [] => None
  | (PStr k', v) :: r => if String.eqb k k' then Some v else dict_get k r
  | _ :: r => dict_get k r
  end.

End Response.

(* ===================================================================== *)
(** ** decorators.py *)
(* ===================================================================== *)

(** A [QueryDict]: the pairs of the query string or of the form body, in
    the order they were sent. *)
Definition QueryDict := list (string * string).

(** The request the framework hands to the outermost view.  [attrs] holds
    every other attribute normal lookup finds on it, those of its class
    among them. *)
Record HttpRequest := mkrequest {
  method : string;
  path : string;
  GET : QueryDict;
  POST : QueryDict;
  raw_post_data : string;
  attrs : list (string * pyval)
}.

(** A form field: [clean] takes the raw value the form's data has under the
    field's name ([data.get(name)]) and gives the cleaned value, or the
    messages of the [ValidationError] it raises. *)
Record Field := mkfield {
  clean : option string -> pyval + list string
}.

(** A value of the [fields] dict: a form field or a model instance of a
    class. *)
Inductive field_instance :=
| FormField (f : Field)
| ModelInstance (cls : string).

(** A bound form after [full_clean]. *)
Record Form := mkform {
  form_data : QueryDict;
  errors : gmap string (list string);
  cleaned_data : gmap string pyval
}.

(** [ValidatedRequest]: the two attributes [__init__] stores. *)
Record ValidatedRequest := mkvalidated {
  _orig_request : HttpRequest;
  _form : Form
}.

(** What a view is called with. *)
Inductive request :=
| Original (r : HttpRequest)
| Validated (v : ValidatedRequest).

(** What an attribute of a request holds. *)
Inductive attr_value :=
| AText (s : string)
| AQueryDict (q : QueryDict)
| AMergeDict (dicts : list QueryDict)
| ACleaned (d : gmap string pyval)
| AValue (v : pyval)
| ARequest (r : HttpRequest)
| AForm (f : Form)
| AClassAttribute (cls name : string).

(** What a view returns: a response, or some other value. *)
Inductive retval :=
| Resp (r : response)
| Value (v : pyval).

(** The two things a decorator does besides returning. *)
Inductive event :=
| Call (rq : request) (args : list pyval)
| Warn (msg : string).

(** A computation: it extends the trace of events and returns or raises. *)
Definition M (A : Type) : Type := list event -> res A * list event.

Definition ret {A} (a : A) : M A := fun tr => (Ok a, tr).
Definition raise {A} (e : exn) : M A := fun tr => (Raise e, tr).
Definition lift {A} (r : res A) : M A := fun tr => (r, tr).
Definition bind {A B} (m : M A) (k : A -> M B) : M B :=
  fun tr =>
    match m tr with
    | (Ok a, tr1) => k a tr1
    | (Raise e, tr1) => (Raise e, tr1)
    end.
Definition emit (e : event) : M unit := fun tr => (Ok tt, (tr ++ [e])%list).

Declare Scope m_scope.
Delimit Scope m_scope with M.
Notation "x <- m ;; k" := (bind m (fun x => k))
  (at level 100, m at next level, right associativity) : m_scope.
Notation "m ;;; k" := (bind m (fun _ => k))
  (at level 100, right associativity) : m_scope.

(** A view as the decorators see it: it takes the request and the extra
    positional and keyword arguments. *)
Definition handler := request -> list pyval -> M retval.

(** The view function [f], every call of which is recorded. *)
Definition view (f : request -> list pyval -> res retval) : handler :=
  fun rq args => (emit (Call rq args) ;;; lift (f rq args))%M.

Module QueryDicts.

(** [key in q] *)
Definition contains (key : string) (q : QueryDict) : bool :=
  existsb (fun kv => String.eqb key (fst kv)) q.

(** [q.get(key)]: the last value sent under [key]. *)
Fixpoint get (key : string) (q : QueryDict) : option string :=
  match q with
  | [] => None
  | (k, v) :: r =>
      match get key r with
      | Some v' => Some v'
      | None => if String.eqb key k then Some v else None
      end
  end.

(** [key in m] for a [MergeDict]. *)
Definition merge_contains (key : string) (dicts : list QueryDict) : bool :=
  existsb (contains key) dicts.

(** [m[key]] for a [MergeDict]: the first dict that has the key answers. *)
Fixpoint merge_getitem (key : string) (dicts : list QueryDict) : res string :=
  match dicts with
  | [] => Raise (KeyError key)
  | q :: r =>
      match get key q with
      | Some v => Ok v
      | None => merge_getitem key r
      end
  end.

End QueryDicts.

Module Forms.

(** The form fields among the values of [fields]: the metaclass of
    [forms.Form] takes the [Field] instances and leaves the rest. *)
Fixpoint declared_fields (fields : list (string * field_instance)) : list (string * Field) :=
  match fields with
  | [] => []
  | (name, FormField f) :: r => (name, f) :: declared_fields r
  | (_, ModelInstance _) :: r => declared_fields r
  end.

(** One step of [_clean_fields]. *)
Definition clean_field (data : QueryDict)
    (st : gmap string (list string) * gmap string pyval) (nf : string * Field)
    : gmap string (list string) * gmap string pyval :=
  match clean (snd nf) (QueryDicts.get (fst nf) data) with
  | inl value => (fst st, <[fst nf := value]> (snd st))
  | inr messages => (<[fst nf := messages]> (fst st), delete (fst nf) (snd st))
  end.

(** [type('ApiForm', (forms.Form,), fields.copy())(data)], cleaned. *)
Definition ApiForm (fields : list (string * field_instance)) (data : QueryDict) : Form :=
  let st := fold_left (clean_field data) (declared_fields fields) (∅, ∅) in
  mkform data (fst st) (snd st).

(** [form.is_valid()] for a bound form. *)
Definition is_valid (form : Form) : bool := bool_decide (errors form = ∅).

(** ['%s' % dict(form.errors)] *)
Definition errors_text (form : Form) : string :=
  Text.repr_dict
    (List.map (fun km => (Text.repr_str (fst km),
                          Text.repr_list (List.map Text.repr_unicode (snd km))))
              (map_to_list (errors form))).

(** [form.cleaned_data[name] = value] *)
Definition set_cleaned (form : Form) (name : string) (value : pyval) : Form :=
  mkform (form_data form) (errors form) (<[name := value]> (cleaned_data form)).

End Forms.

Module decorators.

(** [object.__getattribute__(r, name)] on a framework request. *)
Definition object_getattribute (r : HttpRequest) (name : string) : res attr_value :=
  if String.eqb name "method" then Ok (AText (method r))
  else if String.eqb name "path" then Ok (AText (path r))
  else if String.eqb name "GET" then Ok (AQueryDict (GET r))
  else if String.eqb name "POST" then Ok (AQueryDict (POST r))
  else if String.eqb name "REQUEST" then Ok (AMergeDict [POST r; GET r])
  else if String.eqb name "raw_post_data" then Ok (AText (raw_post_data r))
  else match Text.assoc name (attrs r) with
       | Some v => Ok (AValue v)
       | None => Raise (AttributeError name)
       end.

(** [ValidatedRequest.__init__] *)
Definition __init__ (orig_request : HttpRequest) (form : Form) : ValidatedRequest :=
  mkvalidated orig_request form.

(** [ValidatedRequest.__getattr__] *)
Definition __getattr__ (self : ValidatedRequest) (name : string) : res attr_value :=
  if bool_decide (name ∈ ["GET"; "POST"])
  then Ok (ACleaned (cleaned_data (_form self)))
  else object_getattribute (_orig_request self) name.

(** The names the class [ValidatedRequest] has, its own and those of
    [object], under Python 2, the interpreter of the Django releases that
    ship [django.utils.simplejson]. *)
Definition class_names : list string :=
  [ "__class__"; "__delattr__"; "__dict__"; "__doc__"; "__format__"; "__getattr__";
    "__getattribute__"; "__hash__"; "__init__"; "__module__"; "__new__"; "__reduce__";
    "__reduce_ex__"; "__repr__"; "__setattr__"; "__sizeof__"; "__str__";
    "__subclasshook__"; "__weakref__" ].

(** The names normal lookup finds on a wrapper. *)
Definition own_names : list string := "_orig_request" :: "_form" :: class_names.

(** Normal lookup on a wrapper, [object.__getattribute__(self, name)]: the
    two attributes [__init__] stores, then the attributes of the class;
    [None] when it finds nothing. *)
Definition own_attribute (self : ValidatedRequest) (name : string) : option attr_value :=
  if String.eqb name "_orig_request" then Some (ARequest (_orig_request self))
  else if String.eqb name "_form" then Some (AForm (_form self))
  else if bool_decide (name ∈ class_names)
       then Some (AClassAttribute "ValidatedRequest" name)
       else None.

(** [self.name] on a wrapper: normal lookup, and the hook [__getattr__]
    for a name normal lookup does not find. *)
Definition getattr (self : ValidatedRequest) (name : string) : res attr_value :=
  match own_attribute self name with
  | Some value => Ok value
  | None => __getattr__ self name
  end.

(** [getattr(request, request.method)] once the method is known to be
    one of the two. *)
Definition method_data (r : HttpRequest) : QueryDict :=
  if String.eqb (method r) "GET" then GET r else POST r.

(** [request.REQUEST]: the body parameters, then the query parameters. *)
Definition REQUEST (r : HttpRequest) : list QueryDict := [POST r; GET r].

Section Decorators.

(** [settings.DEBUG] *)
Variable DEBUG : bool.
(** The builtin [int] on text. *)
Variable int : string -> res Z.
(** [cls.objects.get(pk=...)]; [None] stands for [cls.DoesNotExist]. *)
Variable objects_get : string -> Z -> option pyval.
(** [simplejson.loads] *)
Variable loads : string -> res pyval.

(** [JsonResponseBadRequest(message)] *)
Definition bad_request (message : string) : res response :=
  Response.JsonResponse_init JsonResponseBadRequest (PStr message).

(** [JsonResponseNotFound(message)] *)
Definition not_found (message : string) : res response :=
  Response.JsonResponseWithStatus_init JsonResponseNotFound (PStr message) PNone PNone.

(** The loop of [api_accepts] over [fields.items()]: the response it
    returns early, or the form once every model field is resolved. *)
Fixpoint clean_models (items : list (string * field_instance))
    (request : HttpRequest) (form : Form) : res (response + Form) :=
  match items with
  | [] => Ok (inr form)
  | (field_name, FormField _) :: rest => clean_models rest request form
  | (field_name, ModelInstance field_type) :: rest =>
      let field_id := field_name ++ "-id" in
      if negb (QueryDicts.merge_contains field_id (REQUEST request)) then
        let? r := bad_request ("field " ++ field_name ++ " not present") in
        Ok (inl r)
      else
        let? raw := QueryDicts.merge_getitem field_id (REQUEST request) in
        let? field_pk := int raw in
        match objects_get field_type field_pk with
        | None =>
            let? r := not_found (Py.str_of_class field_type ++ " with pk="
                                   ++ Text.str_of_Z field_pk ++ " does not exist") in
            Ok (inl r)
        | Some field_value =>
            clean_models rest request (Forms.set_cleaned form field_name field_value)
        end
  end.

(** [api_accepts(fields)(func)] *)
Definition api_accepts (fields : list (string * field_instance)) (func : handler)
    (request : HttpRequest) (args : list pyval) : M retval :=
  if negb (bool_decide (method request ∈ ["GET"; "POST"])) then
    func (Original request) args
  else
    let form := Forms.ApiForm fields (method_data request) in
    if negb (Forms.is_valid form) then
      if DEBUG then
        (r <- lift (bad_request ("failed to validate: " ++ Forms.errors_text form)) ;;
         ret (Resp r))%M
      else
        (emit (Warn ("input to '" ++ path request ++ "' failed to validate: "
                       ++ Forms.errors_text form)) ;;;
         func (Original request) args)%M
    else
      (out <- lift (clean_models fields request form) ;;
       match out with
       | inl r => ret (Resp r)
       | inr form' => func (Validated (__init__ request form')) args
       end)%M.

(** [return_values.keys()] with 500 appended. *)
Definition accepted_return_codes (return_values : gmap Z string) : list Z :=
  (List.map fst (map_to_list return_values) ++ [500])%list.

(** [return_value.status_code] *)
Definition status_code_of (return_value : retval) : res Z :=
  match return_value with
  | Resp r => Ok (status_code r)
  | Value _ => Raise (AttributeError "status_code")
  end.

(** [isinstance(return_value, JsonResponse)] *)
Definition is_json (return_value : retval) : bool :=
  match return_value with
  | Resp r => Response.isinstance_JsonResponse r
  | Value _ => false
  end.

(** ['API returned %d instead of acceptable values %s'] *)
Definition returned_text (code : Z) (accepted : list Z) : string :=
  "API returned " ++ Text.str_of_Z code ++ " instead of acceptable values "
    ++ Text.repr_list (List.map Text.str_of_Z accepted).

(** The first check of [api_returns]: the response it returns early when
    the value is not a [JsonResponse]. *)
Definition check_json (return_value : retval) : M (option response) :=
  (if negb (is_json return_value) then
     if DEBUG then
       (r <- lift (bad_request "API did not return JSON") ;; ret (Some r))
     else
       (emit (Warn "API did not return JSON") ;;; ret None)
   else ret None)%M.

(** The second check of [api_returns], on the status code. *)
Definition check_status (return_values : gmap Z string) (return_value : retval)
    : M (option response) :=
  (let accepted := accepted_return_codes return_values in
   code <- lift (status_code_of return_value) ;;
   if negb (bool_decide (code ∈ accepted)) then
     if DEBUG then
       (r <- lift (bad_request (returned_text code accepted)) ;; ret (Some r))
     else
       (emit (Warn (returned_text code accepted)) ;;; ret None)
   else ret None)%M.

(** [api_returns(return_values)(func)] *)
Definition api_returns (return_values : gmap Z string) (func : handler) : handler :=
  fun request args =>
    (return_value <- func request args ;;
     early <- check_json return_value ;;
     match early with
     | Some r => ret (Resp r)
     | None =>
         early <- check_status return_values return_value ;;
         match early with
         | Some r => ret (Resp r)
         | None => ret return_value
         end
     end)%M.

(** [api(accept_return_dict)(func)], with the two entries of the dict
    as two arguments. *)
Definition api (accepts : list (string * field_instance)) (returns : gmap Z string)
    (func : handler) (request : HttpRequest) (args : list pyval) : M retval :=
  let apid_fnc := api_accepts accepts
                    (api_returns returns (fun request args => func request args)) in
  apid_fnc request args.

(** [k == x] for a text [k]. *)
Definition eq_text (k : string) (x : pyval) : bool :=
  match x with
  | PStr s => String.eqb k s
  | _ => false
  end.

(** [k in request_dict]: a key of a dict, an item of a list, a part of
    a text; a value of another type cannot be searched. *)
Definition contains (k : string) (request_dict : pyval) : res bool :=
  match request_dict with
  | PDict d => Ok (existsb (fun kv => eq_text k (fst kv)) d)
  | PList l => Ok (existsb (eq_text k) l)
  | PStr s => Ok (Text.contains k s)
  | _ => Raise (TypeError "argument is not iterable")
  end.

(** The loop of [validate_json_request] over the required fields: the
    first one that is missing, if any. *)
Fixpoint first_missing (ks : list string) (request_dict : pyval) : res (option string) :=
  match ks with
  | [] => Ok None
  | k :: rest =>
      let? present := contains k request_dict in
      if negb present then Ok (Some k) else first_missing rest request_dict
  end.

(** [validate_json_request(required_fields)(func)] *)
Definition validate_json_request (required_fields : gset string) (func : handler)
    (request : HttpRequest) (args : list pyval) : M retval :=
  match loads (raw_post_data request) with
  | Raise (ValueError e) =>
      (r <- lift (bad_request ("invalid POST JSON: " ++ e)) ;; ret (Resp r))%M
  | Raise e => raise e
  | Ok request_dict =>
      (missing <- lift (first_missing (elements required_fields) request_dict) ;;
       match missing with
       | Some k =>
           (r <- lift (bad_request ("POST JSON must contain property '" ++ k ++ "'")) ;;
            ret (Resp r))
       | None => func (Original request) (request_dict :: args)
       end)%M
  end.

End Decorators.

End decorators.

(* ===================================================================== *)
(** ** Collaborators and sample data *)
(* ===================================================================== *)

(** Instances of the collaborators, and the schemas, requests and views of
    the docstrings and of [tests.py]. *)
Module Samples.

(** [s.strip()] on the blanks [int] ignores. *)
Definition strip (s : string) : string :=
  let ltrim := simplejson.skip_ws in
  let rev := fun t => string_of_list_ascii (List.rev (list_ascii_of_string t)) in
  rev (ltrim (rev (ltrim s))).

(** The builtin [int] on a decimal numeral: blanks around it, an optional
    sign, at least one digit. *)
Definition int (s : string) : res Z :=
  let t := strip s in
  let (neg, body) :=
    match t with
    | String "-" r => (true, r)
    | String "+" r => (false, r)
    | _ => (false, t)
    end in
  let (d, rest) := simplejson.span_digits body in
  if String.eqb d "" || negb (String.eqb rest "")
  then Raise (ValueError ("invalid literal for int() with base 10: " ++ Text.repr_str s))
  else Ok (if neg then - simplejson.Z_of_digits 0 d else simplejson.Z_of_digits 0 d).

(** [forms.IntegerField(required=..., min_value=...)] *)
Definition IntegerField (required : bool) (min_value : option Z) : Field :=
  mkfield (fun raw =>
    match raw with
    | None | Some EmptyString =>
        if required then inr ["This field is required."] else inl PNone
    | Some text =>
        match int text with
        | Raise _ => inr ["Enter a whole number."]
        | Ok n =>
            match min_value with
            | Some lo =>
                if n <? lo
                then inr ["Ensure this value is greater than or equal to "
                            ++ Text.str_of_Z lo ++ "."]
                else inl (PInt n)
            | None => inl (PInt n)
            end
        end
    end).

Definition User : string := "django.contrib.auth.models.User".

(** A database with one user, whose primary key is 1. *)
Definition objects_get (cls : string) (pk : Z) : option pyval :=
  if String.eqb cls User && (pk =? 1) then Some (PModel User 1) else None.

(** The schema of [model_view] in [tests.py]. *)
Definition model_fields : list (string * field_instance) :=
  [ ("im_required", FormField (IntegerField true None));
    ("user", ModelInstance User) ].

(** A schema with a reference field only. *)
Definition user_fields : list (string * field_instance) :=
  [ ("user", ModelInstance User) ].

(** The schema of [my_post_view] in [tests.py]. *)
Definition required_fields : list (string * field_instance) :=
  [ ("im_required", FormField (IntegerField true None)) ].

Definition get_request (url : string) (data : QueryDict) : HttpRequest :=
  mkrequest "GET" url data [] "" [].

Definition post_request (url : string) (data : QueryDict) : HttpRequest :=
  mkrequest "POST" url [] data "" [].

(** A request whose body is raw JSON text. *)
Definition json_request (body : string) : HttpRequest :=
  mkrequest "POST" "/json" [] [] body [].

(** A view that answers with [JsonResponseWithStatus(message)]. *)
Definition message_view (message : string) : request -> list pyval -> res retval :=
  fun _ _ =>
    let? r := Response.JsonResponseWithStatus_init JsonResponseWithStatus (PStr message) PNone PNone in
    Ok (Resp r).

(** A view that answers with a response of the class [c], built with no
    argument. *)
Definition class_view (c : response_class) : request -> list pyval -> res retval :=
  fun _ _ =>
    let? r :=
      if Response.subclass_WithStatus c
      then Response.JsonResponseWithStatus_init c (PStr "") PNone PNone
      else Response.JsonResponse_init c (PDict []) in
    Ok (Resp r).

(** A GET request with no parameter at all. *)
Definition bare_request : HttpRequest := get_request "/model" [].

(** A GET request that names a user nobody has and leaves out the
    required integer. *)
Definition stranger_request : HttpRequest :=
  get_request "/model" [("user-id", "99999")].

(** The request of [model_view] in [tests.py] that is answered 404. *)
Definition model_failure_request : HttpRequest :=
  get_request "/model_failure" [("im_required", "10"); ("user-id", "99999")].

(** The contract of [simple_view] in [tests.py]. *)
Definition simple_returns : gmap Z string :=
  {[ 200 := "OK"; 403 := "Permission denied" ]}.

(** A view that answers with a plain [HttpResponse] of the status code
    [status]. *)
Definition http_view (status : Z) : request -> list pyval -> res retval :=
  fun _ _ => Ok (Resp (mkresponse HttpResponse status "text/html" "")).

(** A view that returns a value that is no response. *)
Definition value_view (v : pyval) : request -> list pyval -> res retval :=
  fun _ _ => Ok (Value v).

(** The request of [model_view] in [tests.py] that succeeds, for the user
    of the sample database. *)
Definition model_success_request : HttpRequest :=
  get_request "/model_success" [("im_required", "10"); ("user-id", "1")].

(** A GET request whose companion value is no integer. *)
Definition bad_id_request : HttpRequest :=
  get_request "/model" [("im_required", "10"); ("user-id", "abc")].

(** A request on which some middleware has set an attribute [_form]. *)
Definition tagged_request : HttpRequest :=
  mkrequest "GET" "/tagged" [] [] "" [("_form", PStr "mine")].

(** The JSON object with the one member [name], whose value is [a]. *)
Definition name_body : string :=
  simplejson.object_text
    [ simplejson.member_text "name" (simplejson.encode_basestring_ascii "a") ].

(** The JSON array of the two texts [name] and [date]. *)
Definition names_array_body : string :=
  simplejson.array_text
    [ simplejson.encode_basestring_ascii "name"; simplejson.encode_basestring_ascii "date" ].

End Samples.

(* ===================================================================== *)
(** ** Values and their bodies *)
(* ===================================================================== *)

(** What [loads] reads from the body the encoder writes for a value. *)
Module Body.

(** The text a dict key is written as. *)
Definition key_text (k : pyval) : string :=
  match simplejson.encode_key k with
  | Ok s => s
  | Raise _ => ""
  end.

(** [dict(pairs)] for the members of an object, read from left to right
    on top of [acc]. *)
Definition dict_of (load : pyval -> pyval) (d acc : list (pyval * pyval))
    : list (pyval * pyval) :=
  fold_left (fun a kv => simplejson.dict_set (key_text (fst kv)) (load (snd kv)) a) d acc.

(** The value [loads] gives for the body of [o]: a list for a list or a
    query set, a dict with text keys for a dict, what [default] makes of
    it for a value that is not native, and [o] itself otherwise. *)
Fixpoint loaded (o : pyval) : pyval :=
  match o with
  | PList l | PQuerySet l => PList (List.map loaded l)
  | PDict d =>
      PDict (fold_left (fun a kv => simplejson.dict_set (key_text (fst kv)) (loaded (snd kv)) a)
               d [])
  | PNone | PBool _ | PInt _ | PFloat _ | PStr _ => o
  | _ => match Json.default o with
         | Ok replacement => replacement
         | Raise _ => PNone
         end
  end.

(** No float and no [Decimal] in [o], and every dict key one the encoder
    writes. *)
Fixpoint exact (o : pyval) : bool :=
  match o with
  | PFloat _ | PDecimal _ _ _ => false
  | PList l | PQuerySet l => forallb exact l
  | PDict d =>
      forallb (fun kv => match simplejson.encode_key (fst kv) with
                         | Ok _ => exact (snd kv)
                         | Raise _ => false
                         end) d
  | _ => true
  end.

(** No text occurs twice. *)
Fixpoint distinct (l : list string) : bool :=
  match l with
  | [] => true
  | k :: r => negb (existsb (String.eqb k) r) && distinct r
  end.

(** A value of JSON itself, floats apart: [None], a truth value, an
    integer, a text, a list of such values, a dict of such values under
    distinct text keys. *)
Fixpoint json_value (o : pyval) : bool :=
  match o with
  | PNone | PBool _ | PInt _ | PStr _ => true
  | PList l => forallb json_value l
  | PDict d =>
      forallb (fun kv => match fst kv with
                         | PStr _ => json_value (snd kv)
                         | _ => false
                         end) d
      && distinct (List.map (fun kv => key_text (fst kv)) d)
  | _ => false
  end.

(** The number of nested calls the reader makes on the body of [o]. *)
Fixpoint need (o : pyval) : nat :=
  match o with
  | PList l | PQuerySet l => S (fold_right (fun x acc => S (Nat.max (need x) acc)) O l)
  | PDict d => S (fold_right (fun kv acc => S (Nat.max (need (snd kv)) acc)) O d)
  | _ => 1%nat
  end.

(** What follows a value inside a body: nothing, a comma or a closing
    bracket. *)
Definition delimited (rest : string) : bool :=
  match rest with
  | EmptyString => true
  | String c _ => Ascii.eqb c "," || Ascii.eqb c "]" || Ascii.eqb c "}"
  end.

(** The first character of a body: not a blank and not a closing
    bracket. *)
Definition starts (body : string) : bool :=
  match body with
  | EmptyString => false
  | String c _ => negb (simplejson.is_ws c) && negb (Ascii.eqb c "]")
  end.

(** The fuel the items of a list take, and the members of a dict. *)
Definition need_items (l : list pyval) : nat :=
  fold_right (fun x acc => S (Nat.max (need x) acc)) O l.

Definition need_members (d : list (pyval * pyval)) : nat :=
  fold_right (fun kv acc => S (Nat.max (need (snd kv)) acc)) O d.

(** [body] is read back as the value [loads] gives for [o]: it starts as
    a value does, it is long enough for the fuel its reading takes, and
    with that fuel the reader finds the value and stops where [body]
    ends. *)
Definition reads_back (o : pyval) (body : string) : Prop :=
  starts body = true
  /\ (need o <= String.length body)%nat
  /\ forall (fuel : nat) (rest : string),
       (need o <= fuel)%nat -> delimited rest = true ->
       simplejson.scan_once fuel (body ++ rest) = Ok (loaded o, rest).

(** What a reader makes of the text [s]: it returns with less text left
    than [s] has, or raises [ValueError]. *)
Definition within {A} (s : string) (r : res (A * string)) : Prop :=
  match r with
  | Ok (_, rest) => (String.length rest < String.length s)%nat
  | Raise (ValueError _) => True
  | Raise _ => False
  end.

End Body.

(* ===================================================================== *)
(** ** Facts about the responses the decorators build *)
(* ===================================================================== *)

Import decorators.

(** A key a [QueryDict] answers for is a key it contains. *)
Lemma get_contains (key : string) (q : QueryDict) (v : string) :
  QueryDicts.get key q = Some v -> QueryDicts.contains key q = true.
Proof.
  unfold QueryDicts.contains. revert v.
  induction q as [| [k w] q IHq]; intros v; cbn; [discriminate |].
  destruct (QueryDicts.get key q) as [s |].
  - intros _. rewrite (IHq s) by reflexivity. apply orb_true_r.
  - destruct (String.eqb key k); [reflexivity | discriminate].
Qed.

(** A key a [MergeDict] answers for is a key it contains. *)
Lemma merge_getitem_contains (key : string) (dicts : list QueryDict) (v : string) :
  QueryDicts.merge_getitem key dicts = Ok v -> QueryDicts.merge_contains key dicts = true.
Proof.
  unfold QueryDicts.merge_contains.
  induction dicts as [| q r IH]; cbn; [discriminate |].
  destruct (QueryDicts.get key q) eqn:Hq.
  - intros _. rewrite (get_contains _ _ _ Hq). reflexivity.
  - intros H. rewrite (IH H). apply orb_true_r.
Qed.

Arguments QueryDicts.merge_contains : simpl never.
Arguments QueryDicts.merge_getitem : simpl never.
Arguments REQUEST : simpl never.
Arguments bad_request : simpl never.
Arguments not_found : simpl never.

Ltac run_m := unfold bind, lift, ret, emit, raise in *; cbn [fst snd] in *.

(** [JsonResponseBadRequest(message)] never fails for a text message: the
    body is the message as a JSON string literal. *)
Lemma bad_request_ok (message : string) :
  bad_request message
  = Ok (mkresponse JsonResponseBadRequest 400 "application/json"
          (simplejson.encode_basestring_ascii message)).
Proof. reflexivity. Qed.

(** [JsonResponseNotFound(message)] never fails for a text message. *)
Lemma not_found_ok (message : string) :
  not_found message
  = Ok (mkresponse JsonResponseNotFound 404 "application/json"
          (simplejson.object_text
             [ simplejson.member_text "error_type" "404";
               simplejson.member_text "error_message"
                 (simplejson.encode_basestring_ascii message) ])).
Proof. reflexivity. Qed.

(** A status code is accepted when the contract declares it or when it is
    500. *)
Lemma accepted_return_codes_spec (return_values : gmap Z string) (code : Z) :
  code ∈ accepted_return_codes return_values ↔ code ∈ dom return_values ∨ code = 500.
Proof.
  unfold accepted_return_codes. rewrite elem_of_app, elem_of_dom.
  rewrite list_elem_of_singleton.
  split; intros [H | H]; auto; left.
  - apply list_elem_of_In, in_map_iff in H as [[k d] [Hk Hin]].
    simpl in Hk; subst. apply list_elem_of_In, elem_of_map_to_list in Hin. eauto.
  - destruct H as [d Hd]. apply list_elem_of_In, in_map_iff.
    exists (code, d). split; [reflexivity |].
    apply list_elem_of_In, elem_of_map_to_list, Hd.
Qed.

(* ===================================================================== *)
(** ** The response contract: [api_returns] *)
(* ===================================================================== *)

(** What [api_returns] does with a JSON response whose status code is
    accepted. *)
Lemma api_returns_accepted (DEBUG : bool) (C : gmap Z string) (func : handler)
    (rq : request) (args : list pyval) (tr tr' : list event) (r : response) :
  func rq args tr = (Ok (Resp r), tr') ->
  Response.isinstance_JsonResponse r = true ->
  status_code r ∈ accepted_return_codes C ->
  api_returns DEBUG C func rq args tr = (Ok (Resp r), tr').
Proof.
  intros Hf Hj Hin. unfold api_returns, check_json, check_status, status_code_of, is_json.
  run_m. rewrite Hf, Hj. cbn.
  rewrite (bool_decide_eq_true_2 _ Hin). reflexivity.
Qed.

(** What [api_returns] does with a JSON response whose status code is not
    accepted. *)
Lemma api_returns_rejected (DEBUG : bool) (C : gmap Z string) (func : handler)
    (rq : request) (args : list pyval) (tr tr' : list event) (r : response) :
  func rq args tr = (Ok (Resp r), tr') ->
  Response.isinstance_JsonResponse r = true ->
  status_code r ∉ accepted_return_codes C ->
  api_returns DEBUG C func rq args tr
  = if DEBUG
    then (Ok (Resp (mkresponse JsonResponseBadRequest 400 "application/json"
                      (simplejson.encode_basestring_ascii
                         (returned_text (status_code r) (accepted_return_codes C))))), tr')
    else (Ok (Resp r),
          (tr' ++ [Warn (returned_text (status_code r) (accepted_return_codes C))])%list).
Proof.
  intros Hf Hj Hin. unfold api_returns, check_json, check_status, status_code_of, is_json.
  run_m. rewrite Hf, Hj. cbn.
  rewrite (bool_decide_eq_false_2 _ Hin). destruct DEBUG; reflexivity.
Qed.

(** C3: for every contract [C] and every view that returns a JSON response
    [r]: when the status code of [r] is in [C], [api_returns] returns [r]
    unchanged; when it is not in [C] and is not 500, strict mode returns a
    400 response instead and lenient mode returns [r] unchanged after
    logging one warning. *)
Theorem api_returns_contract (DEBUG : bool) (C : gmap Z string) (func : handler)
    (rq : request) (args : list pyval) (tr tr' : list event) (r : response) :
  func rq args tr = (Ok (Resp r), tr') ->
  Response.isinstance_JsonResponse r = true ->
  (status_code r ∈ dom C ->
     api_returns DEBUG C func rq args tr = (Ok (Resp r), tr')) /\
  (status_code r ∉ dom C -> status_code r ≠ 500 ->
     if DEBUG
     then exists r', api_returns DEBUG C func rq args tr = (Ok (Resp r'), tr')
                     /\ response_cls r' = JsonResponseBadRequest
                     /\ status_code r' = 400
     else exists msg, api_returns DEBUG C func rq args tr
                      = (Ok (Resp r), (tr' ++ [Warn msg])%list)).
Proof.
  intros Hf Hj. split.
  - intros Hin. apply api_returns_accepted; auto.
    apply accepted_return_codes_spec; auto.
  - intros Hnin H500.
    assert (Hrej : status_code r ∉ accepted_return_codes C).
    { rewrite accepted_return_codes_spec. intros [? | ?]; contradiction. }
    rewrite (api_returns_rejected DEBUG C func rq args tr tr' r Hf Hj Hrej).
    destruct DEBUG; eauto.
Qed.

(** C4: a JSON response with status code 500 comes back from
    [api_returns] unchanged, whatever the contract declares and in both
    modes, and nothing is logged. *)
Theorem api_returns_never_blocks_500 (DEBUG : bool) (C : gmap Z string) (func : handler)
    (rq : request) (args : list pyval) (tr tr' : list event) (r : response) :
  func rq args tr = (Ok (Resp r), tr') ->
  Response.isinstance_JsonResponse r = true ->
  status_code r = 500 ->
  api_returns DEBUG C func rq args tr = (Ok (Resp r), tr').
Proof.
  intros Hf Hj H500. apply api_returns_accepted; auto.
  apply accepted_return_codes_spec; auto.
Qed.

(* ===================================================================== *)
(** ** The parameter validator: [api_accepts] *)
(* ===================================================================== *)

(** C5: a request whose method is neither GET nor POST goes to the view as
    it is: [api_accepts] is the view itself on such a request, for every
    schema and in both modes. *)
Theorem api_accepts_other_methods (DEBUG : bool) (int : string -> res Z)
    (objects_get : string -> Z -> option pyval)
    (fields : list (string * field_instance)) (func : handler)
    (rq : HttpRequest) (args : list pyval) :
  method rq ≠ "GET" -> method rq ≠ "POST" ->
  api_accepts DEBUG int objects_get fields func rq args = func (Original rq) args.
Proof.
  intros Hg Hp. unfold api_accepts.
  rewrite bool_decide_eq_false_2; [reflexivity |].
  rewrite !elem_of_cons, elem_of_nil. intros [? | [? | []]]; contradiction.
Qed.

(** The hook [__getattr__] answers ['GET'] and ['POST'] with the cleaned
    data of the form, whatever the method of the request, and answers
    every other name with what [object.__getattribute__] gives on the
    request. *)
Lemma getattr_hook_cases (orig_request : HttpRequest) (form : Form) (name : string) :
  (name = "GET" \/ name = "POST" ->
     __getattr__ (__init__ orig_request form) name = Ok (ACleaned (cleaned_data form))) /\
  (name ≠ "GET" -> name ≠ "POST" ->
     __getattr__ (__init__ orig_request form) name = object_getattribute orig_request name).
Proof.
  unfold __getattr__, __init__; cbn. split.
  - intros H. rewrite bool_decide_eq_true_2; [reflexivity |].
    rewrite !elem_of_cons. tauto.
  - intros Hg Hp. rewrite bool_decide_eq_false_2; [reflexivity |].
    rewrite !elem_of_cons, elem_of_nil. tauto.
Qed.

(** Normal lookup finds on a wrapper the names of [own_names] and no
    other. *)
Lemma own_attribute_none (self : ValidatedRequest) (name : string) :
  own_attribute self name = None <-> name ∉ own_names.
Proof.
  unfold own_attribute, own_names.
  destruct (String.eqb_spec name "_orig_request") as [-> | H1].
  { split; [discriminate |]. intros H. exfalso. apply H. left. }
  destruct (String.eqb_spec name "_form") as [-> | H2].
  { split; [discriminate |]. intros H. exfalso. apply H. right. left. }
  destruct (bool_decide (name ∈ class_names)) eqn:Hc.
  - apply bool_decide_eq_true in Hc. split; [discriminate |].
    intros H. exfalso. apply H. right. right. exact Hc.
  - apply bool_decide_eq_false in Hc. split; [| reflexivity].
    intros _. rewrite !elem_of_cons. tauto.
Qed.

(** C10, amended: on a wrapper built from a request and a form, the
    attributes ['GET'] and ['POST'] are the cleaned data of the form,
    whatever the method of the request; a name other than these two that
    normal lookup does not find on the wrapper gives what
    [object.__getattribute__] gives on the request, its value or its
    [AttributeError]; and a name normal lookup finds on the wrapper gives
    what the wrapper has: ['_orig_request'] the request, ['_form'] the
    form, a name of the class the attribute of [ValidatedRequest], whatever
    the request has under that name. *)
Theorem ValidatedRequest_attribute_access (orig_request : HttpRequest) (form : Form) :
  getattr (__init__ orig_request form) "GET" = Ok (ACleaned (cleaned_data form))
  /\ getattr (__init__ orig_request form) "POST" = Ok (ACleaned (cleaned_data form))
  /\ (forall name, name ∉ own_names -> name ≠ "GET" -> name ≠ "POST" ->
        getattr (__init__ orig_request form) name = object_getattribute orig_request name)
  /\ getattr (__init__ orig_request form) "_orig_request" = Ok (ARequest orig_request)
  /\ getattr (__init__ orig_request form) "_form" = Ok (AForm form)
  /\ (forall name, name ∈ class_names ->
        getattr (__init__ orig_request form) name
        = Ok (AClassAttribute "ValidatedRequest" name)).
Proof.
  split; [reflexivity |].
  split; [reflexivity |].
  split.
  { intros name Hown Hg Hp. unfold getattr.
    rewrite (proj2 (own_attribute_none (__init__ orig_request form) name) Hown).
    apply getattr_hook_cases; assumption. }
  split; [reflexivity |].
  split; [reflexivity |].
  intros name Hc. unfold getattr, own_attribute.
  destruct (String.eqb_spec name "_orig_request") as [-> | H1].
  { exfalso. apply (bool_decide_eq_true_2 _) in Hc. discriminate Hc. }
  destruct (String.eqb_spec name "_form") as [-> | H2].
  { exfalso. apply (bool_decide_eq_true_2 _) in Hc. discriminate Hc. }
  rewrite bool_decide_eq_true_2; [reflexivity | exact Hc].
Qed.

Section ParameterValidator.

Variable int : string -> res Z.
Variable objects_get : string -> Z -> option pyval.

(** The loop over a schema in two parts: the second part starts from the
    form the first part leaves, unless the first part returns early or
    raises. *)
Lemma clean_models_app (pre post : list (string * field_instance))
    (rq : HttpRequest) (form : Form) :
  clean_models int objects_get (pre ++ post)%list rq form
  = match clean_models int objects_get pre rq form with
    | Ok (inr form') => clean_models int objects_get post rq form'
    | other => other
    end.
Proof.
  revert form. induction pre as [| [name fi] pre IH]; intros form; cbn.
  - reflexivity.
  - destruct fi as [f | cls]; [apply IH |].
    destruct (QueryDicts.merge_contains (name ++ "-id") (REQUEST rq)); cbn; [| reflexivity].
    destruct (QueryDicts.merge_getitem (name ++ "-id") (REQUEST rq)) as [raw | e];
      cbn; [| reflexivity].
    destruct (int raw) as [pk | e]; cbn; [| reflexivity].
    destruct (objects_get cls pk); [apply IH | reflexivity].
Qed.

(** Every entry of [form.errors] is a declared form field whose [clean]
    raised the messages listed for it. *)
Lemma errors_sound (fields : list (string * field_instance)) (data : QueryDict)
    (name : string) (msgs : list string) :
  errors (Forms.ApiForm fields data) !! name = Some msgs ->
  exists f, In (name, f) (Forms.declared_fields fields)
            /\ clean f (QueryDicts.get name data) = inr msgs.
Proof.
  unfold Forms.ApiForm; cbn.
  set (all := Forms.declared_fields fields).
  assert (Hgen : forall l st,
             (forall x, In x l -> In x all) ->
             (forall n m, fst st !! n = Some m ->
                exists f, In (n, f) all /\ clean f (QueryDicts.get n data) = inr m) ->
             forall n m, fst (fold_left (Forms.clean_field data) l st) !! n = Some m ->
                exists f, In (n, f) all /\ clean f (QueryDicts.get n data) = inr m).
  { induction l as [| [k f] l IH]; intros st Hsub Hst; cbn; [exact Hst |].
    apply IH; [intros x Hx; apply Hsub; right; exact Hx |].
    intros n m. unfold Forms.clean_field; cbn.
    destruct (clean f (QueryDicts.get k data)) as [v | ms] eqn:Hc; cbn; [apply Hst |].
    rewrite lookup_insert. case_decide as Hk.
    - intros [= <-]. subst n. exists f. split; [apply Hsub; left; reflexivity | exact Hc].
    - apply Hst. }
  apply (Hgen all (∅, ∅)); [auto |].
  intros n m; cbn. rewrite lookup_empty. discriminate.
Qed.

(** A field that is not cleaned leaves the errors under the other names
    as they are. *)
Lemma errors_other (data : QueryDict) (l : list (string * Field))
    (st : gmap string (list string) * gmap string pyval) (name : string) :
  ~ In name (List.map fst l) ->
  fst (fold_left (Forms.clean_field data) l st) !! name = fst st !! name.
Proof.
  revert st. induction l as [| [k f] l IH]; intros st Hn; cbn; [reflexivity |].
  rewrite IH by (intros H; apply Hn; right; exact H).
  unfold Forms.clean_field; cbn.
  destruct (clean f (QueryDicts.get k data)); cbn; [reflexivity |].
  apply lookup_insert_ne. intros ->. apply Hn. left. reflexivity.
Qed.

(** When no two form fields share a name, as in a dict, every declared
    field whose [clean] raises has its messages in [form.errors]. *)
Lemma errors_complete (fields : list (string * field_instance)) (data : QueryDict)
    (name : string) (f : Field) (msgs : list string) :
  List.NoDup (List.map fst (Forms.declared_fields fields)) ->
  In (name, f) (Forms.declared_fields fields) ->
  clean f (QueryDicts.get name data) = inr msgs ->
  errors (Forms.ApiForm fields data) !! name = Some msgs.
Proof.
  unfold Forms.ApiForm; cbn.
  generalize (Forms.declared_fields fields) as l.
  generalize ((∅, ∅) : gmap string (list string) * gmap string pyval) as st.
  intros st l. revert st.
  induction l as [| [k g] l IH]; intros st Hnd Hin Hc; cbn; [destruct Hin |].
  cbn in Hnd. apply List.NoDup_cons_iff in Hnd as [Hk Hnd].
  destruct Hin as [[= -> ->] | Hin].
  - rewrite errors_other by exact Hk.
    unfold Forms.clean_field; cbn. rewrite Hc; cbn. apply lookup_insert_eq.
  - apply IH; assumption.
Qed.

(** A form that is not valid has an entry in [form.errors]. *)
Lemma invalid_has_errors (form : Form) :
  Forms.is_valid form = false -> exists name msgs, errors form !! name = Some msgs.
Proof.
  unfold Forms.is_valid. intros H. apply bool_decide_eq_false in H.
  apply map_choose in H. exact H.
Qed.

(** When the form is not valid, strict mode answers 400 with the errors of
    the form and lenient mode logs them and calls the view with the
    request it was given. *)
Lemma api_accepts_invalid (DEBUG : bool) (fields : list (string * field_instance))
    (func : handler) (rq : HttpRequest) (args : list pyval) (tr : list event) :
  method rq ∈ ["GET"; "POST"] ->
  Forms.is_valid (Forms.ApiForm fields (method_data rq)) = false ->
  api_accepts DEBUG int objects_get fields func rq args tr
  = if DEBUG
    then (Ok (Resp (mkresponse JsonResponseBadRequest 400 "application/json"
                      (simplejson.encode_basestring_ascii
                         ("failed to validate: "
                            ++ Forms.errors_text (Forms.ApiForm fields (method_data rq)))))),
          tr)
    else func (Original rq) args
           (tr ++ [Warn ("input to '" ++ path rq ++ "' failed to validate: "
                           ++ Forms.errors_text (Forms.ApiForm fields (method_data rq)))])%list.
Proof.
  intros Hm Hv. unfold api_accepts.
  rewrite (bool_decide_eq_true_2 _ Hm), Hv. cbn.
  destruct DEBUG; reflexivity.
Qed.

(** When the form is valid, the outcome is the one of the loop over the
    model fields. *)
Lemma api_accepts_valid (DEBUG : bool) (fields : list (string * field_instance))
    (func : handler) (rq : HttpRequest) (args : list pyval) (tr : list event) :
  method rq ∈ ["GET"; "POST"] ->
  Forms.is_valid (Forms.ApiForm fields (method_data rq)) = true ->
  api_accepts DEBUG int objects_get fields func rq args tr
  = match clean_models int objects_get fields rq (Forms.ApiForm fields (method_data rq)) with
    | Ok (inl r) => (Ok (Resp r), tr)
    | Ok (inr form') => func (Validated (__init__ rq form')) args tr
    | Raise e => (Raise e, tr)
    end.
Proof.
  intros Hm Hv. unfold api_accepts.
  rewrite (bool_decide_eq_true_2 _ Hm), Hv. cbn. run_m.
  destruct (clean_models _ _ _ _ _) as [[r | form'] | e]; reflexivity.
Qed.

(** When the form is valid and every model field resolves, the view is
    called with a wrapper around the request, and the wrapper answers
    ['GET'] and ['POST'] with the cleaned data, the resolved records
    included. *)
Lemma api_accepts_resolved (DEBUG : bool) (fields : list (string * field_instance))
    (func : handler) (rq : HttpRequest) (args : list pyval) (tr : list event)
    (form' : Form) :
  method rq ∈ ["GET"; "POST"] ->
  Forms.is_valid (Forms.ApiForm fields (method_data rq)) = true ->
  clean_models int objects_get fields rq (Forms.ApiForm fields (method_data rq))
  = Ok (inr form') ->
  api_accepts DEBUG int objects_get fields func rq args tr
  = func (Validated (__init__ rq form')) args tr
  /\ __getattr__ (__init__ rq form') "GET" = Ok (ACleaned (cleaned_data form'))
  /\ __getattr__ (__init__ rq form') "POST" = Ok (ACleaned (cleaned_data form')).
Proof.
  intros Hm Hv Hc. split; [| split; reflexivity].
  rewrite (api_accepts_valid DEBUG fields func rq args tr Hm Hv), Hc. reflexivity.
Qed.

(** When the form is valid and the first model field that does not
    resolve has no companion value, the answer is 400 in both modes. *)
Lemma api_accepts_missing_id (DEBUG : bool) (fields pre post : list (string * field_instance))
    (name cls : string) (form' : Form)
    (func : handler) (rq : HttpRequest) (args : list pyval) (tr : list event) :
  method rq ∈ ["GET"; "POST"] ->
  Forms.is_valid (Forms.ApiForm fields (method_data rq)) = true ->
  fields = (pre ++ (name, ModelInstance cls) :: post)%list ->
  clean_models int objects_get pre rq (Forms.ApiForm fields (method_data rq)) = Ok (inr form') ->
  QueryDicts.merge_contains (name ++ "-id") (REQUEST rq) = false ->
  api_accepts DEBUG int objects_get fields func rq args tr
  = (Ok (Resp (mkresponse JsonResponseBadRequest 400 "application/json"
                 (simplejson.encode_basestring_ascii ("field " ++ name ++ " not present")))),
     tr).
Proof.
  intros Hm Hv Hf Hpre Hid.
  rewrite (api_accepts_valid DEBUG fields func rq args tr Hm Hv).
  rewrite Hf at 1. rewrite clean_models_app, Hpre. cbn.
  rewrite Hid. cbn. rewrite bad_request_ok. reflexivity.
Qed.

(** C1, amended: for every schema and every GET or POST request whose
    values fail the form fields of the schema, strict mode answers 400
    with the errors of the failing fields and does not call the view,
    and lenient mode logs the errors, calls the view with the request it
    was given and returns what the view returns.  When the form fields
    pass and the first reference field that does not resolve has no
    companion value, the answer is 400 in both modes and the view is not
    called. *)
Theorem api_accepts_validation_failure (DEBUG : bool)
    (fields : list (string * field_instance))
    (func : handler) (rq : HttpRequest) (args : list pyval) (tr : list event) :
  method rq ∈ ["GET"; "POST"] ->
  (Forms.is_valid (Forms.ApiForm fields (method_data rq)) = false ->
     errors (Forms.ApiForm fields (method_data rq)) ≠ ∅
     /\ (forall name msgs,
           errors (Forms.ApiForm fields (method_data rq)) !! name = Some msgs ->
           exists f, In (name, f) (Forms.declared_fields fields)
                     /\ clean f (QueryDicts.get name (method_data rq)) = inr msgs)
     /\ api_accepts DEBUG int objects_get fields func rq args tr
        = if DEBUG
          then (Ok (Resp (mkresponse JsonResponseBadRequest 400 "application/json"
                            (simplejson.encode_basestring_ascii
                               ("failed to validate: "
                                  ++ Forms.errors_text
                                       (Forms.ApiForm fields (method_data rq)))))),
                tr)
          else func (Original rq) args
                 (tr ++ [Warn ("input to '" ++ path rq ++ "' failed to validate: "
                                 ++ Forms.errors_text
                                      (Forms.ApiForm fields (method_data rq)))])%list)
  /\ (Forms.is_valid (Forms.ApiForm fields (method_data rq)) = true ->
      forall pre post name cls form',
        fields = (pre ++ (name, ModelInstance cls) :: post)%list ->
        clean_models int objects_get pre rq (Forms.ApiForm fields (method_data rq))
        = Ok (inr form') ->
        QueryDicts.merge_contains (name ++ "-id") (REQUEST rq) = false ->
        api_accepts DEBUG int objects_get fields func rq args tr
        = (Ok (Resp (mkresponse JsonResponseBadRequest 400 "application/json"
                       (simplejson.encode_basestring_ascii
                          ("field " ++ name ++ " not present")))),
           tr)).
Proof.
  intros Hm. split.
  - intros Hv. split; [| split].
    + unfold Forms.is_valid in Hv. apply bool_decide_eq_false in Hv. exact Hv.
    + apply errors_sound.
    + apply api_accepts_invalid; assumption.
  - intros Hv pre post name cls form' Hf Hpre Hid.
    eapply api_accepts_missing_id; eassumption.
Qed.

(** C2, amended: for every GET or POST request that passes the form
    fields of the schema, when every reference field before [name]
    resolves and the companion value of [name] is present, reads as an
    integer and is the primary key of no record, the answer is 404 in
    both modes and the view is not called. *)
Theorem api_accepts_record_not_found (DEBUG : bool)
    (fields pre post : list (string * field_instance))
    (name cls raw : string) (pk : Z) (form' : Form)
    (func : handler) (rq : HttpRequest) (args : list pyval) (tr : list event) :
  method rq ∈ ["GET"; "POST"] ->
  Forms.is_valid (Forms.ApiForm fields (method_data rq)) = true ->
  fields = (pre ++ (name, ModelInstance cls) :: post)%list ->
  clean_models int objects_get pre rq (Forms.ApiForm fields (method_data rq)) = Ok (inr form') ->
  QueryDicts.merge_getitem (name ++ "-id") (REQUEST rq) = Ok raw ->
  int raw = Ok pk ->
  objects_get cls pk = None ->
  exists r,
    api_accepts DEBUG int objects_get fields func rq args tr = (Ok (Resp r), tr)
    /\ response_cls r = JsonResponseNotFound
    /\ status_code r = 404
    /\ content r
       = simplejson.object_text
           [ simplejson.member_text "error_type" "404";
             simplejson.member_text "error_message"
               (simplejson.encode_basestring_ascii
                  (Py.str_of_class cls ++ " with pk=" ++ Text.str_of_Z pk
                     ++ " does not exist")) ].
Proof.
  intros Hm Hv Hf Hpre Hraw Hint Hnone.
  eexists (mkresponse JsonResponseNotFound 404 "application/json" _).
  split; [| repeat split].
  rewrite (api_accepts_valid DEBUG fields func rq args tr Hm Hv).
  rewrite Hf at 1. rewrite clean_models_app, Hpre. cbn.
  rewrite (merge_getitem_contains _ _ _ Hraw), Hraw. cbn.
  rewrite Hint. cbn. rewrite Hnone, not_found_ok. reflexivity.
Qed.

End ParameterValidator.

(* ===================================================================== *)
(** ** The body-parsing helper: [validate_json_request] *)
(* ===================================================================== *)

Section BodyParser.

Variable loads : string -> res pyval.

(** A body [loads] refuses is answered 400 with the parse error, and the
    view is not called. *)
Lemma validate_json_parse_error (K : gset string) (func : handler)
    (rq : HttpRequest) (args : list pyval) (tr : list event) (e : string) :
  loads (raw_post_data rq) = Raise (ValueError e) ->
  validate_json_request loads K func rq args tr
  = (Ok (Resp (mkresponse JsonResponseBadRequest 400 "application/json"
                 (simplejson.encode_basestring_ascii ("invalid POST JSON: " ++ e)))),
     tr).
Proof. intros H. unfold validate_json_request. rewrite H. reflexivity. Qed.

(** On a dict, the loop finds the first required key the dict lacks. *)
Lemma first_missing_dict (ks : list string) (d : list (pyval * pyval)) :
  first_missing ks (PDict d)
  = Ok (List.find (fun k => negb (existsb (fun kv => eq_text k (fst kv)) d)) ks).
Proof.
  induction ks as [| k ks IH]; cbn; [reflexivity |].
  destruct (existsb _ d); cbn; [exact IH | reflexivity].
Qed.

(** A JSON object that lacks a required key is answered 400 with the name
    of a key it lacks, and the view is not called. *)
Lemma validate_json_missing_key (K : gset string) (func : handler)
    (rq : HttpRequest) (args : list pyval) (tr : list event)
    (d : list (pyval * pyval)) (k0 : string) :
  loads (raw_post_data rq) = Ok (PDict d) ->
  k0 ∈ K -> existsb (fun kv => eq_text k0 (fst kv)) d = false ->
  exists k,
    k ∈ K /\ existsb (fun kv => eq_text k (fst kv)) d = false
    /\ validate_json_request loads K func rq args tr
       = (Ok (Resp (mkresponse JsonResponseBadRequest 400 "application/json"
                      (simplejson.encode_basestring_ascii
                         ("POST JSON must contain property '" ++ k ++ "'")))),
          tr).
Proof.
  intros Hl Hin Hk0. unfold validate_json_request. rewrite Hl. run_m.
  rewrite first_missing_dict.
  destruct (List.find _ (elements K)) as [k |] eqn:Hfind.
  - apply find_some in Hfind as [Hk Hmiss].
    exists k. split; [| split].
    + apply elem_of_elements, list_elem_of_In, Hk.
    + apply negb_true_iff, Hmiss.
    + reflexivity.
  - exfalso. eapply find_none in Hfind.
    + rewrite Hk0 in Hfind. discriminate.
    + apply list_elem_of_In, elem_of_elements, Hin.
Qed.

(** A JSON object that has every required key goes to the view as its
    second argument. *)
Lemma validate_json_complete (K : gset string) (func : handler)
    (rq : HttpRequest) (args : list pyval) (tr : list event)
    (d : list (pyval * pyval)) :
  loads (raw_post_data rq) = Ok (PDict d) ->
  (forall k, k ∈ K -> existsb (fun kv => eq_text k (fst kv)) d = true) ->
  validate_json_request loads K func rq args tr
  = func (Original rq) (PDict d :: args) tr.
Proof.
  intros Hl Hall. unfold validate_json_request. rewrite Hl. run_m.
  rewrite first_missing_dict.
  destruct (List.find _ (elements K)) as [k |] eqn:Hfind; [| reflexivity].
  apply find_some in Hfind as [Hk Hmiss].
  rewrite Hall in Hmiss; [discriminate |].
  apply elem_of_elements, list_elem_of_In, Hk.
Qed.

(** A body that is a number, a constant or a float cannot be searched for
    a key: with a required key, the call raises [TypeError]. *)
Lemma validate_json_scalar_raises (K : gset string) (func : handler)
    (rq : HttpRequest) (args : list pyval) (tr : list event) (v : pyval) (k0 : string) :
  loads (raw_post_data rq) = Ok v ->
  match v with PDict _ | PList _ | PStr _ => False | _ => True end ->
  k0 ∈ K ->
  validate_json_request loads K func rq args tr
  = (Raise (TypeError "argument is not iterable"), tr).
Proof.
  intros Hl Hv Hin. unfold validate_json_request. rewrite Hl. run_m.
  destruct (elements K) as [| k ks] eqn:He.
  - apply elem_of_elements in Hin. rewrite He in Hin. inversion Hin.
  - destruct v; try contradiction; reflexivity.
Qed.

End BodyParser.

(** C7, at the body [5] with the required key [name]: the body parses, the
    key is absent from the parsed value, and the call raises [TypeError]
    where the claim has a 400 response that names the key. *)
Theorem validate_json_request_number_body :
  simplejson.loads (raw_post_data (Samples.json_request "5")) = Ok (PInt 5)
  /\ validate_json_request simplejson.loads {[ "name" ]}
       (view (Samples.class_view JsonResponse)) (Samples.json_request "5") [] []
     = (Raise (TypeError "argument is not iterable"), []).
Proof. split; vm_compute; reflexivity. Qed.

(* ===================================================================== *)
(** ** The JSON responses *)
(* ===================================================================== *)

(** A plain character is written as it is. *)
Lemma escape_char_plain (c : ascii) :
  Text.plain c = true -> simplejson.escape_char c = String c "".
Proof.
  destruct c as [[] [] [] [] [] [] [] []]; cbn; intros H;
    first [discriminate H | reflexivity].
Qed.

Lemma concat_map_plain (s : string) :
  Text.all_plain s = true -> Text.concat_map simplejson.escape_char s = s.
Proof.
  induction s as [| c s IH]; cbn; [reflexivity |].
  intros H. apply andb_true_iff in H as [Hc Hs].
  rewrite (escape_char_plain c Hc), (IH Hs). reflexivity.
Qed.

(** A text of plain characters is its own string literal, between quotes. *)
Lemma encode_basestring_plain (s : string) :
  Text.all_plain s = true ->
  simplejson.encode_basestring_ascii s = String Text.dquote (s ++ String Text.dquote "").
Proof.
  intros H. unfold simplejson.encode_basestring_ascii.
  rewrite (concat_map_plain s H). reflexivity.
Qed.

(** The scanner copies a plain character. *)
Lemma scanstring_plain_char (c : ascii) (r : string) :
  Text.plain c = true ->
  simplejson.scanstring (String c r)
  = let? (t, rest) := simplejson.scanstring r in Ok (String c t, rest).
Proof.
  destruct c as [[] [] [] [] [] [] [] []]; cbn; intros H;
    first [discriminate H | reflexivity].
Qed.

(** The scanner reads a text of plain characters up to the closing quote. *)
Lemma scanstring_plain (s rest : string) :
  Text.all_plain s = true ->
  simplejson.scanstring (s ++ String Text.dquote rest) = Ok (s, rest).
Proof.
  induction s as [| c s IH]; intros H.
  - reflexivity.
  - cbn in H. apply andb_true_iff in H as [Hc Hs].
    change (String c s ++ String Text.dquote rest)
      with (String c (s ++ String Text.dquote rest)).
    rewrite (scanstring_plain_char c _ Hc), (IH Hs). reflexivity.
Qed.

(** [loads] reads the string literal of a text of plain characters back to
    that text. *)
Lemma loads_plain_literal (s : string) :
  Text.all_plain s = true ->
  simplejson.loads (String Text.dquote (s ++ String Text.dquote "")) = Ok (PStr s).
Proof.
  intros H. unfold simplejson.loads.
  change (simplejson.skip_ws (String Text.dquote (s ++ String Text.dquote "")))
    with (String Text.dquote (s ++ String Text.dquote "")).
  cbn [simplejson.scan_once]. 
  change (Ascii.eqb Text.dquote Text.dquote) with true. cbv iota.
  rewrite (scanstring_plain s "" H). reflexivity.
Qed.

Lemma all_plain_app (s t : string) :
  Text.all_plain (s ++ t) = Text.all_plain s && Text.all_plain t.
Proof.
  induction s as [| c s IH]; simpl; [reflexivity |].
  rewrite IH. apply andb_assoc.
Qed.

Lemma all_plain_zeros (n : nat) : Text.all_plain (Text.zeros n) = true.
Proof. induction n as [| n IH]; cbn; [reflexivity | exact IH]. Qed.

(** The digits of a numeral are plain. *)
Lemma all_plain_uint (d : Decimal.uint) :
  Text.all_plain (NilEmpty.string_of_uint d) = true.
Proof. induction d; cbn; auto. Qed.

Lemma all_plain_str_abs (z : Z) : Text.all_plain (Text.str_of_Z (Z.abs z)) = true.
Proof.
  unfold Text.str_of_Z.
  assert (H : exists d, Z.to_int (Z.abs z) = Decimal.Pos d).
  { destruct z; cbn; eauto. }
  destruct H as [d ->]. cbn.
  destruct d; try apply all_plain_uint. reflexivity.
Qed.

Lemma all_plain_fmt_0d (w : nat) (z : Z) : Text.all_plain (Text.fmt_0d w z) = true.
Proof.
  unfold Text.fmt_0d. destruct (z <? 0);
    rewrite ?all_plain_app, all_plain_zeros, all_plain_str_abs; reflexivity.
Qed.

Ltac plain_parts :=
  repeat first
    [ rewrite all_plain_app
    | rewrite all_plain_fmt_0d
    | progress cbn [andb Text.all_plain] ].

(** The ISO 8601 text of a date holds plain characters only. *)
Lemma all_plain_date (d : date) : Text.all_plain (Py.date_isoformat d) = true.
Proof. unfold Py.date_isoformat. plain_parts. reflexivity. Qed.

(** The ISO 8601 text of a datetime holds plain characters only. *)
Lemma all_plain_datetime (d : datetime) : Text.all_plain (Py.datetime_isoformat d) = true.
Proof.
  unfold Py.datetime_isoformat, Py.format_utcoffset.
  rewrite !all_plain_app, all_plain_date.
  destruct (microsecond d =? 0), (utcoffset d) as [off |];
    try destruct (off <? 0); plain_parts; reflexivity.
Qed.

(** C6: for every date and every datetime [v], the JSON response built
    from [v] has a body that [loads] reads back as the text
    [v.isoformat()]. *)
Theorem isoformat_roundtrip (v : pyval) (iso : string) :
  Py.isoformat v = Some iso ->
  exists r,
    Response.JsonResponse_init JsonResponse v = Ok r
    /\ Json.JsonEncoder_encode v = Ok (content r)
    /\ simplejson.loads (content r) = Ok (PStr iso).
Proof.
  intros Hiso.
  assert (Hplain : Text.all_plain iso = true).
  { destruct v; try discriminate; injection Hiso as <-;
      [apply all_plain_date | apply all_plain_datetime]. }
  assert (Henc : Json.JsonEncoder_encode v = Ok (simplejson.encode_basestring_ascii iso)).
  { destruct v; try discriminate; injection Hiso as <-; reflexivity. }
  exists (mkresponse JsonResponse 200 "application/json"
            (simplejson.encode_basestring_ascii iso)).
  split; [| split].
  - unfold Response.JsonResponse_init, Response.set_content. rewrite Henc. reflexivity.
  - exact Henc.
  - cbn [content]. rewrite (encode_basestring_plain iso Hplain).
    apply loads_plain_literal, Hplain.
Qed.

(** The body of an error response, from the encodings of its parts. *)
Lemma WithStatus_init_body (c : response_class) (m t f : pyval) :
  Response.JsonResponseWithStatus_init c m t f
  = let? et := Json.JsonEncoder_encode (Py.or_ t (PInt (Response.class_status_code c))) in
    let? em := Json.JsonEncoder_encode m in
    if Py.truthy f then
      let? ef := Json.JsonEncoder_encode f in
      Ok (mkresponse c (Response.class_status_code c) "application/json"
            (simplejson.object_text
               [ simplejson.member_text "error_type" et;
                 simplejson.member_text "error_message" em;
                 simplejson.member_text "field_errors" ef ]))
    else
      Ok (mkresponse c (Response.class_status_code c) "application/json"
            (simplejson.object_text
               [ simplejson.member_text "error_type" et;
                 simplejson.member_text "error_message" em ])).
Proof.
  unfold Response.JsonResponseWithStatus_init, Response.JsonResponse_init,
    Response.set_content, Response.WithStatus_data, Json.JsonEncoder_encode.
  destruct (Py.truthy f); cbn;
    destruct (simplejson.encode Json.default (Py.or_ t _)); cbn; try reflexivity;
    destruct (simplejson.encode Json.default m); cbn; try reflexivity.
  destruct (simplejson.encode Json.default f); reflexivity.
Qed.

(** C8: for every error variant built with message [m], type [t] and field
    errors [f], the data of the body holds [m] under ['error_message'];
    under ['error_type'] it holds [t] when [t] is true and the status code
    of the variant otherwise; it holds [f] under ['field_errors'] when [f]
    is true and has no such key otherwise; and the body is the JSON
    object of these members. *)
Theorem WithStatus_body (c : response_class) (m t f : pyval) :
  Response.subclass_WithStatus c = true ->
  Response.dict_get "error_message" (Response.WithStatus_data c m t f) = Some m
  /\ Response.dict_get "error_type" (Response.WithStatus_data c m t f)
     = Some (if Py.truthy t then t else PInt (Response.class_status_code c))
  /\ Response.dict_get "field_errors" (Response.WithStatus_data c m t f)
     = (if Py.truthy f then Some f else None)
  /\ Response.JsonResponseWithStatus_init c m t f
     = let? et := Json.JsonEncoder_encode
                    (if Py.truthy t then t else PInt (Response.class_status_code c)) in
       let? em := Json.JsonEncoder_encode m in
       if Py.truthy f then
         let? ef := Json.JsonEncoder_encode f in
         Ok (mkresponse c (Response.class_status_code c) "application/json"
               (simplejson.object_text
                  [ simplejson.member_text "error_type" et;
                    simplejson.member_text "error_message" em;
                    simplejson.member_text "field_errors" ef ]))
       else
         Ok (mkresponse c (Response.class_status_code c) "application/json"
               (simplejson.object_text
                  [ simplejson.member_text "error_type" et;
                    simplejson.member_text "error_message" em ])).
Proof.
  intros _. unfold Response.WithStatus_data.
  repeat split.
  - destruct (Py.truthy f); reflexivity.
  - destruct (Py.truthy f); reflexivity.
  - destruct (Py.truthy f); reflexivity.
  - apply WithStatus_init_body.
Qed.

(** Induction on a value, with the items of a list, the values of a dict
    and the rows of a query set as parts. *)
Lemma pyval_parts_ind (P : pyval -> Prop) :
  P PNone -> (forall b, P (PBool b)) -> (forall z, P (PInt z)) ->
  (forall r, P (PFloat r)) -> (forall s, P (PStr s)) ->
  (forall l, Forall P l -> P (PList l)) ->
  (forall d, Forall (fun kv => P (snd kv)) d -> P (PDict d)) ->
  (forall d, P (PDate d)) -> (forall d, P (PDatetime d)) ->
  (forall c e f, P (PDecimal c e f)) ->
  (forall rows, Forall P rows -> P (PQuerySet rows)) ->
  (forall c pk, P (PModel c pk)) -> (forall c, P (PObject c)) ->
  forall v, P v.
Proof.
  intros HN HB HI HF HS HL HD HDa HDt HDe HQ HM HO.
  fix IH 1. intros [| b | z | r | s | l | d | da | dt | c e f | rows | c pk | c].
  - exact HN.
  - apply HB.
  - apply HI.
  - apply HF.
  - apply HS.
  - apply HL. induction l as [| x l IHl]; constructor; [apply IH | exact IHl].
  - apply HD. induction d as [| [k x] d IHd]; constructor; [apply IH | exact IHd].
  - apply HDa.
  - apply HDt.
  - apply HDe.
  - apply HQ. induction rows as [| x l IHl]; constructor; [apply IH | exact IHl].
  - apply HM.
  - apply HO.
Qed.

(** A traversal succeeds when every step does. *)
Lemma res_all_ok {A B} (f : A -> res B) (l : list A) :
  Forall (fun x => exists y, f x = Ok y) l -> exists ys, res_all f l = Ok ys.
Proof.
  induction 1 as [| x l [y Hy] _ [ys Hys]]; cbn.
  - eauto.
  - rewrite Hy, Hys. cbn. eauto.
Qed.

(** A traversal sees an item only through what the step makes of it. *)
Lemma res_all_item {A B} (f : A -> res B) (l1 l2 : list A) (x x' : A) :
  f x = f x' -> res_all f (l1 ++ x :: l2)%list = res_all f (l1 ++ x' :: l2)%list.
Proof.
  intros H. induction l1 as [| a l1 IH]; cbn.
  - rewrite H. reflexivity.
  - rewrite IH. reflexivity.
Qed.

(** A traversal stops at the first step that raises. *)
Lemma res_all_raise {A B} (f : A -> res B) (l1 l2 : list A) (x : A) (ys : list B) (e : exn) :
  res_all f l1 = Ok ys -> f x = Raise e -> res_all f (l1 ++ x :: l2)%list = Raise e.
Proof.
  revert ys. induction l1 as [| a l1 IH]; cbn; intros ys Hl Hx.
  - rewrite Hx. reflexivity.
  - destruct (f a) as [y |]; cbn in *; [| discriminate].
    destruct (res_all f l1) as [ys' |]; cbn in *; [| discriminate].
    rewrite (IH ys' eq_refl Hx). reflexivity.
Qed.

(** Two steps that agree on every item make the same traversal. *)
Lemma res_all_map {A B} (f : A -> res B) (g : A -> A) (l : list A) :
  Forall (fun x => f (g x) = f x) l -> res_all f (List.map g l) = res_all f l.
Proof.
  induction 1 as [| x l Hx _ IH]; cbn.
  - reflexivity.
  - rewrite Hx, IH. reflexivity.
Qed.

(** The hook: a value that is not native is written as what [default]
    makes of it, and the encoder raises what [default] raises. *)
Lemma encode_default (v : pyval) :
  simplejson.native v = false ->
  Json.JsonEncoder_encode v
  = let? replacement := Json.default v in Json.JsonEncoder_encode replacement.
Proof. destruct v as [| | | | | | | | | c e [f |] | | |]; try discriminate; reflexivity. Qed.

(** The encoder returns when it can write every dict key and [float()]
    converts every [Decimal]. *)
Lemma encode_never_raises (v : pyval) :
  simplejson.keys_ok v = true -> Json.decimals_ok v = true ->
  exists body, Json.JsonEncoder_encode v = Ok body.
Proof.
  unfold Json.JsonEncoder_encode.
  induction v as [| b | z | r | s | l IHl | d IHd | da | dt | c e f | rows IHr | c pk | c]
    using pyval_parts_ind; cbn; intros Hk Hd; eauto.
  - destruct b; eauto.
  - destruct (res_all_ok (simplejson.encode Json.default) l) as [ss ->]; cbn; eauto.
    rewrite forallb_forall in Hk, Hd. rewrite Forall_forall in IHl |- *.
    intros x Hx. apply IHl; [exact Hx | |]; [apply Hk | apply Hd]; apply list_elem_of_In, Hx.
  - destruct (res_all_ok (simplejson.encode_member (simplejson.encode Json.default)) d)
      as [ss ->]; cbn; eauto.
    rewrite forallb_forall in Hk, Hd. rewrite Forall_forall in IHd |- *.
    intros [k x] Hx. specialize (IHd _ Hx).
    apply list_elem_of_In in Hx. specialize (Hk _ Hx). specialize (Hd _ Hx).
    cbn in *. unfold simplejson.encode_member; cbn.
    destruct (simplejson.encode_key k) as [sk |]; [| discriminate]. cbn.
    destruct (IHd Hk Hd) as [sv ->]. cbn. eauto.
  - destruct f as [f |]; [cbn; eauto | discriminate].
  - destruct (res_all_ok (simplejson.encode Json.default) rows) as [ss ->]; cbn; eauto.
    rewrite forallb_forall in Hk, Hd. rewrite Forall_forall in IHr |- *.
    intros x Hx. apply IHr; [exact Hx | |]; [apply Hk | apply Hd]; apply list_elem_of_In, Hx.
Qed.

(** [default] raises what [float()] raises for a [Decimal], and no
    response is built. *)
Lemma decimal_float_raises (c : response_class) (coefficient exponent : Z) (e : exn) :
  Json.default (PDecimal coefficient exponent (Raise e)) = Raise e
  /\ Response.JsonResponse_init c (PDecimal coefficient exponent (Raise e)) = Raise e
  /\ Response.JsonResponse_init c (PList [PDecimal coefficient exponent (Raise e)]) = Raise e.
Proof. repeat split. Qed.

(** In the positions of values, a value [default] has no case for is
    written as [None] is, however deep it lies. *)
Lemma unhandled_as_none_encode (data : pyval) :
  Json.JsonEncoder_encode (Json.unhandled_as_none data) = Json.JsonEncoder_encode data.
Proof.
  unfold Json.JsonEncoder_encode.
  induction data as [| b | z | r | s | l IHl | d IHd | da | dt | c e f | rows IHr | c pk | c]
    using pyval_parts_ind; try reflexivity.
  - cbn. rewrite (res_all_map (simplejson.encode Json.default) Json.unhandled_as_none l IHl).
    reflexivity.
  - cbn.
    rewrite (res_all_map (simplejson.encode_member (simplejson.encode Json.default))
               (fun kv => (fst kv, Json.unhandled_as_none (snd kv))) d); [reflexivity |].
    eapply Forall_impl; [exact IHd |]. intros [k x] Hx. cbn in *.
    unfold simplejson.encode_member. cbn. rewrite Hx. reflexivity.
  - cbn. rewrite (res_all_map (simplejson.encode Json.default) Json.unhandled_as_none rows IHr).
    reflexivity.
Qed.

(** In a list, a value [default] has no case for is written as [None]
    is. *)
Lemma unhandled_item_is_null (v : pyval) (l1 l2 : list pyval) :
  Json.specially_handled v = false ->
  simplejson.native v = false ->
  Json.JsonEncoder_encode (PList (l1 ++ v :: l2)%list)
  = Json.JsonEncoder_encode (PList (l1 ++ PNone :: l2)%list).
Proof.
  intros Hs Hn. unfold Json.JsonEncoder_encode. cbn.
  rewrite (res_all_item _ l1 l2 v PNone); [reflexivity |].
  destruct v; try discriminate; reflexivity.
Qed.

(** As the value of a dict member, a value [default] has no case for is
    written as [None] is. *)
Lemma unhandled_member_is_null (v k : pyval) (d1 d2 : list (pyval * pyval)) :
  Json.specially_handled v = false ->
  simplejson.native v = false ->
  Json.JsonEncoder_encode (PDict (d1 ++ (k, v) :: d2)%list)
  = Json.JsonEncoder_encode (PDict (d1 ++ (k, PNone) :: d2)%list).
Proof.
  intros Hs Hn. unfold Json.JsonEncoder_encode. cbn.
  rewrite (res_all_item _ d1 d2 (k, v) (k, PNone)); [reflexivity |].
  destruct v; try discriminate; reflexivity.
Qed.

(** C9, amended: a value [v] that is neither native to the encoder nor of
    a type [default] has a case for is replaced by [None] wherever a value
    stands.  As the data of a response of any JSON class it is written
    [null], the construction returns and the body parses; as an item of a
    list and as the value of a dict member it is written as [None] is, and
    so it is at any depth: the encoder makes of any data what it makes of
    the data with [None] in place of such values.  As the key of a dict
    member it is not replaced: once the members before it are written, the
    encoder raises [TypeError] and no response is built. *)
Theorem unhandled_value_null_unless_key (v : pyval) (c : response_class) :
  Json.specially_handled v = false ->
  simplejson.native v = false ->
  Json.default v = Ok PNone
  /\ Json.JsonEncoder_encode v = Ok "null"
  /\ Response.JsonResponse_init c v
     = Ok (mkresponse c (Response.class_status_code c) "application/json" "null")
  /\ simplejson.loads "null" = Ok PNone
  /\ (forall l1 l2,
        Json.JsonEncoder_encode (PList (l1 ++ v :: l2)%list)
        = Json.JsonEncoder_encode (PList (l1 ++ PNone :: l2)%list))
  /\ (forall k d1 d2,
        Json.JsonEncoder_encode (PDict (d1 ++ (k, v) :: d2)%list)
        = Json.JsonEncoder_encode (PDict (d1 ++ (k, PNone) :: d2)%list))
  /\ (forall data,
        Json.JsonEncoder_encode data = Json.JsonEncoder_encode (Json.unhandled_as_none data))
  /\ (forall x d1 d2 body,
        Json.JsonEncoder_encode (PDict d1) = Ok body ->
        Json.JsonEncoder_encode (PDict (d1 ++ (v, x) :: d2)%list)
        = Raise (TypeError "keys must be a string")
        /\ Response.JsonResponse_init c (PDict (d1 ++ (v, x) :: d2)%list)
           = Raise (TypeError "keys must be a string")).
Proof.
  intros Hs Hn.
  split; [destruct v; try discriminate; reflexivity |].
  split; [destruct v; try discriminate; reflexivity |].
  split; [destruct v; try discriminate; reflexivity |].
  split; [reflexivity |].
  split; [intros l1 l2; apply unhandled_item_is_null; assumption |].
  split; [intros k d1 d2; apply unhandled_member_is_null; assumption |].
  split; [intros data; symmetry; apply unhandled_as_none_encode |].
  intros x d1 d2 body Hd1.
  assert (Henc : Json.JsonEncoder_encode (PDict (d1 ++ (v, x) :: d2)%list)
                 = Raise (TypeError "keys must be a string")).
  { unfold Json.JsonEncoder_encode in *. cbn in *.
    destruct (res_all (simplejson.encode_member (simplejson.encode Json.default)) d1)
      as [ss |] eqn:Hss; [| discriminate].
    rewrite (res_all_raise _ d1 d2 (v, x) ss (TypeError "keys must be a string") Hss);
      [reflexivity |].
    destruct v; try discriminate; reflexivity. }
  split; [exact Henc |].
  unfold Response.JsonResponse_init, Response.set_content. rewrite Henc. reflexivity.
Qed.

(* ===================================================================== *)
(** ** The theorems at the requests of the tests *)
(* ===================================================================== *)

(** C1 as stated fails in lenient mode: a GET request that lacks the
    companion value of the reference field ['user'] is answered 400 and
    the view, which would answer 200, is not called. *)
Lemma api_accepts_lenient_missing_id :
  QueryDicts.merge_contains "user-id" (REQUEST Samples.bare_request) = false
  /\ api_accepts false Samples.int Samples.objects_get Samples.user_fields
       (view (Samples.class_view JsonResponse)) Samples.bare_request [] []
     = (Ok (Resp (mkresponse JsonResponseBadRequest 400 "application/json"
                    (simplejson.encode_basestring_ascii "field user not present"))),
        [])
  /\ view (Samples.class_view JsonResponse) (Original Samples.bare_request) [] []
     = (Ok (Resp (mkresponse JsonResponse 200 "application/json" "{}")),
        [Call (Original Samples.bare_request) []]).
Proof. repeat split. Qed.

(** The amended C1 at the failing POST of [tests.py], in lenient mode: the
    view is called with the request as it came. *)
Lemma api_accepts_validation_failure_witness :
  api_accepts false Samples.int Samples.objects_get Samples.required_fields
    (view (Samples.message_view "still called on failure"))
    (Samples.post_request "/post_failure" [("hello", "world")]) [] []
  = view (Samples.message_view "still called on failure")
      (Original (Samples.post_request "/post_failure" [("hello", "world")])) []
      [Warn ("input to '/post_failure' failed to validate: "
               ++ Forms.errors_text
                    (Forms.ApiForm Samples.required_fields
                       (method_data (Samples.post_request "/post_failure"
                                       [("hello", "world")]))))].
Proof.
  refine (proj2 (proj2 (proj1 (api_accepts_validation_failure
                                 Samples.int Samples.objects_get false Samples.required_fields
                                 (view (Samples.message_view "still called on failure"))
                                 (Samples.post_request "/post_failure" [("hello", "world")])
                                 [] [] _) _))).
  - apply (bool_decide_unpack _). vm_compute. exact I.
  - vm_compute. reflexivity.
Defined.

(** C2 as stated fails when the form is not valid: a GET request that names
    a user nobody has and leaves out the required integer is answered 400
    in strict mode, and in lenient mode the view is called and answers
    200. *)
Lemma api_accepts_invalid_form_before_lookup :
  QueryDicts.merge_getitem "user-id" (REQUEST Samples.stranger_request) = Ok "99999"
  /\ Samples.int "99999" = Ok 99999
  /\ Samples.objects_get Samples.User 99999 = None
  /\ api_accepts true Samples.int Samples.objects_get Samples.model_fields
       (view (Samples.class_view JsonResponse)) Samples.stranger_request [] []
     = (Ok (Resp (mkresponse JsonResponseBadRequest 400 "application/json"
                    (simplejson.encode_basestring_ascii
                       "failed to validate: {'im_required': [u'This field is required.']}"))),
        [])
  /\ api_accepts false Samples.int Samples.objects_get Samples.model_fields
       (view (Samples.class_view JsonResponse)) Samples.stranger_request [] []
     = (Ok (Resp (mkresponse JsonResponse 200 "application/json" "{}")),
        [Warn "input to '/model' failed to validate: {'im_required': [u'This field is required.']}";
         Call (Original Samples.stranger_request) []]).
Proof. repeat split. Qed.

(** The amended C2 at the request of [tests.py] that is answered 404. *)
Lemma api_accepts_record_not_found_witness :
  exists r,
    api_accepts true Samples.int Samples.objects_get Samples.model_fields
      (view (Samples.class_view JsonResponse)) Samples.model_failure_request [] []
    = (Ok (Resp r), [])
    /\ response_cls r = JsonResponseNotFound
    /\ status_code r = 404
    /\ content r
       = simplejson.object_text
           [ simplejson.member_text "error_type" "404";
             simplejson.member_text "error_message"
               (simplejson.encode_basestring_ascii
                  (Py.str_of_class Samples.User ++ " with pk=" ++ Text.str_of_Z 99999
                     ++ " does not exist")) ].
Proof.
  refine (api_accepts_record_not_found
            Samples.int Samples.objects_get true Samples.model_fields
            [("im_required", FormField (Samples.IntegerField true None))] []
            "user" Samples.User "99999" 99999
            (Forms.ApiForm Samples.model_fields (method_data Samples.model_failure_request))
            (view (Samples.class_view JsonResponse)) Samples.model_failure_request [] []
            _ _ _ _ _ _ _).
  - apply (bool_decide_unpack _). vm_compute. exact I.
  - vm_compute. reflexivity.
  - reflexivity.
  - reflexivity.
  - vm_compute. reflexivity.
  - vm_compute. reflexivity.
  - vm_compute. reflexivity.
Defined.

(** C3 at the view of [tests.py]: 403 is declared and passes; 202 is not
    declared, so strict mode answers 400 and lenient mode lets it pass
    with one warning. *)
Lemma api_returns_contract_witness :
  api_returns true Samples.simple_returns (view (Samples.class_view JsonResponseForbidden))
    (Original Samples.bare_request) [] []
  = (Ok (Resp (mkresponse JsonResponseForbidden 403 "application/json"
                 (simplejson.object_text
                    [ simplejson.member_text "error_type" "403";
                      simplejson.member_text "error_message"
                        (simplejson.encode_basestring_ascii "") ]))),
     [Call (Original Samples.bare_request) []])
  /\ (exists r',
        api_returns true Samples.simple_returns (view (Samples.class_view JsonResponseAccepted))
          (Original Samples.bare_request) [] []
        = (Ok (Resp r'), [Call (Original Samples.bare_request) []])
        /\ response_cls r' = JsonResponseBadRequest /\ status_code r' = 400)
  /\ (exists msg,
        api_returns false Samples.simple_returns (view (Samples.class_view JsonResponseAccepted))
          (Original Samples.bare_request) [] []
        = (Ok (Resp (mkresponse JsonResponseAccepted 202 "application/json" "{}")),
           [Call (Original Samples.bare_request) []; Warn msg])).
Proof.
  split; [| split].
  - refine (proj1 (api_returns_contract true Samples.simple_returns
                     (view (Samples.class_view JsonResponseForbidden))
                     (Original Samples.bare_request) [] []
                     [Call (Original Samples.bare_request) []] _ _ _) _).
    + reflexivity.
    + reflexivity.
    + apply (bool_decide_unpack _). vm_compute. exact I.
  - refine (proj2 (api_returns_contract true Samples.simple_returns
                     (view (Samples.class_view JsonResponseAccepted))
                     (Original Samples.bare_request) [] []
                     [Call (Original Samples.bare_request) []]
                     (mkresponse JsonResponseAccepted 202 "application/json" "{}") _ _) _ _).
    + reflexivity.
    + reflexivity.
    + apply (bool_decide_unpack _). vm_compute. exact I.
    + cbn. lia.
  - refine (proj2 (api_returns_contract false Samples.simple_returns
                     (view (Samples.class_view JsonResponseAccepted))
                     (Original Samples.bare_request) [] []
                     [Call (Original Samples.bare_request) []]
                     (mkresponse JsonResponseAccepted 202 "application/json" "{}") _ _) _ _).
    + reflexivity.
    + reflexivity.
    + apply (bool_decide_unpack _). vm_compute. exact I.
    + cbn. lia.
Defined.

(** C4 at a view that answers 500 under a contract that does not declare
    it, in strict mode. *)
Lemma api_returns_never_blocks_500_witness :
  api_returns true Samples.simple_returns (view (Samples.class_view JsonResponseError))
    (Original Samples.bare_request) [] []
  = (Ok (Resp (mkresponse JsonResponseError 500 "application/json"
                 (simplejson.object_text
                    [ simplejson.member_text "error_type" "500";
                      simplejson.member_text "error_message"
                        (simplejson.encode_basestring_ascii "") ]))),
     [Call (Original Samples.bare_request) []]).
Proof.
  refine (api_returns_never_blocks_500 true Samples.simple_returns
            (view (Samples.class_view JsonResponseError))
            (Original Samples.bare_request) [] []
            [Call (Original Samples.bare_request) []] _ _ _ _); reflexivity.
Defined.

(** C5 at a PUT request, under the schema of [tests.py] and in strict
    mode. *)
Lemma api_accepts_other_methods_witness :
  api_accepts true Samples.int Samples.objects_get Samples.model_fields
    (view (Samples.class_view JsonResponse))
    (mkrequest "PUT" "/model" [] [] "" []) []
  = view (Samples.class_view JsonResponse) (Original (mkrequest "PUT" "/model" [] [] "" [])) [].
Proof.
  refine (api_accepts_other_methods true Samples.int Samples.objects_get Samples.model_fields
            (view (Samples.class_view JsonResponse))
            (mkrequest "PUT" "/model" [] [] "" []) [] _ _); discriminate.
Defined.

(** C6 at the fifth of January 2020. *)
Lemma isoformat_roundtrip_witness :
  exists r,
    Response.JsonResponse_init JsonResponse (PDate (mkdate 2020 1 5)) = Ok r
    /\ Json.JsonEncoder_encode (PDate (mkdate 2020 1 5)) = Ok (content r)
    /\ simplejson.loads (content r) = Ok (PStr "2020-01-05").
Proof.
  refine (isoformat_roundtrip (PDate (mkdate 2020 1 5)) "2020-01-05" _). reflexivity.
Defined.

(** C8 at [JsonResponseForbidden('no')]: the type is the status code and
    there are no field errors. *)
Lemma WithStatus_body_witness :
  Response.dict_get "error_message"
    (Response.WithStatus_data JsonResponseForbidden (PStr "no") PNone PNone)
  = Some (PStr "no")
  /\ Response.dict_get "error_type"
       (Response.WithStatus_data JsonResponseForbidden (PStr "no") PNone PNone)
     = Some (PInt 403)
  /\ Response.dict_get "field_errors"
       (Response.WithStatus_data JsonResponseForbidden (PStr "no") PNone PNone)
     = None
  /\ Response.JsonResponseWithStatus_init JsonResponseForbidden (PStr "no") PNone PNone
     = Ok (mkresponse JsonResponseForbidden 403 "application/json"
             (simplejson.object_text
                [ simplejson.member_text "error_type" "403";
                  simplejson.member_text "error_message"
                    (simplejson.encode_basestring_ascii "no") ])).
Proof.
  refine (WithStatus_body JsonResponseForbidden (PStr "no") PNone PNone _). reflexivity.
Defined.

(** C9 as stated fails: a model instance is of no type [default] has a
    case for, and a response whose data is a dict with the instance as a
    key is not built: the encoder raises [TypeError]. *)
Lemma unhandled_key_raises :
  Json.specially_handled (PModel "User" 1) = false
  /\ simplejson.native (PModel "User" 1) = false
  /\ Json.JsonEncoder_encode (PDict [(PModel "User" 1, PInt 1)])
     = Raise (TypeError "keys must be a string")
  /\ Response.JsonResponse_init JsonResponse (PDict [(PModel "User" 1, PInt 1)])
     = Raise (TypeError "keys must be a string").
Proof. repeat split. Qed.

(** C9, amended, at a model instance: as the data, as an item, as the
    value of a member and as the key of a member. *)
Lemma unhandled_value_null_unless_key_witness :
  Json.default (PModel "User" 1) = Ok PNone
  /\ Response.JsonResponse_init JsonResponse (PModel "User" 1)
     = Ok (mkresponse JsonResponse 200 "application/json" "null")
  /\ Json.JsonEncoder_encode (PList [PInt 1; PModel "User" 1])
     = Json.JsonEncoder_encode (PList [PInt 1; PNone])
  /\ Json.JsonEncoder_encode (PDict [(PStr "user", PModel "User" 1)])
     = Json.JsonEncoder_encode (PDict [(PStr "user", PNone)])
  /\ Json.JsonEncoder_encode (PDict [(PStr "n", PInt 1); (PModel "User" 1, PInt 2)])
     = Raise (TypeError "keys must be a string").
Proof.
  pose proof (unhandled_value_null_unless_key (PModel "User" 1) JsonResponse
                eq_refl eq_refl) as (Hd & _ & Hr & _ & Hl & Hm & _ & Hk).
  split; [exact Hd |].
  split; [exact Hr |].
  split; [exact (Hl [PInt 1] []) |].
  split; [exact (Hm (PStr "user") [] []) |].
  exact (proj1 (Hk (PInt 2) [(PStr "n", PInt 1)] [] _ eq_refl)).
Defined.

(** C10 as stated fails at the names of the wrapper's own attributes.
    ['_orig_request'] gives the request itself where the request raises
    [AttributeError], and on a request that has an attribute ['_form'] of
    its own the wrapper gives the form, not the value of the request. *)
Lemma wrapper_own_attribute_shadows :
  getattr
    (__init__ (Samples.post_request "/post_success" [("im_required", "10")])
       (Forms.ApiForm Samples.required_fields [("im_required", "10")]))
    "_orig_request"
  = Ok (ARequest (Samples.post_request "/post_success" [("im_required", "10")]))
  /\ object_getattribute (Samples.post_request "/post_success" [("im_required", "10")])
       "_orig_request"
     = Raise (AttributeError "_orig_request")
  /\ getattr (__init__ Samples.tagged_request (Forms.ApiForm Samples.required_fields []))
       "_form"
     = Ok (AForm (Forms.ApiForm Samples.required_fields []))
  /\ object_getattribute Samples.tagged_request "_form" = Ok (AValue (PStr "mine")).
Proof. repeat split. Qed.

(** C10, amended, at a POST request: ['GET'] gives the cleaned data,
    ['path'] gives the path of the request, ['user'] raises as it does
    on the request, ['__class__'] gives the class of the wrapper. *)
Lemma ValidatedRequest_attribute_access_witness :
  getattr
    (__init__ (Samples.post_request "/post_success" [("im_required", "10")])
       (Forms.ApiForm Samples.required_fields [("im_required", "10")]))
    "GET"
  = Ok (ACleaned (cleaned_data (Forms.ApiForm Samples.required_fields [("im_required", "10")])))
  /\ getattr
       (__init__ (Samples.post_request "/post_success" [("im_required", "10")])
          (Forms.ApiForm Samples.required_fields [("im_required", "10")]))
       "path"
     = Ok (AText "/post_success")
  /\ getattr
       (__init__ (Samples.post_request "/post_success" [("im_required", "10")])
          (Forms.ApiForm Samples.required_fields [("im_required", "10")]))
       "user"
     = Raise (AttributeError "user")
  /\ getattr
       (__init__ (Samples.post_request "/post_success" [("im_required", "10")])
          (Forms.ApiForm Samples.required_fields [("im_required", "10")]))
       "__class__"
     = Ok (AClassAttribute "ValidatedRequest" "__class__").
Proof.
  pose proof (ValidatedRequest_attribute_access
                (Samples.post_request "/post_success" [("im_required", "10")])
                (Forms.ApiForm Samples.required_fields [("im_required", "10")]))
    as (Hg & _ & Hother & _ & _ & Hclass).
  split; [exact Hg |].
  split.
  { refine (Hother "path" _ _ _); [| discriminate | discriminate].
    intros Hin. apply (bool_decide_eq_true_2 _) in Hin. discriminate Hin. }
  split.
  { refine (Hother "user" _ _ _); [| discriminate | discriminate].
    intros Hin. apply (bool_decide_eq_true_2 _) in Hin. discriminate Hin. }
  apply (Hclass "__class__"). apply (bool_decide_eq_true_1 _). reflexivity.
Defined.

(* ===================================================================== *)
(** ** More on the response contract *)
(* ===================================================================== *)

(** X1: in strict mode a response that is not a [JsonResponse] is replaced
    by a 400 response, whatever its status code: a declared code and 500
    do not save it. *)
Theorem api_returns_strict_not_json (C : gmap Z string) (func : handler)
    (rq : request) (args : list pyval) (tr tr' : list event) (r : response) :
  func rq args tr = (Ok (Resp r), tr') ->
  Response.isinstance_JsonResponse r = false ->
  api_returns true C func rq args tr
  = (Ok (Resp (mkresponse JsonResponseBadRequest 400 "application/json"
                 (simplejson.encode_basestring_ascii "API did not return JSON"))),
     tr').
Proof.
  intros Hf Hj. unfold api_returns, check_json, is_json. run_m.
  rewrite Hf, Hj. reflexivity.
Qed.

(** X2: in strict mode, when the view returns a response, the status code
    of what [api_returns] returns is declared in the contract, or is 500,
    or is the 400 of the replacement. *)
Theorem api_returns_strict_status (C : gmap Z string) (func : handler)
    (rq : request) (args : list pyval) (tr tr' : list event) (r : response) :
  func rq args tr = (Ok (Resp r), tr') ->
  exists r',
    api_returns true C func rq args tr = (Ok (Resp r'), tr')
    /\ (status_code r' ∈ dom C \/ status_code r' = 500 \/ status_code r' = 400)
    /\ (r' = r \/ response_cls r' = JsonResponseBadRequest).
Proof.
  intros Hf. destruct (Response.isinstance_JsonResponse r) eqn:Hj.
  - destruct (decide (status_code r ∈ accepted_return_codes C)) as [Hin | Hnin].
    + exists r. rewrite (api_returns_accepted true C func rq args tr tr' r Hf Hj Hin).
      apply accepted_return_codes_spec in Hin. intuition.
    + rewrite (api_returns_rejected true C func rq args tr tr' r Hf Hj Hnin).
      eexists. split; [reflexivity |]. cbn. auto.
  - unfold api_returns, check_json, is_json. run_m. rewrite Hf, Hj. cbn.
    eexists. split; [reflexivity |]. cbn. auto.
Qed.

(** X3: in lenient mode [api_returns] returns every response the view
    returns as it is, JSON or not, declared or not; all it adds is at most
    two warnings. *)
Theorem api_returns_lenient_transparent (C : gmap Z string) (func : handler)
    (rq : request) (args : list pyval) (tr tr' : list event) (r : response) :
  func rq args tr = (Ok (Resp r), tr') ->
  exists ws,
    api_returns false C func rq args tr = (Ok (Resp r), (tr' ++ List.map Warn ws)%list)
    /\ (length ws <= 2)%nat
    /\ (Response.isinstance_JsonResponse r = true ->
        status_code r ∈ accepted_return_codes C -> ws = []).
Proof.
  intros Hf. unfold api_returns, check_json, check_status, status_code_of, is_json.
  run_m. rewrite Hf.
  destruct (Response.isinstance_JsonResponse r); cbn;
    destruct (bool_decide (status_code r ∈ accepted_return_codes C)) eqn:Hin; cbn.
  - exists []. rewrite app_nil_r. repeat split; auto.
  - eexists [_]. repeat split; [cbn; lia |].
    intros _ H. apply bool_decide_eq_false in Hin. contradiction.
  - eexists [_]. repeat split; [cbn; lia | discriminate].
  - eexists [_; _]. rewrite <- app_assoc. repeat split; [cbn; lia | discriminate].
Qed.

(** X4: when the view returns a value that is not a response, strict mode
    answers 400 and lenient mode logs one warning and then raises
    [AttributeError], since the value has no status code. *)
Theorem api_returns_not_a_response (DEBUG : bool) (C : gmap Z string) (func : handler)
    (rq : request) (args : list pyval) (tr tr' : list event) (v : pyval) :
  func rq args tr = (Ok (Value v), tr') ->
  api_returns DEBUG C func rq args tr
  = if DEBUG
    then (Ok (Resp (mkresponse JsonResponseBadRequest 400 "application/json"
                      (simplejson.encode_basestring_ascii "API did not return JSON"))),
          tr')
    else (Raise (AttributeError "status_code"),
          (tr' ++ [Warn "API did not return JSON"])%list).
Proof.
  intros Hf. unfold api_returns, check_json, check_status, status_code_of, is_json.
  run_m. rewrite Hf. destruct DEBUG; reflexivity.
Qed.

(** X5: [api_returns] calls the view once, with the request and the
    arguments it was given and before anything else; whatever follows in
    the trace is a warning, and strict mode logs none. *)
Theorem api_returns_calls_once (DEBUG : bool) (C : gmap Z string)
    (f : request -> list pyval -> res retval)
    (rq : request) (args : list pyval) (tr : list event) :
  exists ws,
    snd (api_returns DEBUG C (view f) rq args tr)
    = (tr ++ Call rq args :: List.map Warn ws)%list
    /\ (DEBUG = true -> ws = []).
Proof.
  unfold api_returns, view, check_json, check_status, status_code_of, is_json.
  run_m. destruct (f rq args) as [[r | v] | e]; cbn.
  - destruct (Response.isinstance_JsonResponse r), DEBUG; cbn;
      destruct (bool_decide (status_code r ∈ accepted_return_codes C)); cbn;
      first [ exists []; split; [reflexivity | auto; fail]
            | eexists [_]; rewrite <- ?app_assoc; split; [reflexivity | discriminate]
            | eexists [_; _]; rewrite <- ?app_assoc; split; [reflexivity | discriminate] ].
  - destruct DEBUG; cbn;
      first [ exists []; split; [reflexivity | auto; fail]
            | eexists [_]; rewrite <- ?app_assoc; split; [reflexivity | discriminate] ].
  - exists []. split; [reflexivity | auto].
Qed.

(* ===================================================================== *)
(** ** More on the parameter validator *)
(* ===================================================================== *)

Section ParameterValidatorMore.

Variable int : string -> res Z.
Variable objects_get : string -> Z -> option pyval.

(** The loop changes nothing of the form but the cleaned data. *)
Lemma clean_models_keeps (items : list (string * field_instance))
    (rq : HttpRequest) (form form' : Form) :
  clean_models int objects_get items rq form = Ok (inr form') ->
  form_data form' = form_data form /\ errors form' = errors form.
Proof.
  revert form. induction items as [| [name fi] items IH]; intros form; cbn.
  - intros [= <-]. auto.
  - destruct fi as [f | cls]; [apply IH |].
    destruct (QueryDicts.merge_contains (name ++ "-id") (REQUEST rq)); cbn;
      [| rewrite bad_request_ok; discriminate].
    destruct (QueryDicts.merge_getitem (name ++ "-id") (REQUEST rq)) as [raw | e];
      cbn; [| discriminate].
    destruct (int raw) as [pk | e]; cbn; [| discriminate].
    destruct (objects_get cls pk) as [record |]; [| rewrite not_found_ok; discriminate].
    intros H. apply IH in H. exact H.
Qed.

(** The loop leaves the cleaned data under a name alone when no model
    field has that name. *)
Lemma clean_models_other (items : list (string * field_instance))
    (rq : HttpRequest) (form form' : Form) (name : string) :
  clean_models int objects_get items rq form = Ok (inr form') ->
  (forall cls, ~ In (name, ModelInstance cls) items) ->
  cleaned_data form' !! name = cleaned_data form !! name.
Proof.
  revert form. induction items as [| [k fi] items IH]; intros form; cbn.
  - intros [= <-]. reflexivity.
  - destruct fi as [f | cls].
    { intros H Hn. apply IH; [exact H |]. intros c Hc. apply (Hn c). right. exact Hc. }
    destruct (QueryDicts.merge_contains (k ++ "-id") (REQUEST rq)); cbn;
      [| rewrite bad_request_ok; discriminate].
    destruct (QueryDicts.merge_getitem (k ++ "-id") (REQUEST rq)) as [raw | e];
      cbn; [| discriminate].
    destruct (int raw) as [pk | e]; cbn; [| discriminate].
    destruct (objects_get cls pk) as [record |]; [| rewrite not_found_ok; discriminate].
    intros H Hn. rewrite (IH _ H) by (intros c Hc; apply (Hn c); right; exact Hc).
    cbn. apply lookup_insert_ne. intros ->. apply (Hn cls). left. reflexivity.
Qed.

(** When the loop ends, every model field has its record in the cleaned
    data, under the name of the field: the record whose primary key is the
    integer the request has under ['<name>-id']. *)
Lemma clean_models_resolves (items : list (string * field_instance))
    (rq : HttpRequest) (form form' : Form) (name cls : string) :
  List.NoDup (List.map fst items) ->
  clean_models int objects_get items rq form = Ok (inr form') ->
  In (name, ModelInstance cls) items ->
  exists raw pk record,
    QueryDicts.merge_getitem (name ++ "-id") (REQUEST rq) = Ok raw
    /\ int raw = Ok pk
    /\ objects_get cls pk = Some record
    /\ cleaned_data form' !! name = Some record.
Proof.
  revert form. induction items as [| [k fi] items IH]; intros form Hnd Hc Hin;
    [destruct Hin |].
  cbn in Hnd. apply List.NoDup_cons_iff in Hnd as [Hk Hnd].
  destruct Hin as [[= -> ->] | Hin].
  - cbn in Hc.
    destruct (QueryDicts.merge_contains (name ++ "-id") (REQUEST rq)); cbn in Hc;
      [| rewrite bad_request_ok in Hc; discriminate].
    destruct (QueryDicts.merge_getitem (name ++ "-id") (REQUEST rq)) as [raw | e];
      cbn in Hc; [| discriminate].
    destruct (int raw) as [pk | e] eqn:Hint; cbn in Hc; [| discriminate].
    destruct (objects_get cls pk) as [record |] eqn:Hget;
      [| rewrite not_found_ok in Hc; discriminate].
    exists raw, pk, record. repeat split; auto.
    rewrite (clean_models_other _ _ _ _ name Hc).
    + cbn. apply lookup_insert_eq.
    + intros c Hc'. apply Hk. apply (in_map fst) in Hc'. exact Hc'.
  - destruct fi as [f | c]; cbn in Hc; [apply (IH form); assumption |].
    destruct (QueryDicts.merge_contains (k ++ "-id") (REQUEST rq)); cbn in Hc;
      [| rewrite bad_request_ok in Hc; discriminate].
    destruct (QueryDicts.merge_getitem (k ++ "-id") (REQUEST rq)) as [raw | e];
      cbn in Hc; [| discriminate].
    destruct (int raw) as [pk | e]; cbn in Hc; [| discriminate].
    destruct (objects_get c pk) as [record |];
      [| rewrite not_found_ok in Hc; discriminate].
    apply (IH _ Hnd Hc Hin).
Qed.

(** A field that is cleaned leaves the cleaned data under the other names
    as they are. *)
Lemma cleaned_other (data : QueryDict) (l : list (string * Field))
    (st : gmap string (list string) * gmap string pyval) (name : string) :
  ~ In name (List.map fst l) ->
  snd (fold_left (Forms.clean_field data) l st) !! name = snd st !! name.
Proof.
  revert st. induction l as [| [k f] l IH]; intros st Hn; cbn; [reflexivity |].
  rewrite IH by (intros H; apply Hn; right; exact H).
  unfold Forms.clean_field; cbn.
  destruct (clean f (QueryDicts.get k data)); cbn.
  - apply lookup_insert_ne. intros ->. apply Hn. left. reflexivity.
  - apply lookup_delete_ne. intros ->. apply Hn. left. reflexivity.
Qed.

(** When no two form fields share a name, every declared field whose
    [clean] returns has the value in [form.cleaned_data]. *)
Lemma cleaned_complete (fields : list (string * field_instance)) (data : QueryDict)
    (name : string) (f : Field) (v : pyval) :
  List.NoDup (List.map fst (Forms.declared_fields fields)) ->
  In (name, f) (Forms.declared_fields fields) ->
  clean f (QueryDicts.get name data) = inl v ->
  cleaned_data (Forms.ApiForm fields data) !! name = Some v.
Proof.
  unfold Forms.ApiForm; cbn.
  generalize (Forms.declared_fields fields) as l.
  generalize ((∅, ∅) : gmap string (list string) * gmap string pyval) as st.
  intros st l. revert st.
  induction l as [| [k g] l IH]; intros st Hnd Hin Hc; cbn; [destruct Hin |].
  cbn in Hnd. apply List.NoDup_cons_iff in Hnd as [Hk Hnd].
  destruct Hin as [[= -> ->] | Hin].
  - rewrite cleaned_other by exact Hk.
    unfold Forms.clean_field; cbn. rewrite Hc; cbn. apply lookup_insert_eq.
  - apply IH; assumption.
Qed.

(** The names of the declared form fields are names of the schema, in the
    same order. *)
Lemma declared_fields_names (fields : list (string * field_instance)) :
  List.NoDup (List.map fst fields) ->
  List.NoDup (List.map fst (Forms.declared_fields fields))
  /\ (forall name f, In (name, f) (Forms.declared_fields fields)
                     <-> In (name, FormField f) fields).
Proof.
  induction fields as [| [k fi] fields IH]; cbn; intros Hnd.
  - split; [constructor | tauto].
  - apply List.NoDup_cons_iff in Hnd as [Hk Hnd]. destruct (IH Hnd) as [IH1 IH2].
    destruct fi as [g | cls]; cbn.
    + split.
      * constructor; [| exact IH1]. intros Hin. apply Hk.
        apply in_map_iff in Hin as [[n f] [Hn Hin]]. cbn in Hn; subst n.
        apply IH2 in Hin. apply (in_map fst) in Hin. exact Hin.
      * intros name f. rewrite IH2. split; intros [H | H]; auto; left; congruence.
    + split; [exact IH1 |]. intros name f. rewrite IH2.
      split; [auto | intros [H | H]; [discriminate | exact H]].
Qed.

(** X6: what the view sees when a GET or POST request passes: it is called
    once, with a wrapper around the request; under the name of every form
    field the wrapper has the value [clean] made of the raw value of the
    request, and under the name of every model field it has the record
    whose primary key is the integer the request has under ['<name>-id']. *)
Theorem api_accepts_cleaned_view (DEBUG : bool)
    (fields : list (string * field_instance))
    (func : handler) (rq : HttpRequest) (args : list pyval) (tr : list event)
    (form' : Form) :
  List.NoDup (List.map fst fields) ->
  method rq ∈ ["GET"; "POST"] ->
  Forms.is_valid (Forms.ApiForm fields (method_data rq)) = true ->
  clean_models int objects_get fields rq (Forms.ApiForm fields (method_data rq))
  = Ok (inr form') ->
  api_accepts DEBUG int objects_get fields func rq args tr
  = func (Validated (__init__ rq form')) args tr
  /\ __getattr__ (__init__ rq form') "GET" = Ok (ACleaned (cleaned_data form'))
  /\ __getattr__ (__init__ rq form') "POST" = Ok (ACleaned (cleaned_data form'))
  /\ (forall name f,
        In (name, FormField f) fields ->
        exists v, clean f (QueryDicts.get name (method_data rq)) = inl v
                  /\ cleaned_data form' !! name = Some v)
  /\ (forall name cls,
        In (name, ModelInstance cls) fields ->
        exists raw pk record,
          QueryDicts.merge_getitem (name ++ "-id") (REQUEST rq) = Ok raw
          /\ int raw = Ok pk
          /\ objects_get cls pk = Some record
          /\ cleaned_data form' !! name = Some record).
Proof.
  intros Hnd Hm Hv Hc.
  destruct (api_accepts_resolved int objects_get DEBUG fields func rq args tr form' Hm Hv Hc)
    as (H1 & H2 & H3).
  repeat split; auto.
  - intros name f Hin.
    destruct (declared_fields_names fields Hnd) as [Hnd' Hdecl].
    assert (Hin' := proj2 (Hdecl name f) Hin).
    destruct (clean f (QueryDicts.get name (method_data rq))) as [v | msgs] eqn:Hcl.
    + exists v. split; [reflexivity |].
      rewrite (clean_models_other _ _ _ _ name Hc).
      * apply (cleaned_complete fields _ name f v Hnd' Hin' Hcl).
      * intros cls Hcls.
        assert (Heq : FormField f = ModelInstance cls); [| discriminate].
        clear -Hnd Hin Hcls.
        induction fields as [| [k fi] l IH]; [destruct Hin |].
        cbn in Hnd. apply List.NoDup_cons_iff in Hnd as [Hk Hnd].
        destruct Hin as [[= -> ->] | Hin], Hcls as [[= Hk' Hfi] | Hcls]; auto.
        -- exfalso. apply Hk. apply (in_map fst) in Hcls. exact Hcls.
        -- exfalso. subst. apply Hk. apply (in_map fst) in Hin. exact Hin.
    + exfalso. unfold Forms.is_valid in Hv. apply bool_decide_eq_true in Hv.
      pose proof (errors_complete fields _ name f msgs Hnd' Hin' Hcl) as He.
      rewrite Hv, lookup_empty in He. discriminate.
  - intros name cls Hin. eapply clean_models_resolves; eassumption.
Qed.

(** X7: when the companion value of a model field is present and [int]
    raises on it, the exception leaves [api_accepts] as it is, in both
    modes: there is no response and the view is not called. *)
Theorem api_accepts_bad_id_raises (DEBUG : bool)
    (fields pre post : list (string * field_instance))
    (name cls raw : string) (e : exn) (form' : Form)
    (func : handler) (rq : HttpRequest) (args : list pyval) (tr : list event) :
  method rq ∈ ["GET"; "POST"] ->
  Forms.is_valid (Forms.ApiForm fields (method_data rq)) = true ->
  fields = (pre ++ (name, ModelInstance cls) :: post)%list ->
  clean_models int objects_get pre rq (Forms.ApiForm fields (method_data rq)) = Ok (inr form') ->
  QueryDicts.merge_getitem (name ++ "-id") (REQUEST rq) = Ok raw ->
  int raw = Raise e ->
  api_accepts DEBUG int objects_get fields func rq args tr = (Raise e, tr).
Proof.
  intros Hm Hv Hf Hpre Hraw Hint.
  rewrite (api_accepts_valid int objects_get DEBUG fields func rq args tr Hm Hv).
  rewrite Hf at 1. rewrite clean_models_app, Hpre. cbn.
  rewrite (merge_getitem_contains _ _ _ Hraw), Hraw. cbn.
  rewrite Hint. reflexivity.
Qed.

(** X8: [api_accepts] calls the view at most once and with the arguments it
    was given: the trace grows by nothing, by one call, or, in lenient
    mode only, by one warning and one call with the request as it came.
    The view is called with the request or with a wrapper around it. *)
Theorem api_accepts_calls_at_most_once (DEBUG : bool)
    (fields : list (string * field_instance))
    (f : request -> list pyval -> res retval)
    (rq : HttpRequest) (args : list pyval) (tr : list event) :
  exists extra,
    snd (api_accepts DEBUG int objects_get fields (view f) rq args tr) = (tr ++ extra)%list
    /\ (extra = []
        \/ extra = [Call (Original rq) args]
        \/ (exists form, extra = [Call (Validated (__init__ rq form)) args])
        \/ (DEBUG = false /\ exists msg, extra = [Warn msg; Call (Original rq) args])).
Proof.
  unfold api_accepts.
  destruct (bool_decide (method rq ∈ ["GET"; "POST"])); cbn; cycle 1.
  { exists [Call (Original rq) args]. split; [| auto].
    unfold view. run_m. destruct (f (Original rq) args); reflexivity. }
  destruct (Forms.is_valid _); cbn.
  - run_m. destruct (clean_models _ _ _ _ _) as [[r | form'] | e]; cbn.
    + exists []. rewrite app_nil_r. auto.
    + exists [Call (Validated (__init__ rq form')) args]. split; [| eauto].
      unfold view. run_m. destruct (f (Validated (__init__ rq form')) args); reflexivity.
    + exists []. rewrite app_nil_r. auto.
  - destruct DEBUG; cbn.
    + exists []. rewrite app_nil_r. auto.
    + eexists [_; _]. split.
      * unfold view. run_m. rewrite <- app_assoc.
        destruct (f (Original rq) args); reflexivity.
      * right. right. right. eauto.
Qed.

(** X9: how [api] puts the two decorators together.  The contract is
    checked on what the view returns, for the request the parameter
    validator hands over; a 400 of the parameter validator is returned as
    it is, whether the contract declares 400 or not. *)
Theorem api_composition (DEBUG : bool)
    (accepts : list (string * field_instance)) (returns : gmap Z string)
    (func : handler) (rq : HttpRequest) (args : list pyval) (tr : list event) :
  (method rq ∉ ["GET"; "POST"] ->
     api DEBUG int objects_get accepts returns func rq args tr
     = api_returns DEBUG returns func (Original rq) args tr)
  /\ (method rq ∈ ["GET"; "POST"] ->
      Forms.is_valid (Forms.ApiForm accepts (method_data rq)) = false ->
      api DEBUG int objects_get accepts returns func rq args tr
      = if DEBUG
        then (Ok (Resp (mkresponse JsonResponseBadRequest 400 "application/json"
                          (simplejson.encode_basestring_ascii
                             ("failed to validate: "
                                ++ Forms.errors_text
                                     (Forms.ApiForm accepts (method_data rq)))))),
              tr)
        else api_returns DEBUG returns func (Original rq) args
               (tr ++ [Warn ("input to '" ++ path rq ++ "' failed to validate: "
                               ++ Forms.errors_text
                                    (Forms.ApiForm accepts (method_data rq)))])%list)
  /\ (method rq ∈ ["GET"; "POST"] ->
      Forms.is_valid (Forms.ApiForm accepts (method_data rq)) = true ->
      api DEBUG int objects_get accepts returns func rq args tr
      = match clean_models int objects_get accepts rq
                (Forms.ApiForm accepts (method_data rq)) with
        | Ok (inl r) => (Ok (Resp r), tr)
        | Ok (inr form') =>
            api_returns DEBUG returns func (Validated (__init__ rq form')) args tr
        | Raise e => (Raise e, tr)
        end).
Proof.
  unfold api. split; [| split].
  - intros Hm. unfold api_accepts. rewrite (bool_decide_eq_false_2 _ Hm). reflexivity.
  - intros Hm Hv. rewrite (api_accepts_invalid int objects_get DEBUG accepts _ rq args tr Hm Hv).
    destruct DEBUG; reflexivity.
  - intros Hm Hv. rewrite (api_accepts_valid int objects_get DEBUG accepts _ rq args tr Hm Hv).
    reflexivity.
Qed.

End ParameterValidatorMore.

(* ===================================================================== *)
(** ** More on the body-parsing helper *)
(* ===================================================================== *)

Section BodyParserMore.

Variable loads : string -> res pyval.

(** The loop finds nothing missing when [in] answers yes for every key. *)
Lemma first_missing_none (ks : list string) (v : pyval) :
  (forall k, In k ks -> contains k v = Ok true) -> first_missing ks v = Ok None.
Proof.
  induction ks as [| k ks IH]; cbn; intros H; [reflexivity |].
  rewrite (H k) by (left; reflexivity). cbn. apply IH.
  intros k' Hk'. apply H. right. exact Hk'.
Qed.

(** X10: for a body that is a JSON object, the helper answers 400 with the
    name of a required key the object lacks when there is one, and
    otherwise calls the view with the request and, as second argument, the
    parsed object. *)
Theorem validate_json_request_object (K : gset string) (func : handler)
    (rq : HttpRequest) (args : list pyval) (tr : list event)
    (d : list (pyval * pyval)) :
  loads (raw_post_data rq) = Ok (PDict d) ->
  ((exists k, k ∈ K /\ existsb (fun kv => eq_text k (fst kv)) d = false) ->
   exists k,
     k ∈ K /\ existsb (fun kv => eq_text k (fst kv)) d = false
     /\ validate_json_request loads K func rq args tr
        = (Ok (Resp (mkresponse JsonResponseBadRequest 400 "application/json"
                       (simplejson.encode_basestring_ascii
                          ("POST JSON must contain property '" ++ k ++ "'")))),
           tr))
  /\ ((forall k, k ∈ K -> existsb (fun kv => eq_text k (fst kv)) d = true) ->
      validate_json_request loads K func rq args tr
      = func (Original rq) (PDict d :: args) tr).
Proof.
  intros Hl. split.
  - intros (k0 & Hin & Hk0). eapply validate_json_missing_key; eassumption.
  - intros Hall. apply validate_json_complete; assumption.
Qed.

(** X11: with no required key nothing is looked up: every body that parses
    goes to the view, a number or a constant too. *)
Theorem validate_json_request_no_keys (func : handler)
    (rq : HttpRequest) (args : list pyval) (tr : list event) (v : pyval) :
  loads (raw_post_data rq) = Ok v ->
  validate_json_request loads ∅ func rq args tr = func (Original rq) (v :: args) tr.
Proof.
  intros Hl. unfold validate_json_request. rewrite Hl. run_m.
  rewrite elements_empty. reflexivity.
Qed.

(** X12: the required keys are looked up with [in], so a body need not be
    an object to pass: an array that has every required key among its
    items and a text that has every required key as a part go to the view
    as they are. *)
Theorem validate_json_request_not_an_object (K : gset string) (func : handler)
    (rq : HttpRequest) (args : list pyval) (tr : list event) (v : pyval) :
  loads (raw_post_data rq) = Ok v ->
  match v with
  | PList l => forall k, k ∈ K -> existsb (eq_text k) l = true
  | PStr s => forall k, k ∈ K -> Text.contains k s = true
  | _ => False
  end ->
  validate_json_request loads K func rq args tr = func (Original rq) (v :: args) tr.
Proof.
  intros Hl Hv. unfold validate_json_request. rewrite Hl. run_m.
  rewrite first_missing_none; [reflexivity |].
  intros k Hk. apply list_elem_of_In, elem_of_elements in Hk.
  destruct v; try contradiction; cbn; rewrite (Hv k Hk); reflexivity.
Qed.

End BodyParserMore.

(* ===================================================================== *)
(** ** The further theorems at sample requests *)
(* ===================================================================== *)

(** X1 at a plain [HttpResponse] with the declared status code 200. *)
Lemma api_returns_strict_not_json_witness :
  api_returns true Samples.simple_returns (view (Samples.http_view 200))
    (Original Samples.bare_request) [] []
  = (Ok (Resp (mkresponse JsonResponseBadRequest 400 "application/json"
                 (simplejson.encode_basestring_ascii "API did not return JSON"))),
     [Call (Original Samples.bare_request) []]).
Proof.
  refine (api_returns_strict_not_json Samples.simple_returns (view (Samples.http_view 200))
            (Original Samples.bare_request) [] [] [Call (Original Samples.bare_request) []]
            (mkresponse HttpResponse 200 "text/html" "") _ _); reflexivity.
Defined.

(** X2 at the view of [tests.py] that answers 202. *)
Lemma api_returns_strict_status_witness :
  exists r',
    api_returns true Samples.simple_returns (view (Samples.class_view JsonResponseAccepted))
      (Original Samples.bare_request) [] []
    = (Ok (Resp r'), [Call (Original Samples.bare_request) []])
    /\ (status_code r' ∈ dom Samples.simple_returns
        \/ status_code r' = 500 \/ status_code r' = 400)
    /\ (r' = mkresponse JsonResponseAccepted 202 "application/json" "{}"
        \/ response_cls r' = JsonResponseBadRequest).
Proof.
  refine (api_returns_strict_status Samples.simple_returns
            (view (Samples.class_view JsonResponseAccepted))
            (Original Samples.bare_request) [] [] [Call (Original Samples.bare_request) []]
            (mkresponse JsonResponseAccepted 202 "application/json" "{}") _).
  reflexivity.
Defined.

(** X3 at a plain [HttpResponse] with the status code 202, which is not
    declared. *)
Lemma api_returns_lenient_transparent_witness :
  exists ws,
    api_returns false Samples.simple_returns (view (Samples.http_view 202))
      (Original Samples.bare_request) [] []
    = (Ok (Resp (mkresponse HttpResponse 202 "text/html" "")),
       ([Call (Original Samples.bare_request) []] ++ List.map Warn ws)%list)
    /\ (length ws <= 2)%nat
    /\ (Response.isinstance_JsonResponse (mkresponse HttpResponse 202 "text/html" "") = true ->
        202 ∈ accepted_return_codes Samples.simple_returns -> ws = []).
Proof.
  refine (api_returns_lenient_transparent Samples.simple_returns (view (Samples.http_view 202))
            (Original Samples.bare_request) [] [] [Call (Original Samples.bare_request) []]
            (mkresponse HttpResponse 202 "text/html" "") _).
  reflexivity.
Defined.

(** X4 at a view that returns [None], in lenient mode. *)
Lemma api_returns_not_a_response_witness :
  api_returns false Samples.simple_returns (view (Samples.value_view PNone))
    (Original Samples.bare_request) [] []
  = (Raise (AttributeError "status_code"),
     [Call (Original Samples.bare_request) []; Warn "API did not return JSON"]).
Proof.
  refine (api_returns_not_a_response false Samples.simple_returns
            (view (Samples.value_view PNone))
            (Original Samples.bare_request) [] [] [Call (Original Samples.bare_request) []]
            PNone _).
  reflexivity.
Defined.

(** X6 at the request of [tests.py] that succeeds: the view is called with
    the wrapper, whose cleaned data has the user under ['user']. *)
Lemma api_accepts_cleaned_view_witness :
  api_accepts true Samples.int Samples.objects_get Samples.model_fields
    (view (Samples.class_view JsonResponse)) Samples.model_success_request [] []
  = view (Samples.class_view JsonResponse)
      (Validated
         (__init__ Samples.model_success_request
            (Forms.set_cleaned
               (Forms.ApiForm Samples.model_fields (method_data Samples.model_success_request))
               "user" (PModel Samples.User 1))))
      [] [].
Proof.
  refine (proj1 (api_accepts_cleaned_view Samples.int Samples.objects_get true
                   Samples.model_fields (view (Samples.class_view JsonResponse))
                   Samples.model_success_request [] []
                   (Forms.set_cleaned
                      (Forms.ApiForm Samples.model_fields
                         (method_data Samples.model_success_request))
                      "user" (PModel Samples.User 1))
                   _ _ _ _)).
  - apply List.NoDup_cons; [cbn; intros [H | []]; discriminate H |].
    apply List.NoDup_cons; [intros [] | apply List.NoDup_nil].
  - apply (bool_decide_unpack _). vm_compute. exact I.
  - vm_compute. reflexivity.
  - vm_compute. reflexivity.
Defined.

(** X7 at a companion value that is no integer, in strict mode. *)
Lemma api_accepts_bad_id_raises_witness :
  api_accepts true Samples.int Samples.objects_get Samples.model_fields
    (view (Samples.class_view JsonResponse)) Samples.bad_id_request [] []
  = (Raise (ValueError ("invalid literal for int() with base 10: " ++ Text.repr_str "abc")), []).
Proof.
  refine (api_accepts_bad_id_raises Samples.int Samples.objects_get true Samples.model_fields
            [("im_required", FormField (Samples.IntegerField true None))] []
            "user" Samples.User "abc" _
            (Forms.ApiForm Samples.model_fields (method_data Samples.bad_id_request))
            (view (Samples.class_view JsonResponse)) Samples.bad_id_request [] []
            _ _ _ _ _ _).
  - apply (bool_decide_unpack _). vm_compute. exact I.
  - vm_compute. reflexivity.
  - reflexivity.
  - reflexivity.
  - vm_compute. reflexivity.
  - vm_compute. reflexivity.
Defined.

(** X10 at the body with the one member [name], under the required keys
    [name] and [date]: the answer names [date]. *)
Lemma validate_json_request_object_witness :
  exists k,
    k ∈ ({[ "name"; "date" ]} : gset string)
    /\ existsb (fun kv => eq_text k (fst kv)) [(PStr "name", PStr "a")] = false
    /\ validate_json_request simplejson.loads {[ "name"; "date" ]}
         (view (Samples.class_view JsonResponse)) (Samples.json_request Samples.name_body) [] []
       = (Ok (Resp (mkresponse JsonResponseBadRequest 400 "application/json"
                      (simplejson.encode_basestring_ascii
                         ("POST JSON must contain property '" ++ k ++ "'")))),
          []).
Proof.
  refine (proj1 (validate_json_request_object simplejson.loads {[ "name"; "date" ]}
                   (view (Samples.class_view JsonResponse))
                   (Samples.json_request Samples.name_body) [] []
                   [(PStr "name", PStr "a")] _) _).
  - vm_compute. reflexivity.
  - exists "date". split; [| reflexivity].
    apply (bool_decide_unpack _). vm_compute. exact I.
Defined.

(** X11 at the body [5]. *)
Lemma validate_json_request_no_keys_witness :
  validate_json_request simplejson.loads ∅ (view (Samples.class_view JsonResponse))
    (Samples.json_request "5") [] []
  = view (Samples.class_view JsonResponse) (Original (Samples.json_request "5")) [PInt 5] [].
Proof.
  refine (validate_json_request_no_keys simplejson.loads
            (view (Samples.class_view JsonResponse)) (Samples.json_request "5") [] []
            (PInt 5) _).
  vm_compute. reflexivity.
Defined.

(** X12 at the body that is the array of the two key names. *)
Lemma validate_json_request_not_an_object_witness :
  validate_json_request simplejson.loads {[ "name"; "date" ]}
    (view (Samples.class_view JsonResponse))
    (Samples.json_request Samples.names_array_body) [] []
  = view (Samples.class_view JsonResponse)
      (Original (Samples.json_request Samples.names_array_body))
      [PList [PStr "name"; PStr "date"]] [].
Proof.
  refine (validate_json_request_not_an_object simplejson.loads {[ "name"; "date" ]}
            (view (Samples.class_view JsonResponse))
            (Samples.json_request Samples.names_array_body) [] []
            (PList [PStr "name"; PStr "date"]) _ _).
  - vm_compute. reflexivity.
  - intros k Hk. apply elem_of_union in Hk as [Hk | Hk];
      apply elem_of_singleton in Hk; subst k; reflexivity.
Defined.

(* ===================================================================== *)
(** ** Bodies read back *)
(* ===================================================================== *)

Lemma append_cons_s (x : ascii) (a b : string) : String x a ++ b = String x (a ++ b).
Proof. reflexivity. Qed.

Lemma append_assoc_s (a b c : string) : (a ++ b) ++ c = a ++ (b ++ c).
Proof.
  induction a as [| x a IH]; [reflexivity |].
  rewrite !append_cons_s, IH. reflexivity.
Qed.

Lemma append_nil_s (a : string) : a ++ "" = a.
Proof.
  induction a as [| x a IH]; [reflexivity |].
  rewrite append_cons_s, IH. reflexivity.
Qed.

Lemma length_append_s (a b : string) :
  String.length (a ++ b) = (String.length a + String.length b)%nat.
Proof.
  induction a as [| x a IH]; [reflexivity |].
  rewrite append_cons_s. cbn [String.length]. rewrite IH. reflexivity.
Qed.

(** The scanner reads one written character back. *)
Lemma scanstring_escape_char (c : ascii) (r : string) :
  simplejson.scanstring (simplejson.escape_char c ++ r)
  = let? (t, rest) := simplejson.scanstring r in Ok (String c t, rest).
Proof.
  destruct c as [[] [] [] [] [] [] [] []]; reflexivity.
Qed.

(** The scanner reads every written text back, up to the closing quote. *)
Lemma scanstring_escaped (s rest : string) :
  simplejson.scanstring
    (Text.concat_map simplejson.escape_char s ++ String Text.dquote rest)
  = Ok (s, rest).
Proof.
  induction s as [| c s IH]; [reflexivity |].
  simpl Text.concat_map. rewrite append_assoc_s, scanstring_escape_char, IH. reflexivity.
Qed.

(** What follows a value is no part of a number. *)
Lemma delimited_cases (rest : string) :
  Body.delimited rest = true ->
  rest = "" \/ exists r, rest = String "," r \/ rest = String "]" r \/ rest = String "}" r.
Proof.
  destruct rest as [| c r]; [auto |]. cbn. intros H. right. exists r.
  apply orb_true_iff in H as [H | H]; [apply orb_true_iff in H as [H | H] |];
    apply Ascii.eqb_eq in H; subst; auto.
Qed.

Ltac delimited_rest rest H :=
  destruct (delimited_cases rest H) as [-> | [? [-> | [-> | ->]]]].

(** A written string is read back. *)
Lemma scan_once_string (n : nat) (s rest : string) :
  simplejson.scan_once (S n) (simplejson.encode_basestring_ascii s ++ rest)
  = Ok (PStr s, rest).
Proof.
  unfold simplejson.encode_basestring_ascii.
  rewrite append_cons_s, append_assoc_s, append_cons_s.
  cbn [simplejson.scan_once].
  change (Ascii.eqb Text.dquote Text.dquote) with true. cbv iota.
  rewrite scanstring_escaped. reflexivity.
Qed.

(** The digits of a numeral are read up to what follows. *)
Lemma span_digits_uint (d : Decimal.uint) (rest : string) :
  Body.delimited rest = true ->
  simplejson.span_digits (NilEmpty.string_of_uint d ++ rest)
  = (NilEmpty.string_of_uint d, rest).
Proof.
  intros H. induction d; cbn [NilEmpty.string_of_uint];
    rewrite ?append_cons_s; cbn [simplejson.span_digits];
    try (change (simplejson.is_digit _) with true; cbv iota; rewrite IHd; reflexivity).
  delimited_rest rest H; reflexivity.
Qed.

Lemma Z_of_digits_acc (d : Decimal.uint) (acc : positive) :
  simplejson.Z_of_digits (Z.pos acc) (NilEmpty.string_of_uint d)
  = Z.pos (Pos.of_uint_acc d acc).
Proof.
  revert acc. induction d; intros acc; cbn [NilEmpty.string_of_uint Pos.of_uint_acc];
    [reflexivity | ..];
    cbn [simplejson.Z_of_digits]; rewrite <- IHd; f_equal;
    unfold simplejson.digit_value; cbn; lia.
Qed.

Lemma Z_of_digits_uint (d : Decimal.uint) :
  simplejson.Z_of_digits 0 (NilEmpty.string_of_uint d) = Z.of_N (Pos.of_uint d).
Proof.
  induction d; cbn [NilEmpty.string_of_uint Pos.of_uint]; [reflexivity | ..];
    cbn [simplejson.Z_of_digits];
    first [ exact IHd | cbn [Z.of_N]; rewrite <- Z_of_digits_acc; reflexivity ].
Qed.

(** The numeral of a positive number starts with a digit that is not
    zero. *)
Lemma to_uint_head (p : positive) :
  match Pos.to_uint p with
  | Decimal.Nil | Decimal.D0 _ => False
  | _ => True
  end.
Proof.
  pose proof (DecimalPos.Unsigned.to_of (Pos.to_uint p)) as H.
  rewrite DecimalPos.Unsigned.of_to in H. cbn [N.to_uint] in H.
  pose proof (DecimalPos.Unsigned.to_uint_nonzero p) as Hz.
  pose proof (DecimalPos.Unsigned.to_uint_nonnil p) as Hn.
  destruct (Pos.to_uint p) as [| u | | | | | | | | |]; auto.
  unfold Decimal.unorm in H.
  destruct (Decimal.nzhead (Decimal.D0 u)) eqn:E;
    exfalso; apply (DecimalFacts.nzhead_nonzero (Decimal.D0 u) u); congruence.
Qed.

(** A written integer is read back. *)
Lemma scan_number_int (z : Z) (rest : string) :
  Body.delimited rest = true ->
  simplejson.scan_number (Text.str_of_Z z ++ rest) = Some (PInt z, rest).
Proof.
  intros H. unfold Text.str_of_Z.
  assert (Hf : simplejson.scan_frac rest = ("", rest)) by (delimited_rest rest H; reflexivity).
  assert (He : simplejson.scan_exp rest = ("", rest)) by (delimited_rest rest H; reflexivity).
  assert (Hpos : forall p (neg : bool) s,
             s = NilEmpty.string_of_uint (Pos.to_uint p) ++ rest ->
             match s with
             | String c r =>
                 if simplejson.is_digit c then
                   let (int_part, rest0) :=
                     if Ascii.eqb c "0" then ("0", r) else simplejson.span_digits s in
                   let (frac, rest1) := simplejson.scan_frac rest0 in
                   let (exp, rest2) := simplejson.scan_exp rest1 in
                   if String.eqb frac "" && String.eqb exp "" then
                     let n := simplejson.Z_of_digits 0 int_part in
                     Some (PInt (if neg then - n else n), rest0)
                   else
                     Some (PFloat ((if neg then "-" else "") ++ int_part ++ frac ++ exp), rest2)
                 else None
             | EmptyString => None
             end = Some (PInt (if neg then - Z.pos p else Z.pos p), rest)).
  { intros p neg s ->.
    pose proof (to_uint_head p) as Hh.
    pose proof (span_digits_uint (Pos.to_uint p) rest H) as Hs.
    pose proof (Z_of_digits_uint (Pos.to_uint p)) as Hv.
    rewrite DecimalPos.Unsigned.of_to in Hv. cbn [Z.of_N] in Hv.
    destruct (Pos.to_uint p) as [| u | u | u | u | u | u | u | u | u | u];
      try contradiction;
      cbn [NilEmpty.string_of_uint] in *; rewrite append_cons_s in *;
      change (simplejson.is_digit _) with true; cbv iota;
      match goal with |- context [Ascii.eqb ?a ?b] => change (Ascii.eqb a b) with false end;
      cbv iota; rewrite Hs; cbv beta iota; rewrite Hf; cbv beta iota; rewrite He;
      cbv beta iota; cbn [String.eqb andb]; cbv beta iota zeta; rewrite Hv; reflexivity. }
  destruct z as [| p | p]; cbn [Z.to_int NilZero.string_of_int].
  - clear Hf He Hpos. delimited_rest rest H; reflexivity.
  - pose proof (DecimalPos.Unsigned.to_uint_nonnil p) as Hn.
    assert (Hs : NilZero.string_of_uint (Pos.to_uint p)
                 = NilEmpty.string_of_uint (Pos.to_uint p)).
    { destruct (Pos.to_uint p); [contradiction | reflexivity ..]. }
    rewrite Hs. unfold simplejson.scan_number.
    pose proof (to_uint_head p) as Hh.
    assert (Hm : match NilEmpty.string_of_uint (Pos.to_uint p) ++ rest with
                 | String "-" r => (true, r)
                 | _ => (false, NilEmpty.string_of_uint (Pos.to_uint p) ++ rest)
                 end = (false, NilEmpty.string_of_uint (Pos.to_uint p) ++ rest)).
    { destruct (Pos.to_uint p); try contradiction; reflexivity. }
    rewrite Hm. apply (Hpos p false). reflexivity.
  - pose proof (DecimalPos.Unsigned.to_uint_nonnil p) as Hn.
    assert (Hs : NilZero.string_of_uint (Pos.to_uint p)
                 = NilEmpty.string_of_uint (Pos.to_uint p)).
    { destruct (Pos.to_uint p); [contradiction | reflexivity ..]. }
    rewrite Hs, append_cons_s. unfold simplejson.scan_number.
    apply (Hpos p true). reflexivity.
Qed.

(** A value in the body is read without a look at the blanks before it,
    for there are none. *)
Lemma skip_ws_starts (body rest : string) :
  Body.starts body = true -> simplejson.skip_ws (body ++ rest) = body ++ rest.
Proof.
  destruct body as [| c s]; [discriminate |]. cbn [Body.starts].
  intros H. apply andb_true_iff in H as [Hw _]. apply negb_true_iff in Hw.
  rewrite append_cons_s. cbn [simplejson.skip_ws]. rewrite Hw. reflexivity.
Qed.

Lemma starts_app (a b : string) : Body.starts a = true -> Body.starts (a ++ b) = true.
Proof. destruct a; [discriminate | intros H; exact H]. Qed.

Lemma starts_length (a : string) : Body.starts a = true -> (1 <= String.length a)%nat.
Proof. destruct a; [discriminate | cbn; lia]. Qed.

(** An integer is written with a digit or a minus sign first. *)
Lemma str_of_Z_head (z : Z) :
  exists c s, Text.str_of_Z z = String c s
              /\ (simplejson.is_digit c = true \/ c = "-"%char).
Proof.
  unfold Text.str_of_Z. destruct z as [| p | p]; cbn [Z.to_int NilZero.string_of_int].
  - exists "0"%char, "". auto.
  - pose proof (DecimalPos.Unsigned.to_uint_nonnil p) as Hn.
    destruct (Pos.to_uint p); try contradiction; cbn; eauto.
  - eexists _, _. split; [reflexivity | auto].
Qed.

(** The reader tries a number when a digit or a minus sign comes first. *)
Lemma scan_once_number (n : nat) (c : ascii) (r : string) (vr : pyval * string) :
  simplejson.is_digit c = true \/ c = "-"%char ->
  simplejson.scan_number (String c r) = Some vr ->
  simplejson.scan_once (S n) (String c r) = Ok vr.
Proof.
  intros Hc Hn.
  assert (H : simplejson.scan_once (S n) (String c r)
              = match simplejson.scan_number (String c r) with
                | Some vr => Ok vr
                | None =>
                    match simplejson.strip_prefix "NaN" (String c r),
                          simplejson.strip_prefix "Infinity" (String c r),
                          simplejson.strip_prefix "-Infinity" (String c r) with
                    | Some rest, _, _ => Ok (PFloat "nan", rest)
                    | _, Some rest, _ => Ok (PFloat "inf", rest)
                    | _, _, Some rest => Ok (PFloat "-inf", rest)
                    | _, _, _ => Raise simplejson.no_json
                    end
                end).
  { destruct Hc as [Hc | ->]; [| reflexivity].
    destruct c as [[] [] [] [] [] [] [] []]; try discriminate Hc; reflexivity. }
  rewrite H, Hn. reflexivity.
Qed.

(** A written integer is read back by the reader. *)
Lemma scan_once_int (n : nat) (z : Z) (rest : string) :
  Body.delimited rest = true ->
  simplejson.scan_once (S n) (Text.str_of_Z z ++ rest) = Ok (PInt z, rest).
Proof.
  intros H. pose proof (scan_number_int z rest H) as Hn.
  destruct (str_of_Z_head z) as (c & s & Hz & Hc).
  rewrite Hz in *. rewrite append_cons_s in *.
  apply scan_once_number; assumption.
Qed.

Lemma str_of_Z_starts (z : Z) : Body.starts (Text.str_of_Z z) = true.
Proof.
  destruct (str_of_Z_head z) as (c & s & -> & [Hc | ->]); [| reflexivity].
  destruct c as [[] [] [] [] [] [] [] []]; try discriminate Hc; reflexivity.
Qed.

(** The reader enters an array that is not empty. *)
Lemma scan_once_array (n : nat) (r : string) :
  Body.starts r = true ->
  simplejson.scan_once (S n) (String "[" r)
  = let? (l, rest) := simplejson.scan_items n r in Ok (PList l, rest).
Proof.
  destruct r as [| c s]; [discriminate |]. cbn [Body.starts]. intros H.
  destruct c as [[] [] [] [] [] [] [] []]; try discriminate H; reflexivity.
Qed.

Lemma scan_items_eq (m : nat) (s : string) :
  simplejson.scan_items (S m) s
  = let? (v, rest) := simplejson.scan_once m s in
    match simplejson.skip_ws rest with
    | String "]" rest1 => Ok ([v], rest1)
    | String "," rest1 =>
        let? (l, rest2) := simplejson.scan_items m (simplejson.skip_ws rest1) in
        Ok (v :: l, rest2)
    | _ => Raise (ValueError "Expecting , delimiter")
    end.
Proof. reflexivity. Qed.

Lemma scan_members_eq (m : nat) (r : string) (acc : list (pyval * pyval)) :
  simplejson.scan_members (S m) (String Text.dquote r) acc
  = let? (k, rest) := simplejson.scanstring r in
    match simplejson.skip_ws rest with
    | String ":" rest1 =>
        let? (v, rest2) := simplejson.scan_once m (simplejson.skip_ws rest1) in
        match simplejson.skip_ws rest2 with
        | String "}" rest3 => Ok (simplejson.dict_set k v acc, rest3)
        | String "," rest3 =>
            simplejson.scan_members m (simplejson.skip_ws rest3)
              (simplejson.dict_set k v acc)
        | _ => Raise (ValueError "Expecting , delimiter")
        end
    | _ => Raise (ValueError "Expecting : delimiter")
    end.
Proof. reflexivity. Qed.

Lemma scan_once_object (n : nat) (r : string) :
  simplejson.scan_once (S n) (String "{" (String Text.dquote r))
  = let? (d, rest) := simplejson.scan_members n (String Text.dquote r) [] in
    Ok (PDict d, rest).
Proof. reflexivity. Qed.

Lemma join_cons2 (sep x y : string) (r : list string) :
  Text.join sep (x :: y :: r) = x ++ sep ++ Text.join sep (y :: r).
Proof. reflexivity. Qed.

Lemma join_starts (sep x : string) (r : list string) :
  Body.starts x = true -> Body.starts (Text.join sep (x :: r)) = true.
Proof.
  intros H. destruct r as [| y r]; [exact H |].
  rewrite join_cons2. apply starts_app, H.
Qed.

Lemma res_all_length {A B} (f : A -> res B) (l : list A) (ys : list B) :
  res_all f l = Ok ys -> length ys = length l.
Proof.
  revert ys. induction l as [| x l IH]; cbn; intros ys.
  - intros [= <-]. reflexivity.
  - destruct (f x); cbn; [| discriminate].
    destruct (res_all f l); cbn; [| discriminate].
    intros [= <-]. cbn. rewrite (IH _ eq_refl). reflexivity.
Qed.

Lemma res_all_cons {A B} (f : A -> res B) (x : A) (l : list A) (ys : list B) :
  res_all f (x :: l) = Ok ys ->
  exists y ys', f x = Ok y /\ res_all f l = Ok ys' /\ ys = y :: ys'.
Proof.
  cbn. destruct (f x); cbn; [| discriminate].
  destruct (res_all f l); cbn; [| discriminate].
  intros [= <-]. eauto.
Qed.

(** The items of an array are read back one after the other. *)
Lemma items_read_back (l : list pyval) :
  Forall (fun x => Body.exact x = true ->
                   forall body, simplejson.encode Json.default x = Ok body ->
                                Body.reads_back x body) l ->
  forallb Body.exact l = true ->
  forall ss, res_all (simplejson.encode Json.default) l = Ok ss ->
  (Body.need_items l <= S (String.length (Text.join "," ss)))%nat
  /\ (l <> [] -> Body.starts (Text.join "," ss) = true)
  /\ forall fuel rest, l <> [] -> (Body.need_items l <= fuel)%nat ->
       simplejson.scan_items fuel (Text.join "," ss ++ String "]" rest)
       = Ok (List.map Body.loaded l, rest).
Proof.
  induction 1 as [| x r Hx _ IH]; intros He ss Hss.
  - injection Hss as <-. cbn. repeat split; [lia | congruence | congruence].
  - cbn in He. apply andb_true_iff in He as [Hex Her].
    apply res_all_cons in Hss as (sx & sr & Hsx & Hsr & ->).
    destruct (Hx Hex sx Hsx) as (Hst & Hlen & Hscan).
    destruct (IH Her sr Hsr) as (IHlen & IHst & IHscan).
    destruct r as [| y r'].
    + injection Hsr as <-. cbn [Text.join Body.need_items fold_right List.map].
      repeat split; [lia | auto |].
      intros fuel rest _ Hfuel. destruct fuel as [| m]; [lia |].
      rewrite scan_items_eq, Hscan by (reflexivity || lia). reflexivity.
    + pose proof (res_all_length _ _ _ Hsr) as Hl.
      destruct sr as [| sy sr']; [discriminate Hl |].
      rewrite join_cons2.
      change (Body.need_items (x :: y :: r'))
        with (S (Nat.max (Body.need x) (Body.need_items (y :: r')))).
      repeat split.
      * rewrite !length_append_s. cbn [String.length]. lia.
      * intros _. apply starts_app, Hst.
      * intros fuel rest _ Hfuel. destruct fuel as [| m]; [lia |].
        rewrite scan_items_eq, !append_assoc_s.
        change ("," ++ Text.join "," (sy :: sr') ++ String "]" rest)
          with (String "," (Text.join "," (sy :: sr') ++ String "]" rest)).
        rewrite Hscan by (reflexivity || lia).
        cbn [res_bind simplejson.skip_ws].
        change (simplejson.is_ws ",") with false. cbv iota.
        rewrite skip_ws_starts by (apply IHst; congruence).
        rewrite IHscan by (congruence || lia). reflexivity.
Qed.

Lemma member_text_app (sk sv tail : string) :
  simplejson.member_text sk sv ++ tail
  = String Text.dquote
      (Text.concat_map simplejson.escape_char sk
         ++ String Text.dquote (String ":" (sv ++ tail))).
Proof.
  unfold simplejson.member_text, simplejson.encode_basestring_ascii.
  rewrite !append_cons_s, !append_assoc_s. reflexivity.
Qed.

Lemma member_text_length (sk sv : string) :
  (String.length sv + 3 <= String.length (simplejson.member_text sk sv))%nat.
Proof.
  unfold simplejson.member_text, simplejson.encode_basestring_ascii.
  rewrite !append_cons_s. cbn [String.length].
  rewrite !length_append_s. cbn [String.length].
  rewrite !length_append_s. cbn [String.length]. lia.
Qed.

Lemma encode_key_text (k : pyval) (sk : string) :
  simplejson.encode_key k = Ok sk -> Body.key_text k = sk.
Proof. unfold Body.key_text. intros ->. reflexivity. Qed.

(** The members of an object are read back one after the other, each on
    top of the ones before it. *)
Lemma members_read_back (d : list (pyval * pyval)) :
  Forall (fun kv => Body.exact (snd kv) = true ->
                    forall body, simplejson.encode Json.default (snd kv) = Ok body ->
                                 Body.reads_back (snd kv) body) d ->
  forallb (fun kv => match simplejson.encode_key (fst kv) with
                     | Ok _ => Body.exact (snd kv)
                     | Raise _ => false
                     end) d = true ->
  forall ss,
    res_all (simplejson.encode_member (simplejson.encode Json.default)) d = Ok ss ->
    (Body.need_members d <= S (String.length (Text.join "," ss)))%nat
    /\ (d <> [] -> exists r, Text.join "," ss = String Text.dquote r)
    /\ forall fuel rest acc, d <> [] -> (Body.need_members d <= fuel)%nat ->
         simplejson.scan_members fuel (Text.join "," ss ++ String "}" rest) acc
         = Ok (Body.dict_of Body.loaded d acc, rest).
Proof.
  induction 1 as [| [k x] r Hx _ IH]; intros He ss Hss.
  - injection Hss as <-. cbn. repeat split; [lia | congruence | congruence].
  - cbn [forallb fst snd] in He. apply andb_true_iff in He as [Hex Her].
    apply res_all_cons in Hss as (sm & sr & Hsm & Hsr & ->).
    unfold simplejson.encode_member in Hsm. cbn [fst snd] in Hsm, Hx.
    destruct (simplejson.encode_key k) as [sk |] eqn:Hk; [| discriminate].
    cbn in Hsm.
    destruct (simplejson.encode Json.default x) as [sx |] eqn:Hsx; [| discriminate].
    injection Hsm as <-.
    destruct (Hx Hex sx eq_refl) as (Hst & Hlen & Hscan).
    destruct (IH Her sr Hsr) as (IHlen & IHst & IHscan).
    pose proof (member_text_length sk sx) as Hml.
    destruct r as [| y r'].
    + injection Hsr as <-.
      cbn [Text.join Body.need_members fold_right snd].
      repeat split; [lia | intros _; eexists; reflexivity |].
      intros fuel rest acc _ Hfuel. destruct fuel as [| m]; [lia |].
      rewrite member_text_app, scan_members_eq, scanstring_escaped.
      cbn [res_bind simplejson.skip_ws].
      change (simplejson.is_ws ":") with false. cbv iota.
      rewrite skip_ws_starts by exact Hst.
      rewrite Hscan by (reflexivity || lia).
      unfold Body.dict_of. cbn [fold_left fst snd]. rewrite (encode_key_text k sk Hk).
      reflexivity.
    + pose proof (res_all_length _ _ _ Hsr) as Hl.
      destruct sr as [| sy sr']; [discriminate Hl |].
      destruct IHst as [ry Hry]; [congruence |].
      rewrite join_cons2.
      change (Body.need_members ((k, x) :: y :: r'))
        with (S (Nat.max (Body.need x) (Body.need_members (y :: r')))).
      repeat split.
      * rewrite !length_append_s. cbn [String.length]. lia.
      * intros _. eexists. reflexivity.
      * intros fuel rest acc _ Hfuel. destruct fuel as [| m]; [lia |].
        rewrite append_assoc_s, member_text_app, scan_members_eq, scanstring_escaped.
        cbn [res_bind simplejson.skip_ws].
        change (simplejson.is_ws ":") with false. cbv iota.
        rewrite skip_ws_starts by exact Hst.
        rewrite append_assoc_s.
        change ("," ++ Text.join "," (sy :: sr') ++ String "}" rest)
          with (String "," (Text.join "," (sy :: sr') ++ String "}" rest)).
        rewrite Hscan by (reflexivity || lia).
        cbn [res_bind simplejson.skip_ws].
        change (simplejson.is_ws ",") with false. cbv iota.
        rewrite Hry, append_cons_s. cbn [simplejson.skip_ws].
        change (simplejson.is_ws Text.dquote) with false. cbv iota.
        rewrite <- append_cons_s, <- Hry.
        rewrite IHscan by (congruence || lia).
        unfold Body.dict_of. cbn [fold_left fst snd]. rewrite (encode_key_text k sk Hk).
        reflexivity.
Qed.

(** A written text starts with a quote and takes one call to read. *)
Lemma string_reads_back (o : pyval) (s : string) :
  Body.need o = 1%nat -> Body.loaded o = PStr s ->
  Body.reads_back o (simplejson.encode_basestring_ascii s).
Proof.
  intros Hn Hl. unfold Body.reads_back. rewrite Hn, Hl. repeat split.
  - cbn. lia.
  - intros fuel rest Hf _. destruct fuel as [| n]; [lia |]. apply scan_once_string.
Qed.

(** A written constant takes one call to read. *)
Lemma constant_reads_back (o v : pyval) (body : string) :
  Body.need o = 1%nat -> Body.loaded o = v ->
  Body.starts body = true ->
  (forall n rest, simplejson.scan_once (S n) (body ++ rest) = Ok (v, rest)) ->
  Body.reads_back o body.
Proof.
  intros Hn Hl Hs Hscan. unfold Body.reads_back. rewrite Hn, Hl. repeat split.
  - exact Hs.
  - apply starts_length, Hs.
  - intros fuel rest Hf _. destruct fuel as [| n]; [lia |]. apply Hscan.
Qed.

(** Every body the encoder writes for a value with no float in it is read
    back, from the first character to the last. *)
Lemma encode_reads_back (v : pyval) :
  Body.exact v = true ->
  forall body, simplejson.encode Json.default v = Ok body -> Body.reads_back v body.
Proof.
  induction v as [| b | z | r | s | l IHl | d IHd | da | dt | c e f | rows IHr | c pk | c]
    using pyval_parts_ind; intros Hex body Hb; try discriminate Hex.
  - injection Hb as <-. apply (constant_reads_back _ PNone); reflexivity.
  - destruct b; injection Hb as <-;
      [apply (constant_reads_back _ (PBool true)) | apply (constant_reads_back _ (PBool false))];
      reflexivity.
  - injection Hb as <-. unfold Body.reads_back. cbn [Body.need Body.loaded].
    pose proof (str_of_Z_starts z) as Hs. repeat split; [exact Hs | apply starts_length, Hs |].
    intros fuel rest Hf Hd. destruct fuel as [| n]; [lia |]. apply scan_once_int, Hd.
  - injection Hb as <-. apply string_reads_back; reflexivity.
  - cbn [simplejson.encode] in Hb.
    destruct (res_all (simplejson.encode Json.default) l) as [ss |] eqn:Hss;
      [| discriminate]. injection Hb as <-.
    cbn [Body.exact] in Hex.
    destruct (items_read_back l IHl Hex ss Hss) as (Hlen & Hst & Hscan).
    unfold Body.reads_back, simplejson.array_text.
    change (Body.need (PList l)) with (S (Body.need_items l)).
    change (Body.loaded (PList l)) with (PList (List.map Body.loaded l)).
    rewrite !append_cons_s. repeat split.
    + cbn [String.length]. rewrite !length_append_s. cbn [String.length]. lia.
    + intros fuel rest Hf _. destruct fuel as [| n]; [lia |].
      rewrite append_cons_s.
      change ("" ++ Text.join "," ss ++ "]") with (Text.join "," ss ++ "]").
      rewrite append_assoc_s.
      change ("]" ++ rest) with (String "]" rest).
      destruct l as [| x l'].
      * injection Hss as <-. reflexivity.
      * rewrite scan_once_array
          by (apply starts_app, Hst; congruence).
        rewrite Hscan by (congruence || lia). reflexivity.
  - cbn [simplejson.encode] in Hb.
    destruct (res_all (simplejson.encode_member (simplejson.encode Json.default)) d)
      as [ss |] eqn:Hss; [| discriminate]. injection Hb as <-.
    cbn [Body.exact] in Hex.
    destruct (members_read_back d IHd Hex ss Hss) as (Hlen & Hst & Hscan).
    unfold Body.reads_back, simplejson.object_text.
    change (Body.need (PDict d)) with (S (Body.need_members d)).
    change (Body.loaded (PDict d)) with (PDict (Body.dict_of Body.loaded d [])).
    rewrite !append_cons_s. repeat split.
    + cbn [String.length]. rewrite !length_append_s. cbn [String.length]. lia.
    + intros fuel rest Hf _. destruct fuel as [| n]; [lia |].
      rewrite append_cons_s.
      change ("" ++ Text.join "," ss ++ "}") with (Text.join "," ss ++ "}").
      rewrite append_assoc_s.
      change ("}" ++ rest) with (String "}" rest).
      destruct d as [| kv d'].
      * injection Hss as <-. reflexivity.
      * destruct Hst as [r Hr]; [congruence |].
        rewrite Hr, append_cons_s, scan_once_object, <- append_cons_s, <- Hr.
        rewrite Hscan by (congruence || lia). reflexivity.
  - injection Hb as <-. apply string_reads_back; reflexivity.
  - injection Hb as <-. apply string_reads_back; reflexivity.
  - cbn [simplejson.encode] in Hb.
    destruct (res_all (simplejson.encode Json.default) rows) as [ss |] eqn:Hss;
      [| discriminate]. injection Hb as <-.
    cbn [Body.exact] in Hex.
    destruct (items_read_back rows IHr Hex ss Hss) as (Hlen & Hst & Hscan).
    unfold Body.reads_back, simplejson.array_text.
    change (Body.need (PQuerySet rows)) with (S (Body.need_items rows)).
    change (Body.loaded (PQuerySet rows)) with (PList (List.map Body.loaded rows)).
    rewrite !append_cons_s. repeat split.
    + cbn [String.length]. rewrite !length_append_s. cbn [String.length]. lia.
    + intros fuel rest Hf _. destruct fuel as [| n]; [lia |].
      rewrite append_cons_s.
      change ("" ++ Text.join "," ss ++ "]") with (Text.join "," ss ++ "]").
      rewrite append_assoc_s.
      change ("]" ++ rest) with (String "]" rest).
      destruct rows as [| x l'].
      * injection Hss as <-. reflexivity.
      * rewrite scan_once_array
          by (apply starts_app, Hst; congruence).
        rewrite Hscan by (congruence || lia). reflexivity.
  - injection Hb as <-. apply (constant_reads_back _ PNone); reflexivity.
  - injection Hb as <-. apply (constant_reads_back _ PNone); reflexivity.
Qed.

(** A value with no float in it has no key the encoder refuses. *)
Lemma exact_keys_ok (v : pyval) : Body.exact v = true -> simplejson.keys_ok v = true.
Proof.
  induction v as [| b | z | r | s | l IHl | d IHd | da | dt | c e f | rows IHr | c pk | c]
    using pyval_parts_ind; cbn; intros H; try reflexivity; try discriminate.
  - rewrite forallb_forall in H |- *. rewrite Forall_forall in IHl.
    intros x Hx. apply IHl; [apply list_elem_of_In, Hx | apply H, Hx].
  - rewrite forallb_forall in H |- *. rewrite Forall_forall in IHd.
    intros [k x] Hx. specialize (H _ Hx). cbn in *.
    destruct (simplejson.encode_key k); [| discriminate].
    apply (IHd (k, x)); [apply list_elem_of_In, Hx | exact H].
  - rewrite forallb_forall in H |- *. rewrite Forall_forall in IHr.
    intros x Hx. apply IHr; [apply list_elem_of_In, Hx | apply H, Hx].
Qed.

(** A value with no [Decimal] in it has none that [float()] refuses. *)
Lemma exact_decimals_ok (v : pyval) : Body.exact v = true -> Json.decimals_ok v = true.
Proof.
  induction v as [| b | z | r | s | l IHl | d IHd | da | dt | c e f | rows IHr | c pk | c]
    using pyval_parts_ind; cbn; intros H; try reflexivity; try discriminate.
  - rewrite forallb_forall in H |- *. rewrite Forall_forall in IHl.
    intros x Hx. apply IHl; [apply list_elem_of_In, Hx | apply H, Hx].
  - rewrite forallb_forall in H |- *. rewrite Forall_forall in IHd.
    intros [k x] Hx. specialize (H _ Hx). cbn in *.
    destruct (simplejson.encode_key k); [| discriminate].
    apply (IHd (k, x)); [apply list_elem_of_In, Hx | exact H].
  - rewrite forallb_forall in H |- *. rewrite Forall_forall in IHr.
    intros x Hx. apply IHr; [apply list_elem_of_In, Hx | apply H, Hx].
Qed.

(** [loads] on a body the encoder wrote. *)
Lemma loads_reads_back (v : pyval) (body : string) :
  Body.reads_back v body -> simplejson.loads body = Ok (Body.loaded v).
Proof.
  intros (Hst & Hlen & Hscan). unfold simplejson.loads.
  rewrite <- (append_nil_s body) at 2.
  rewrite skip_ws_starts by exact Hst.
  rewrite Hscan by (reflexivity || lia). reflexivity.
Qed.

Lemma dict_set_fresh (k : string) (v : pyval) (acc : list (pyval * pyval)) :
  existsb (fun kv => eq_text k (fst kv)) acc = false ->
  simplejson.dict_set k v acc = (acc ++ [(PStr k, v)])%list.
Proof.
  induction acc as [| [k' v'] acc IH]; cbn; [reflexivity |].
  intros H. apply orb_false_iff in H as [Hk Hacc].
  destruct k'; cbn in Hk; rewrite ?Hk, (IH Hacc); reflexivity.
Qed.

(** On members under distinct text keys whose values are read back as
    they are, [dict] gives the members as they are. *)
Lemma dict_of_distinct (d acc : list (pyval * pyval)) :
  Forall (fun kv => Body.loaded (snd kv) = snd kv) d ->
  forallb (fun kv => match fst kv with PStr _ => true | _ => false end) d = true ->
  Body.distinct (List.map (fun kv => Body.key_text (fst kv)) d) = true ->
  (forall kv, In kv d ->
     existsb (fun a => eq_text (Body.key_text (fst kv)) (fst a)) acc = false) ->
  Body.dict_of Body.loaded d acc = (acc ++ d)%list.
Proof.
  intros HF. revert acc. induction HF as [| [k x] d Hx _ IH]; intros acc Hk Hd Hacc.
  - unfold Body.dict_of. cbn. rewrite app_nil_r. reflexivity.
  - cbn [forallb fst] in Hk. apply andb_true_iff in Hk as [Hk1 Hk].
    destruct k as [| | | | s | | | | | | | |]; try discriminate Hk1.
    cbn [List.map Body.distinct fst] in Hd. apply andb_true_iff in Hd as [Hd1 Hd].
    apply negb_true_iff in Hd1. cbn [snd] in Hx.
    unfold Body.dict_of in *. cbn [fold_left fst snd].
    change (Body.key_text (PStr s)) with s in *.
    rewrite Hx, dict_set_fresh by (apply (Hacc (PStr s, x)); left; reflexivity).
    rewrite IH; [rewrite <- app_assoc; reflexivity | exact Hk | exact Hd |].
    intros kv Hin. rewrite existsb_app. apply orb_false_iff. split.
    + apply Hacc. right. exact Hin.
    + cbn. rewrite orb_false_r.
      destruct (String.eqb (Body.key_text (fst kv)) s) eqn:E; [| reflexivity].
      apply String.eqb_eq in E.
      assert (Hex : existsb (String.eqb s) (List.map (fun kv => Body.key_text (fst kv)) d)
                    = true); [| congruence].
      apply existsb_exists. exists (Body.key_text (fst kv)). split.
      * apply in_map_iff. exists kv. auto.
      * rewrite E. apply String.eqb_refl.
Qed.

(** A value of JSON itself is read back as it is. *)
Lemma json_value_loaded (v : pyval) :
  Body.json_value v = true -> Body.loaded v = v /\ Body.exact v = true.
Proof.
  induction v as [| b | z | r | s | l IHl | d IHd | da | dt | c e f | rows IHr | c pk | c]
    using pyval_parts_ind; intros H; try discriminate H; try (split; reflexivity).
  - cbn [Body.json_value] in H. rewrite forallb_forall in H. rewrite Forall_forall in IHl.
    assert (Hall : forall x, In x l -> Body.loaded x = x /\ Body.exact x = true).
    { intros x Hx. apply IHl; [apply list_elem_of_In, Hx | apply H, Hx]. }
    split.
    + cbn [Body.loaded]. f_equal. clear -Hall.
      induction l as [| x l IH]; [reflexivity |]. cbn.
      rewrite (proj1 (Hall x (or_introl eq_refl))), IH; [reflexivity |].
      intros y Hy. apply Hall. right. exact Hy.
    + cbn [Body.exact]. apply forallb_forall. intros x Hx. apply Hall, Hx.
  - cbn [Body.json_value] in H. apply andb_true_iff in H as [Hm Hd].
    rewrite forallb_forall in Hm. rewrite Forall_forall in IHd.
    assert (Hall : forall kv, In kv d ->
               (exists s, fst kv = PStr s)
               /\ Body.loaded (snd kv) = snd kv /\ Body.exact (snd kv) = true).
    { intros [k x] Hx. specialize (Hm _ Hx). cbn in Hm |- *.
      destruct k; try discriminate Hm. split; [eauto |].
      apply (IHd (PStr s, x)); [apply list_elem_of_In, Hx | exact Hm]. }
    split.
    + change (Body.loaded (PDict d)) with (PDict (Body.dict_of Body.loaded d [])).
      rewrite dict_of_distinct; [reflexivity | | | exact Hd | reflexivity].
      * apply Forall_forall. intros kv Hkv. apply list_elem_of_In in Hkv.
        apply (Hall kv Hkv).
      * apply forallb_forall. intros kv Hkv.
        destruct (Hall kv Hkv) as [[s ->] _]. reflexivity.
    + cbn [Body.exact]. apply forallb_forall. intros kv Hkv.
      destruct (Hall kv Hkv) as ([s Hs] & _ & He). rewrite Hs. exact He.
Qed.

(** The encoder writes a body for a value with no float and no [Decimal]
    in it whose dict keys it writes, and [loads] reads the body back. *)
Lemma exact_body_reads_back (data : pyval) :
  Body.exact data = true ->
  exists body,
    Json.JsonEncoder_encode data = Ok body
    /\ simplejson.loads body = Ok (Body.loaded data).
Proof.
  intros Hex.
  destruct (encode_never_raises data (exact_keys_ok data Hex) (exact_decimals_ok data Hex))
    as [body Hb].
  exists body. split; [exact Hb |].
  apply loads_reads_back, encode_reads_back; assumption.
Qed.

(** X13: the body of a response is JSON that [loads] reads: for every
    data with no float and no [Decimal] in it whose dict keys the encoder
    writes, the construction of the response succeeds and [loads] reads
    the body back as the data with dates as their ISO 8601 text, query
    sets as lists, keys as text and unknown objects as [None]. *)
Theorem response_body_parses (c : response_class) (data : pyval) :
  Body.exact data = true ->
  exists r,
    Response.JsonResponse_init c data = Ok r
    /\ status_code r = Response.class_status_code c
    /\ simplejson.loads (content r) = Ok (Body.loaded data).
Proof.
  intros Hex.
  destruct (exact_body_reads_back data Hex) as (body & Hb & Hl).
  exists (mkresponse c (Response.class_status_code c) "application/json" body).
  unfold Response.JsonResponse_init, Response.set_content. rewrite Hb.
  repeat split. exact Hl.
Qed.

(** X14: round trip: for data made of [None], truth values, integers,
    texts, lists and dicts under distinct text keys, [loads] reads the
    body of the response back as the data itself. *)
Theorem json_value_roundtrip (c : response_class) (data : pyval) :
  Body.json_value data = true ->
  exists r,
    Response.JsonResponse_init c data = Ok r
    /\ simplejson.loads (content r) = Ok data.
Proof.
  intros H. destruct (json_value_loaded data H) as [Hl Hex].
  destruct (exact_body_reads_back data Hex) as (body & Hb & Hp).
  exists (mkresponse c (Response.class_status_code c) "application/json" body).
  unfold Response.JsonResponse_init, Response.set_content. rewrite Hb.
  split; [reflexivity |]. cbn [content]. rewrite Hl in Hp. exact Hp.
Qed.

(** X15: the message of a 400 response of the decorators is recovered
    from the body: for every text, [JsonResponseBadRequest(message)] is
    built, has status code 400, and [loads] reads its body back as the
    message. *)
Theorem bad_request_message_parses (message : string) :
  exists r,
    bad_request message = Ok r
    /\ status_code r = 400
    /\ simplejson.loads (content r) = Ok (PStr message).
Proof.
  rewrite bad_request_ok. eexists. repeat split. cbn [content].
  apply (loads_reads_back (PStr message)), string_reads_back; reflexivity.
Qed.

(** X16: what a client reads from an error response: when the message,
    the type and the field errors are values of JSON itself, [loads]
    reads the body back as a dict that has the message under
    ['error_message'], the type or else the status code under
    ['error_type'], and the field errors under ['field_errors'] exactly
    when they are true. *)
Theorem WithStatus_body_parses (c : response_class) (m t f : pyval) :
  Body.json_value m = true -> Body.json_value t = true -> Body.json_value f = true ->
  exists r d,
    Response.JsonResponseWithStatus_init c m t f = Ok r
    /\ status_code r = Response.class_status_code c
    /\ simplejson.loads (content r) = Ok (PDict d)
    /\ Response.dict_get "error_message" d = Some m
    /\ Response.dict_get "error_type" d
       = Some (if Py.truthy t then t else PInt (Response.class_status_code c))
    /\ Response.dict_get "field_errors" d = (if Py.truthy f then Some f else None).
Proof.
  intros Hm Ht Hf.
  assert (Hd : Body.json_value (PDict (Response.WithStatus_data c m t f)) = true).
  { unfold Response.WithStatus_data, Py.or_.
    destruct (Py.truthy f), (Py.truthy t); cbn; rewrite ?Hm, ?Ht, ?Hf; reflexivity. }
  destruct (json_value_loaded _ Hd) as [Hl Hex].
  destruct (exact_body_reads_back _ Hex) as (body & Hb & Hp).
  exists (mkresponse c (Response.class_status_code c) "application/json" body),
    (Response.WithStatus_data c m t f).
  rewrite Hl in Hp.
  unfold Response.JsonResponseWithStatus_init, Response.JsonResponse_init, Response.set_content.
  rewrite Hb.
  repeat split; auto; unfold Response.WithStatus_data, Py.or_;
    destruct (Py.truthy f), (Py.truthy t); reflexivity.
Qed.

(** X13 at a dict with a date under a text key and an object of an unknown
    class under an integer key. *)
Lemma response_body_parses_witness :
  exists r,
    Response.JsonResponse_init JsonResponse
      (PDict [(PStr "when", PDate (mkdate 2020 1 5)); (PInt 1, PObject "set")]) = Ok r
    /\ status_code r = 200
    /\ simplejson.loads (content r)
       = Ok (PDict [(PStr "when", PStr "2020-01-05"); (PStr "1", PNone)]).
Proof.
  refine (response_body_parses JsonResponse
            (PDict [(PStr "when", PDate (mkdate 2020 1 5)); (PInt 1, PObject "set")]) _).
  reflexivity.
Defined.

(** X14 at a list with a negative integer, a text and a dict. *)
Lemma json_value_roundtrip_witness :
  exists r,
    Response.JsonResponse_init JsonResponseCreated
      (PList [PInt (-3); PStr "a"; PDict [(PStr "k", PNone)]]) = Ok r
    /\ simplejson.loads (content r)
       = Ok (PList [PInt (-3); PStr "a"; PDict [(PStr "k", PNone)]]).
Proof.
  refine (json_value_roundtrip JsonResponseCreated
            (PList [PInt (-3); PStr "a"; PDict [(PStr "k", PNone)]]) _).
  reflexivity.
Defined.

(** X16 at [JsonResponseForbidden('no', field_errors={'x': ['required']})]. *)
Lemma WithStatus_body_parses_witness :
  exists r d,
    Response.JsonResponseWithStatus_init JsonResponseForbidden (PStr "no") PNone
      (PDict [(PStr "x", PList [PStr "required"])]) = Ok r
    /\ status_code r = 403
    /\ simplejson.loads (content r) = Ok (PDict d)
    /\ Response.dict_get "error_message" d = Some (PStr "no")
    /\ Response.dict_get "error_type" d = Some (PInt 403)
    /\ Response.dict_get "field_errors" d
       = Some (PDict [(PStr "x", PList [PStr "required"])]).
Proof.
  refine (WithStatus_body_parses JsonResponseForbidden (PStr "no") PNone
            (PDict [(PStr "x", PList [PStr "required"])]) _ _ _); reflexivity.
Defined.

(* ===================================================================== *)
(** ** The reader always answers *)
(* ===================================================================== *)

(** Skipping blanks does not lengthen a text. *)
Lemma skip_ws_length (s : string) :
  (String.length (simplejson.skip_ws s) <= String.length s)%nat.
Proof.
  induction s as [| c s IH]; cbn [simplejson.skip_ws String.length]; [lia |].
  destruct (simplejson.is_ws c); cbn [String.length]; lia.
Qed.

(** A character found after the blanks is a character of the text. *)
Lemma skip_ws_cons_length (s rest : string) (c : ascii) :
  simplejson.skip_ws s = String c rest -> (S (String.length rest) <= String.length s)%nat.
Proof.
  intros H. pose proof (skip_ws_length s) as Hl. rewrite H in Hl. exact Hl.
Qed.

(** Wrapping the value read keeps what is left. *)
Lemma within_bind {A B} (s s' : string) (r : res (A * string)) (f : A -> B) :
  Body.within s r -> (String.length s <= String.length s')%nat ->
  Body.within s' (let? (a, rest) := r in Ok (f a, rest)).
Proof.
  destruct r as [[a rest] | e]; cbn; [lia |]. destruct e; auto.
Qed.

(** A string literal is read past its closing quote, or refused with
    [ValueError]. *)
Lemma scanstring_within (s : string) : Body.within s (simplejson.scanstring s).
Proof.
  remember (String.length s) as n eqn:Hn. revert s Hn.
  induction n as [n IH] using lt_wf_ind. intros s Hn.
  destruct s as [| c r]; [exact I |]. cbn [simplejson.scanstring].
  destruct (Ascii.eqb c Text.dquote); [cbn; lia |].
  destruct (Ascii.eqb c "\").
  { destruct r as [| e r1]; [exact I |].
    destruct (Ascii.eqb e "u").
    - destruct r1 as [| h1 [| h2 [| h3 [| h4 r2]]]]; try exact I.
      destruct (simplejson.hex4 h1 h2 h3 h4); [| exact I].
      destruct (_ <? 256)%N; [| exact I].
      apply (within_bind r2); [| cbn; lia].
      apply (IH (String.length r2)); [subst n; cbn; lia | reflexivity].
    - destruct (simplejson.unescape e); [| exact I].
      apply (within_bind r1); [| cbn; lia].
      apply (IH (String.length r1)); [subst n; cbn; lia | reflexivity]. }
  destruct (_ <? 32)%N; [exact I |].
  apply (within_bind r); [| cbn; lia].
  apply (IH (String.length r)); [subst n; cbn; lia | reflexivity].
Qed.

(** A prefix taken off is the length of the prefix less. *)
Lemma strip_prefix_length (p s rest : string) :
  simplejson.strip_prefix p s = Some rest ->
  String.length s = (String.length p + String.length rest)%nat.
Proof.
  revert s. induction p as [| a p IH]; intros s; cbn.
  - intros [= ->]. reflexivity.
  - destruct s as [| b s]; [discriminate |].
    destruct (Ascii.eqb a b); [| discriminate].
    intros H. apply IH in H. cbn. lia.
Qed.

(** What follows the digits, the fraction and the exponent of a number
    is no longer than the text. *)
Lemma span_digits_length (s : string) :
  (String.length (snd (simplejson.span_digits s)) <= String.length s)%nat.
Proof.
  induction s as [| c s IH]; cbn; [lia |].
  destruct (simplejson.is_digit c); [| cbn; lia].
  destruct (simplejson.span_digits s) as [d rest]. cbn in *. lia.
Qed.

Lemma scan_frac_length (s : string) :
  (String.length (snd (simplejson.scan_frac s)) <= String.length s)%nat.
Proof.
  destruct s as [| c r]; [cbn; lia |].
  assert (H : simplejson.scan_frac (String c r) = ("", String c r)
              \/ simplejson.scan_frac (String c r)
                 = (let (d, rest) := simplejson.span_digits r in
                    if String.eqb d "" then ("", String c r) else ("." ++ d, rest))).
  { destruct c as [[] [] [] [] [] [] [] []]; auto. }
  destruct H as [-> | ->]; [cbn; lia |].
  pose proof (span_digits_length r) as Hl.
  destruct (simplejson.span_digits r) as [d rest]. cbn in Hl.
  destruct (String.eqb d ""); cbn; lia.
Qed.

Lemma scan_exp_length (s : string) :
  (String.length (snd (simplejson.scan_exp s)) <= String.length s)%nat.
Proof.
  destruct s as [| e r]; [cbn; lia |]. cbn [simplejson.scan_exp].
  destruct (Ascii.eqb e "e" || Ascii.eqb e "E"); [| cbn; lia].
  destruct r as [| g r0].
  - cbn. lia.
  - destruct (Ascii.eqb g "-" || Ascii.eqb g "+").
    + pose proof (span_digits_length r0) as Hl.
      destruct (simplejson.span_digits r0) as [d rest]. cbn in Hl.
      destruct (String.eqb d ""); cbn; lia.
    + pose proof (span_digits_length (String g r0)) as Hl.
      destruct (simplejson.span_digits (String g r0)) as [d rest]. cbn in Hl.
      destruct (String.eqb d ""); cbn in *; lia.
Qed.

(** A number read takes at least one character. *)
Lemma scan_number_length (s : string) (v : pyval) (rest : string) :
  simplejson.scan_number s = Some (v, rest) ->
  (String.length rest < String.length s)%nat.
Proof.
  unfold simplejson.scan_number.
  match goal with |- context [let (_, _) := ?p in _] => set (p0 := p) end.
  assert (Hp : (String.length (snd p0) <= String.length s)%nat).
  { subst p0. destruct s as [| [[] [] [] [] [] [] [] []] r]; cbn; lia. }
  destruct p0 as [neg s1]. cbn [snd] in Hp.
  destruct s1 as [| c r]; [discriminate |].
  destruct (simplejson.is_digit c) eqn:Hd; [| discriminate].
  match goal with |- context [let (_, _) := ?p in _] => set (q := p) end.
  assert (Hq : (String.length (snd q) < String.length (String c r))%nat).
  { subst q. destruct (Ascii.eqb c "0"); [cbn; lia |].
    cbn [simplejson.span_digits]. rewrite Hd.
    pose proof (span_digits_length r) as Hl.
    destruct (simplejson.span_digits r) as [d rest0]. cbn in *. lia. }
  destruct q as [int_part rest0]. cbn [snd] in Hq.
  pose proof (scan_frac_length rest0) as Hf.
  destruct (simplejson.scan_frac rest0) as [frac rest1].
  pose proof (scan_exp_length rest1) as He.
  destruct (simplejson.scan_exp rest1) as [exp rest2].
  cbn [snd] in *.
  destruct (_ && _); intros [= <- <-]; cbn in *; lia.
Qed.

(** One call of the reader, by the first character of the text. *)
Lemma scan_once_step (n : nat) (c : ascii) (r : string) :
  simplejson.scan_once (S n) (String c r)
  = if Ascii.eqb c Text.dquote then
      let? (t, rest) := simplejson.scanstring r in Ok (PStr t, rest)
    else if Ascii.eqb c "{" then
      match simplejson.skip_ws r with
      | String c1 rest =>
          if Ascii.eqb c1 "}" then Ok (PDict [], rest)
          else let? (d, rest') := simplejson.scan_members n (simplejson.skip_ws r) [] in
               Ok (PDict d, rest')
      | EmptyString =>
          let? (d, rest') := simplejson.scan_members n "" [] in Ok (PDict d, rest')
      end
    else if Ascii.eqb c "[" then
      match simplejson.skip_ws r with
      | String c1 rest =>
          if Ascii.eqb c1 "]" then Ok (PList [], rest)
          else let? (l, rest') := simplejson.scan_items n (simplejson.skip_ws r) in
               Ok (PList l, rest')
      | EmptyString =>
          let? (l, rest') := simplejson.scan_items n "" in Ok (PList l, rest')
      end
    else
      match simplejson.strip_prefix "null" (String c r),
            simplejson.strip_prefix "true" (String c r),
            simplejson.strip_prefix "false" (String c r) with
      | Some rest, _, _ => Ok (PNone, rest)
      | _, Some rest, _ => Ok (PBool true, rest)
      | _, _, Some rest => Ok (PBool false, rest)
      | _, _, _ =>
          match simplejson.scan_number (String c r) with
          | Some vr => Ok vr
          | None =>
              match simplejson.strip_prefix "NaN" (String c r),
                    simplejson.strip_prefix "Infinity" (String c r),
                    simplejson.strip_prefix "-Infinity" (String c r) with
              | Some rest, _, _ => Ok (PFloat "nan", rest)
              | _, Some rest, _ => Ok (PFloat "inf", rest)
              | _, _, Some rest => Ok (PFloat "-inf", rest)
              | _, _, _ => Raise simplejson.no_json
              end
          end
      end.
Proof.
  cbn [simplejson.scan_once].
  destruct (Ascii.eqb c Text.dquote); [reflexivity |].
  destruct (Ascii.eqb c "{").
  { destruct (simplejson.skip_ws r) as [| [[] [] [] [] [] [] [] []] rest]; reflexivity. }
  destruct (Ascii.eqb c "[").
  { destruct (simplejson.skip_ws r) as [| [[] [] [] [] [] [] [] []] rest]; reflexivity. }
  reflexivity.
Qed.

(** One call of the reader of items, by the character after the value. *)
Lemma scan_items_step (m : nat) (s : string) :
  simplejson.scan_items (S m) s
  = let? (v, rest) := simplejson.scan_once m s in
    match simplejson.skip_ws rest with
    | String c rest1 =>
        if Ascii.eqb c "]" then Ok ([v], rest1)
        else if Ascii.eqb c "," then
          let? (l, rest2) := simplejson.scan_items m (simplejson.skip_ws rest1) in
          Ok (v :: l, rest2)
        else Raise (ValueError "Expecting , delimiter")
    | EmptyString => Raise (ValueError "Expecting , delimiter")
    end.
Proof.
  cbn [simplejson.scan_items].
  destruct (simplejson.scan_once m s) as [[v rest] |]; [| reflexivity].
  cbn [res_bind].
  destruct (simplejson.skip_ws rest) as [| [[] [] [] [] [] [] [] []] rest1]; reflexivity.
Qed.

(** One call of the reader of members, by the characters after the key
    and after the value. *)
Lemma scan_members_step (m : nat) (s : string) (acc : list (pyval * pyval)) :
  simplejson.scan_members (S m) s acc
  = match s with
    | String q r =>
        if Ascii.eqb q Text.dquote then
          let? (k, rest) := simplejson.scanstring r in
          match simplejson.skip_ws rest with
          | String c rest1 =>
              if Ascii.eqb c ":" then
                let? (v, rest2) := simplejson.scan_once m (simplejson.skip_ws rest1) in
                match simplejson.skip_ws rest2 with
                | String c2 rest3 =>
                    if Ascii.eqb c2 "}" then Ok (simplejson.dict_set k v acc, rest3)
                    else if Ascii.eqb c2 "," then
                      simplejson.scan_members m (simplejson.skip_ws rest3)
                        (simplejson.dict_set k v acc)
                    else Raise (ValueError "Expecting , delimiter")
                | EmptyString => Raise (ValueError "Expecting , delimiter")
                end
              else Raise (ValueError "Expecting : delimiter")
          | EmptyString => Raise (ValueError "Expecting : delimiter")
          end
        else Raise (ValueError "Expecting property name")
    | EmptyString => Raise (ValueError "Expecting property name")
    end.
Proof.
  cbn [simplejson.scan_members].
  destruct s as [| q r]; [reflexivity |].
  destruct (Ascii.eqb q Text.dquote); [| reflexivity].
  destruct (simplejson.scanstring r) as [[k rest] |]; [| reflexivity].
  cbn [res_bind].
  destruct (simplejson.skip_ws rest) as [| [[] [] [] [] [] [] [] []] rest1]; try reflexivity.
  destruct (simplejson.scan_once m (simplejson.skip_ws rest1)) as [[v rest2] |];
    [| reflexivity].
  cbn [res_bind].
  destruct (simplejson.skip_ws rest2) as [| [[] [] [] [] [] [] [] []] rest3]; reflexivity.
Qed.

(** A constant or a number is read with at least one character, or
    refused with [ValueError]. *)
Lemma scan_atom_within (s : string) :
  Body.within s
    (match simplejson.strip_prefix "null" s,
           simplejson.strip_prefix "true" s,
           simplejson.strip_prefix "false" s with
     | Some rest, _, _ => Ok (PNone, rest)
     | _, Some rest, _ => Ok (PBool true, rest)
     | _, _, Some rest => Ok (PBool false, rest)
     | _, _, _ =>
         match simplejson.scan_number s with
         | Some vr => Ok vr
         | None =>
             match simplejson.strip_prefix "NaN" s,
                   simplejson.strip_prefix "Infinity" s,
                   simplejson.strip_prefix "-Infinity" s with
             | Some rest, _, _ => Ok (PFloat "nan", rest)
             | _, Some rest, _ => Ok (PFloat "inf", rest)
             | _, _, Some rest => Ok (PFloat "-inf", rest)
             | _, _, _ => Raise simplejson.no_json
             end
         end
     end).
Proof.
  destruct (simplejson.strip_prefix "null" s) as [rest |] eqn:E1.
  { apply strip_prefix_length in E1. cbn in *. lia. }
  destruct (simplejson.strip_prefix "true" s) as [rest |] eqn:E2.
  { apply strip_prefix_length in E2. cbn in *. lia. }
  destruct (simplejson.strip_prefix "false" s) as [rest |] eqn:E3.
  { apply strip_prefix_length in E3. cbn in *. lia. }
  destruct (simplejson.scan_number s) as [[v rest] |] eqn:E4.
  { apply scan_number_length in E4. exact E4. }
  destruct (simplejson.strip_prefix "NaN" s) as [rest |] eqn:E5.
  { apply strip_prefix_length in E5. cbn in *. lia. }
  destruct (simplejson.strip_prefix "Infinity" s) as [rest |] eqn:E6.
  { apply strip_prefix_length in E6. cbn in *. lia. }
  destruct (simplejson.strip_prefix "-Infinity" s) as [rest |] eqn:E7.
  { apply strip_prefix_length in E7. cbn in *. lia. }
  exact I.
Qed.

(** With twice the length of the text as fuel, and one or two more, the
    reader does not run out of it: it reads at least one character, or
    refuses the text with [ValueError]. *)
Lemma scan_fuel_enough (fuel : nat) :
  (forall s, (2 * String.length s + 1 <= fuel)%nat ->
             Body.within s (simplejson.scan_once fuel s))
  /\ (forall s, (2 * String.length s + 2 <= fuel)%nat ->
                Body.within s (simplejson.scan_items fuel s))
  /\ (forall s acc, (2 * String.length s + 2 <= fuel)%nat ->
                    Body.within s (simplejson.scan_members fuel s acc)).
Proof.
  induction fuel as [| n (IHo & IHi & IHm)]; [repeat split; intros; lia |].
  repeat split.
  - intros s Hf. destruct s as [| c r]; [exact I |].
    rewrite scan_once_step. cbn [String.length] in Hf.
    destruct (Ascii.eqb c Text.dquote).
    { apply (within_bind r); [apply scanstring_within | cbn; lia]. }
    destruct (Ascii.eqb c "{").
    { pose proof (skip_ws_length r) as Hl.
      destruct (simplejson.skip_ws r) as [| c1 rest] eqn:E.
      - apply (within_bind ""); [apply IHm; cbn; lia | cbn; lia].
      - destruct (Ascii.eqb c1 "}"); [cbn in *; lia |].
        apply (within_bind (String c1 rest)); [apply IHm; cbn in *; lia | cbn in *; lia]. }
    destruct (Ascii.eqb c "[").
    { pose proof (skip_ws_length r) as Hl.
      destruct (simplejson.skip_ws r) as [| c1 rest] eqn:E.
      - apply (within_bind ""); [apply IHi; cbn; lia | cbn; lia].
      - destruct (Ascii.eqb c1 "]"); [cbn in *; lia |].
        apply (within_bind (String c1 rest)); [apply IHi; cbn in *; lia | cbn in *; lia]. }
    apply scan_atom_within.
  - intros s Hf. rewrite scan_items_step.
    pose proof (IHo s ltac:(lia)) as Ho.
    destruct (simplejson.scan_once n s) as [[v rest] | e]; [| destruct e; exact Ho].
    cbn in Ho. cbn [res_bind].
    destruct (simplejson.skip_ws rest) as [| c rest1] eqn:E; [exact I |].
    apply skip_ws_cons_length in E.
    destruct (Ascii.eqb c "]"); [cbn; lia |].
    destruct (Ascii.eqb c ","); [| exact I].
    pose proof (skip_ws_length rest1) as Hl.
    apply (within_bind (simplejson.skip_ws rest1)); [apply IHi; lia | lia].
  - intros s acc Hf. rewrite scan_members_step.
    destruct s as [| q r]; [exact I |]. cbn [String.length] in Hf.
    destruct (Ascii.eqb q Text.dquote); [| exact I].
    pose proof (scanstring_within r) as Hs.
    destruct (simplejson.scanstring r) as [[k rest] | e]; [| destruct e; exact Hs].
    cbn in Hs. cbn [res_bind].
    destruct (simplejson.skip_ws rest) as [| c rest1] eqn:E; [exact I |].
    apply skip_ws_cons_length in E.
    destruct (Ascii.eqb c ":"); [| exact I].
    pose proof (skip_ws_length rest1) as Hl1.
    pose proof (IHo (simplejson.skip_ws rest1) ltac:(lia)) as Ho.
    destruct (simplejson.scan_once n (simplejson.skip_ws rest1)) as [[v rest2] | e];
      [| destruct e; exact Ho].
    cbn in Ho. cbn [res_bind].
    destruct (simplejson.skip_ws rest2) as [| c2 rest3] eqn:E2; [exact I |].
    apply skip_ws_cons_length in E2.
    destruct (Ascii.eqb c2 "}"); [cbn; lia |].
    destruct (Ascii.eqb c2 ","); [| exact I].
    pose proof (skip_ws_length rest3) as Hl3.
    pose proof (IHm (simplejson.skip_ws rest3) (simplejson.dict_set k v acc) ltac:(lia)) as Hm.
    destruct (simplejson.scan_members n (simplejson.skip_ws rest3) (simplejson.dict_set k v acc))
      as [[d rest4] | e]; [| destruct e; exact Hm].
    cbn in *. lia.
Qed.

(** [loads] never runs out of fuel: whatever the text, it returns a value
    or raises [ValueError], the exception [validate_json_request]
    catches. *)
Lemma loads_total (s : string) :
  (exists v, simplejson.loads s = Ok v) \/ (exists msg, simplejson.loads s = Raise (ValueError msg)).
Proof.
  unfold simplejson.loads.
  pose proof (skip_ws_length s) as Hl.
  pose proof (proj1 (scan_fuel_enough (S (S (2 * String.length s)))%nat) (simplejson.skip_ws s)
                ltac:(lia)) as H.
  destruct (simplejson.scan_once _ _) as [[v rest] | e]; cbn [res_bind].
  - destruct (simplejson.skip_ws rest); eauto.
  - right. destruct e; try contradiction. eauto.
Qed.

(** Arrays and objects that are cut short are refused with [ValueError]. *)
Lemma loads_truncated :
  (exists msg, simplejson.loads "[" = Raise (ValueError msg))
  /\ (exists msg, simplejson.loads "[[" = Raise (ValueError msg))
  /\ (exists msg, simplejson.loads "[1,[2,[" = Raise (ValueError msg))
  /\ (exists msg, simplejson.loads "{" = Raise (ValueError msg)).
Proof. repeat split; eexists; reflexivity. Qed.
